(** * Markdown Publisher: quota, moderation and publish orchestration

    A shallow embedding of the quota subsystem ([app/utils/quota.ts]), the
    content moderation helper ([app/utils/moderation.ts]), the id helper
    ([app/utils/id.ts]) and the route handlers that call them
    ([routes/home.tsx], [routes/document.tsx], [routes/api.quota.ts]),
    together with the D1 tables of the schema they read and write.

    Conventions of the embedding:
    - an instant is a [Z], the milliseconds since the Unix epoch, as
      [Date.prototype.getTime] returns it;
    - a JavaScript string is a [string] whose characters are UTF-16 code
      units below 256;
    - an [async] function is a computation in the monad [M]: it threads
      the database and either returns a value or throws;
    - a JavaScript number is a double; the quotas and counts of this
      program are integers, held in a [Z], and the subtraction of
      [consumeQuota] rounds its exact result to the nearest double
      ([Js.sub]); the quotients of the code (hours since the reset,
      kilobytes, the usage percentage) are rationals;
    - a D1 statement may throw (a storage fault); which statements do is
      read from a fault schedule carried by the world, so that every
      function stays executable;
    - where SQL leaves the order of rows open (rows that tie on the key of
      an [ORDER BY]), the order is the one of the engine that the database
      carries, and the properties hold for every engine;
    - [console.error] has no effect on any value that is modelled. *)

From Stdlib Require Import ZArith QArith Qround Lia String Ascii DecimalString Bool.
From stdpp Require Import base gmap list strings.

Open Scope Z_scope.

(* ================================================================== *)
(** * JavaScript strings and numbers *)
(* ================================================================== *)

Module Js.

(** A JavaScript number is a double. The numbers of this program are
    integers, and a [Z] stands for the number of that value; an operation
    on numbers returns the double nearest to the exact result. *)

(** The double nearest to the integer [z], ties to the even significand,
    for magnitudes below [2 ^ 1024]. *)
Definition roundDouble (z : Z) : Z :=
  let a := Z.abs z in
  if a <? 2 ^ 53 then z
  else
    let unit := 2 ^ (Z.log2 a - 52) in
    let q := a / unit in
    let r := a mod unit in
    let half := unit / 2 in
    let q' :=
      if r <? half then q
      else if half <? r then q + 1
      else if Z.even q then q else q + 1 in
    Z.sgn z * (q' * unit).

(** [a - b] on two numbers. *)
Definition sub (a b : Z) : Z := roundDouble (a - b).

(** The decimal digits of an integer, with its sign. *)
Definition decimal (n : Z) : string := NilZero.string_of_int (Z.to_int n).

(** The least number of digits [k], from [k] on, and the [k]-digit integer
    [s] for which [s * 10 ^ (n - k)] is the number [a], where [a] has [n]
    decimal digits: of two such [s] the one nearest to [a], the even one on
    a tie. *)
Fixpoint shortestDigits (fuel : nat) (k a n : Z) : option Z :=
  match fuel with
  | O => None
  | S fuel' =>
      let p := 10 ^ (n - k) in
      let lo := a / p in
      let hi := lo + 1 in
      let okLo := (roundDouble (lo * p) =? a) && (10 ^ (k - 1) <=? lo) in
      let okHi := (roundDouble (hi * p) =? a) && (hi <? 10 ^ k) in
      if okLo && okHi then
        let dLo := a - lo * p in
        let dHi := hi * p - a in
        if dLo <? dHi then Some lo
        else if dHi <? dLo then Some hi
        else if Z.even lo then Some lo else Some hi
      else if okLo then Some lo
      else if okHi then Some hi
      else shortestDigits fuel' (k + 1) a n
  end.

(** [String(n)] for an integer number [n]: the decimal digits below
    [10 ^ 21], and from there on the shortest digits that denote [n],
    followed by the exponent. A number just below a power of ten that this
    power denotes is printed as that power. *)
Definition ofZ (n : Z) : string :=
  let v := roundDouble n in
  let a := Z.abs v in
  if a <? 10 ^ 21 then decimal v
  else
    let sign := if v <? 0 then "-" else "" in
    let digits := Z.of_nat (String.length (decimal a)) in
    if roundDouble (10 ^ digits) =? a then sign ++ "1e+" ++ decimal digits
    else
      match shortestDigits 17 1 a digits with
      | Some s =>
          match decimal s with
          | String d rest =>
              sign
              ++ String d (match rest with EmptyString => "" | _ => "." ++ rest end)
              ++ "e+" ++ decimal (digits - 1)
          | EmptyString => decimal v
          end
      | None => decimal v
      end.

Definition isUpperAscii (c : ascii) : bool :=
  let n := N_of_ascii c in (65 <=? n)%N && (n <=? 90)%N.

Definition isLowerAscii (c : ascii) : bool :=
  let n := N_of_ascii c in (97 <=? n)%N && (n <=? 122)%N.

Definition isDigit (c : ascii) : bool :=
  let n := N_of_ascii c in (48 <=? n)%N && (n <=? 57)%N.

Definition upperChar (c : ascii) : ascii :=
  if isLowerAscii c then ascii_of_N (N_of_ascii c - 32) else c.

(** [s.toUpperCase()] on the ASCII letters. *)
Fixpoint toUpperCase (s : string) : string :=
  match s with
  | EmptyString => EmptyString
  | String c s' => String (upperChar c) (toUpperCase s')
  end.

(** [s.includes(p)]. *)
Fixpoint includes (p s : string) : bool :=
  String.prefix p s ||
  match s with
  | EmptyString => false
  | String _ s' => includes p s'
  end.

(** [s.split(sep)] for a one-character separator: the pieces, in order. *)
Fixpoint split (sep : ascii) (s : string) : list string :=
  match s with
  | EmptyString => [EmptyString]
  | String c s' =>
      if Ascii.eqb c sep then EmptyString :: split sep s'
      else match split sep s' with
           | p :: ps => String c p :: ps
           | [] => [String c EmptyString]
           end
  end.

(** White space and line terminators among the code units below 256. *)
Definition isSpace (c : ascii) : bool :=
  let n := N_of_ascii c in
  ((9 <=? n)%N && (n <=? 13)%N) || (n =? 32)%N || (n =? 160)%N.

Fixpoint trimStart (s : string) : string :=
  match s with
  | String c s' => if isSpace c then trimStart s' else s
  | EmptyString => EmptyString
  end.

Fixpoint trimEnd (s : string) : string :=
  match s with
  | EmptyString => EmptyString
  | String c s' =>
      match trimEnd s' with
      | EmptyString => if isSpace c then EmptyString else String c EmptyString
      | t => String c t
      end
  end.

(** [s.trim()]. *)
Definition trim (s : string) : string := trimEnd (trimStart s).

(** [s.substring(0, n)]. *)
Definition substring0 (n : Z) (s : string) : string :=
  String.substring 0 (Z.to_nat n) s.

(** [new TextEncoder().encode(s).length]: one byte for a code unit below
    128, two for the others below 256. *)
Fixpoint utf8Length (s : string) : Z :=
  match s with
  | EmptyString => 0
  | String c s' => (if (N_of_ascii c <? 128)%N then 1 else 2) + utf8Length s'
  end.

(** [s.replace(/\./g, '*')]. *)
Fixpoint replaceDots (s : string) : string :=
  match s with
  | EmptyString => EmptyString
  | String c s' => String (if Ascii.eqb c "." then "*"%char else c) (replaceDots s')
  end.

(** [a || b] on strings: the empty string is falsy. *)
Definition orElse (a : option string) (b : option string) : option string :=
  match a with
  | Some EmptyString | None => b
  | Some s => Some s
  end.

End Js.

Arguments Js.roundDouble : simpl never.
Arguments Js.sub : simpl never.

(* ================================================================== *)
(** * Instants and their two textual forms *)
(* ================================================================== *)

Module Time.

Definition msPerSecond : Z := 1000.
Definition msPerHour : Z := 1000 * 60 * 60.
Definition msPerDay : Z := 24 * msPerHour.

(** The proleptic Gregorian date (year, month 1..12, day 1..31) of a day
    number counted from 1970-01-01. *)
Definition civilFromDays (days : Z) : Z * Z * Z :=
  let z := days + 719468 in
  let era := z / 146097 in
  let doe := z mod 146097 in
  let yoe := (doe - doe / 1460 + doe / 36524 - doe / 146096) / 365 in
  let doy := doe - (365 * yoe + yoe / 4 - yoe / 100) in
  let mp := (5 * doy + 2) / 153 in
  let d := doy - (153 * mp + 2) / 5 + 1 in
  let m := if mp <? 10 then mp + 3 else mp - 9 in
  let y := yoe + era * 400 + (if m <=? 2 then 1 else 0) in
  (y, m, d).

(** Decimal with leading zeros up to [width] digits. *)
Definition pad (width : nat) (n : Z) : string :=
  let s := Js.ofZ n in
  String.concat "" (repeat "0"%string (width - String.length s)) ++ s.

Definition dateText (ms : Z) : string :=
  let '(y, m, d) := civilFromDays (ms / msPerDay) in
  pad 4 y ++ "-" ++ pad 2 m ++ "-" ++ pad 2 d.

Definition clockText (ms : Z) : string :=
  let t := ms mod msPerDay in
  pad 2 (t / msPerHour) ++ ":" ++ pad 2 (t mod msPerHour / 60000) ++ ":"
    ++ pad 2 (t mod 60000 / 1000).

(** [new Date(ms).toISOString()], for the years 0000 to 9999:
    [YYYY-MM-DDTHH:mm:ss.sssZ]. *)
Definition toISOString (ms : Z) : string :=
  dateText ms ++ "T" ++ clockText ms ++ "." ++ pad 3 (ms mod 1000) ++ "Z".

(** The text SQLite stores for [CURRENT_TIMESTAMP] at the instant [ms]:
    [YYYY-MM-DD HH:MM:SS], in UTC. *)
Definition sqliteTimestamp (ms : Z) : string :=
  dateText ms ++ " " ++ clockText ms.

(** [new Date(d.getFullYear(), d.getMonth(), d.getDate())]: midnight of
    the local calendar day of [today], for a zone at the fixed offset of
    [tzMinutes] minutes east of UTC. *)
Definition startOfLocalDay (tzMinutes : Z) (today : Z) : Z :=
  today - (today + tzMinutes * 60000) mod msPerDay.

(** SQLite's [a >= b] on two TEXT values (binary collation). *)
Definition textGe (a b : string) : bool := String.leb b a.

End Time.

(* ================================================================== *)
(** * Regular expressions of the moderation fallback *)
(* ================================================================== *)

Module Regex.

Inductive regex : Type :=
| Eps
| Lit (p : ascii -> bool)
| Seq (a b : regex)
| Alt (a b : regex)
| Star (a : regex)
| WordBoundary
| NotAhead (a : regex).

(** A position in the subject: the code unit before it, and what is left. *)
Definition cfg : Type := option ascii * string.

(** [\w]. *)
Definition isWord (c : ascii) : bool :=
  Js.isUpperAscii c || Js.isLowerAscii c || Js.isDigit c || Ascii.eqb c "_".

Definition wordBefore (c : cfg) : bool :=
  match fst c with Some a => isWord a | None => false end.

Definition wordAfter (c : cfg) : bool :=
  match snd c with String a _ => isWord a | EmptyString => false end.

(** The positions reached from each of [cs] by at most [n] further
    non-empty iterations of [step]. *)
Fixpoint iterate (n : nat) (step : cfg -> list cfg) (cs : list cfg) : list cfg :=
  match n with
  | O => cs
  | S n' =>
      match cs with
      | [] => []
      | _ => cs ++ iterate n' step (flat_map step cs)
      end
  end.

Definition shorter (c : cfg) (d : cfg) : bool :=
  (String.length (snd d) <? String.length (snd c))%nat.

(** All positions at which a match of [r] started at [c] can end. *)
Fixpoint run (r : regex) (c : cfg) : list cfg :=
  match r with
  | Eps => [c]
  | Lit p =>
      match snd c with
      | String a rest => if p a then [(Some a, rest)] else []
      | EmptyString => []
      end
  | Seq a b => flat_map (run b) (run a c)
  | Alt a b => run a c ++ run b c
  | Star a =>
      iterate (String.length (snd c))
        (fun d => filter (fun e => shorter d e = true) (run a d)) [c]
  | WordBoundary => if xorb (wordBefore c) (wordAfter c) then [c] else []
  | NotAhead a => match run a c with [] => [c] | _ => [] end
  end.

(** Does [r] match at some start position at or after [c]? *)
Fixpoint search (n : nat) (r : regex) (c : cfg) : bool :=
  match run r c with
  | _ :: _ => true
  | [] =>
      match n, snd c with
      | S n', String a rest => search n' r (Some a, rest)
      | _, _ => false
      end
  end.

(** [r.test(s)] for a freshly created regular expression ([lastIndex] 0). *)
Definition test (r : regex) (s : string) : bool :=
  search (String.length s) r (None, s).

(** A literal character under the [i] flag. *)
Definition chr (a : ascii) : regex :=
  Lit (fun c => Ascii.eqb (Js.upperChar c) (Js.upperChar a)).

(** A literal text under the [i] flag. *)
Fixpoint text (s : string) : regex :=
  match s with
  | EmptyString => Eps
  | String a s' => Seq (chr a) (text s')
  end.

Definition notChr (a : ascii) : regex := Lit (fun c => negb (Ascii.eqb c a)).
Definition word : regex := Lit isWord.
Definition space : regex := Lit Js.isSpace.
Definition plus (a : regex) : regex := Seq a (Star a).

End Regex.

(* ================================================================== *)
(** * The D1 database and the monad of asynchronous handlers *)
(* ================================================================== *)

(** A row of [quotas], keyed by [ip_address]. [last_reset] is the instant
    whose ISO text the column holds: the code writes it with
    [toISOString] and reads it back with [new Date(text)]. *)
Record QuotaRow : Type := {
  remaining_operations : Z;
  last_reset : Z;
  quota_created_at : Z
}.

(** A row of [operations]. [created_at] is the instant of the insertion;
    the column holds [Time.sqliteTimestamp created_at], the default
    [CURRENT_TIMESTAMP] of the schema. *)
Record OperationRow : Type := {
  op_id : Z;
  ip_address : string;
  operation_type : string;
  operation_count : Z;
  document_id : option string;
  created_at : Z
}.

(** A row of [documents], keyed by [id]. *)
Record DocumentRow : Type := {
  title : string;
  content : string;
  doc_created_at : Z
}.

(** A row of the grouped statistics query. *)
Record OperationGroup : Type := {
  group_type : string;
  total_count : Z;
  operation_instances : Z
}.

(** What SQL leaves to the engine: the order of rows that tie on the key
    of an [ORDER BY]. [firstOfTied] is given the positions of the
    operation records that tie for the first place and answers the one that
    comes first; [listedBefore g h] is whether the group [g] is listed
    before the group [h] of the same total. *)
Record Engine : Type := {
  firstOfTied : list nat -> nat;
  listedBefore : OperationGroup -> OperationGroup -> bool
}.

(** The three tables, and the engine that runs the statements. *)
Record D1Database : Type := {
  quotas : gmap string QuotaRow;
  operations : list OperationRow;
  documents : gmap string DocumentRow;
  engine : Engine
}.

Inductive JsError : Type :=
| D1Error             (* a storage fault *)
| ConstraintError     (* a primary key already present *)
| CollaboratorError   (* the rate limiter or the AI binding failed *)
| NotFoundResponse.   (* [new Response("Document not found", { status: 404 })] *)

Inductive Outcome (A : Type) : Type :=
| Returned (a : A)
| Thrown (e : JsError).
Arguments Returned {A} a.
Arguments Thrown {A} e.

(** The database and the schedule of storage faults: the n-th statement
    executed from now on throws when the n-th entry is [true]; past the end
    of the schedule no statement throws. *)
Record World : Type := {
  db : D1Database;
  faults : list bool
}.

Definition M (A : Type) : Type := World -> Outcome A * World.

Definition ret {A : Type} (a : A) : M A := fun w => (Returned a, w).

Definition throw {A : Type} (e : JsError) : M A := fun w => (Thrown e, w).

Definition bind {A B : Type} (m : M A) (k : A -> M B) : M B :=
  fun w =>
    match m w with
    | (Returned a, w') => k a w'
    | (Thrown e, w') => (Thrown e, w')
    end.

(** [try { body } catch (error) { handler }]. *)
Definition tryCatch {A : Type} (body : M A) (handler : JsError -> M A) : M A :=
  fun w =>
    match body w with
    | (Returned a, w') => (Returned a, w')
    | (Thrown e, w') => handler e w'
    end.

(** [await] on a collaborator whose outcome is known. *)
Definition await {A : Type} (o : Outcome A) : M A := fun w => (o, w).

Notation "'let*' x ':=' m 'in' k" := (bind m (fun x => k))
  (at level 10, x name, m at level 100, k at level 200).

(** One D1 statement: it throws when the schedule says so and leaves the
    tables as they were, otherwise it runs on the tables. *)
Definition statement {A : Type} (run : D1Database -> Outcome A * D1Database) : M A :=
  fun w =>
    match faults w with
    | true :: fs => (Thrown D1Error, {| db := db w; faults := fs |})
    | fs =>
        let '(o, d) := run (db w) in
        (o, {| db := d; faults := tail fs |})
    end.

Definition withQuotas (q : gmap string QuotaRow) (d : D1Database) : D1Database :=
  {| quotas := q; operations := operations d; documents := documents d;
     engine := engine d |}.

Definition withOperations (o : list OperationRow) (d : D1Database) : D1Database :=
  {| quotas := quotas d; operations := o; documents := documents d;
     engine := engine d |}.

Definition withDocuments (m : gmap string DocumentRow) (d : D1Database) : D1Database :=
  {| quotas := quotas d; operations := operations d; documents := m;
     engine := engine d |}.

(** [SELECT * FROM quotas WHERE ip_address = ?] then [.first()]. *)
Definition selectQuota (ip : string) : M (option QuotaRow) :=
  statement (fun d => (Returned (quotas d !! ip), d)).

(** [INSERT INTO quotas (ip_address, remaining_operations, last_reset)
    VALUES (?, ?, ?)]. *)
Definition insertQuota (ip : string) (remaining lastReset now : Z) : M unit :=
  statement (fun d =>
    match quotas d !! ip with
    | Some _ => (Thrown ConstraintError, d)
    | None =>
        (Returned tt,
         withQuotas (<[ip := {| remaining_operations := remaining;
                                last_reset := lastReset;
                                quota_created_at := now |}]> (quotas d)) d)
    end).

(** [UPDATE quotas SET remaining_operations = ?, last_reset = ?
    WHERE ip_address = ?]. *)
Definition updateQuotaReset (remaining lastReset : Z) (ip : string) : M unit :=
  statement (fun d =>
    (Returned tt,
     withQuotas (alter (fun r => {| remaining_operations := remaining;
                                    last_reset := lastReset;
                                    quota_created_at := quota_created_at r |})
                       ip (quotas d)) d)).

(** [UPDATE quotas SET remaining_operations = ? WHERE ip_address = ?]. *)
Definition updateQuotaRemaining (remaining : Z) (ip : string) : M unit :=
  statement (fun d =>
    (Returned tt,
     withQuotas (alter (fun r => {| remaining_operations := remaining;
                                    last_reset := last_reset r;
                                    quota_created_at := quota_created_at r |})
                       ip (quotas d)) d)).

(** [UPDATE quotas SET remaining_operations = remaining_operations + 1
    WHERE ip_address = ?]: the refund of the publish action. *)
Definition refundQuota (ip : string) : M unit :=
  statement (fun d =>
    (Returned tt,
     withQuotas (alter (fun r => {| remaining_operations := remaining_operations r + 1;
                                    last_reset := last_reset r;
                                    quota_created_at := quota_created_at r |})
                       ip (quotas d)) d)).

(** [INSERT INTO operations (ip_address, operation_type, operation_count,
    document_id) VALUES (?, ?, ?, ?)]. *)
Definition insertOperation (ip type : string) (count : Z) (doc : option string)
    (now : Z) : M unit :=
  statement (fun d =>
    (Returned tt,
     withOperations (operations d ++
        [{| op_id := Z.of_nat (length (operations d)) + 1;
            ip_address := ip;
            operation_type := type;
            operation_count := count;
            document_id := doc;
            created_at := now |}]) d)).

(** [SELECT * FROM documents WHERE id = ?] then [.first()]. *)
Definition selectDocument (id : string) : M (option DocumentRow) :=
  statement (fun d => (Returned (documents d !! id), d)).

(** [INSERT INTO documents (id, title, content) VALUES (?, ?, ?)]. *)
Definition insertDocument (id ttl body : string) (now : Z) : M unit :=
  statement (fun d =>
    match documents d !! id with
    | Some _ => (Thrown ConstraintError, d)
    | None =>
        (Returned tt,
         withDocuments (<[id := {| title := ttl; content := body;
                                   doc_created_at := now |}]> (documents d)) d)
    end).

Definition attachable (ip : string) (r : OperationRow) : bool :=
  String.eqb (ip_address r) ip &&
  match document_id r with None => true | Some _ => false end.

(** The positions of the rows that tie for the first place of
    [WHERE ip_address = ? AND document_id IS NULL ORDER BY created_at DESC]:
    the rows of [ip] without a document whose stored [created_at] text is
    not below that of any other such row. *)
Definition newestAttachable (ip : string) (rows : list OperationRow) : list nat :=
  let isAttachable i :=
    match rows !! i with Some r => attachable ip r | None => false end in
  let text i :=
    match rows !! i with
    | Some r => Time.sqliteTimestamp (created_at r)
    | None => EmptyString
    end in
  let candidates := List.filter isAttachable (seq 0 (length rows)) in
  List.filter (fun i => forallb (fun j => Time.textGe (text i) (text j)) candidates)
              candidates.

(** The position that [LIMIT 1] keeps: the one of the tied rows that the
    engine puts first. *)
Definition firstAttachable (e : Engine) (ip : string) (rows : list OperationRow)
    : option nat :=
  match newestAttachable ip rows with
  | [] => None
  | i :: tied =>
      let j := firstOfTied e (i :: tied) in
      if existsb (Nat.eqb j) (i :: tied) then Some j else Some i
  end.

(** [UPDATE operations SET document_id = ? WHERE ip_address = ? AND
    document_id IS NULL ORDER BY created_at DESC LIMIT 1]. *)
Definition attachDocumentId (id ip : string) : M unit :=
  statement (fun d =>
    (Returned tt,
     match firstAttachable (engine d) ip (operations d) with
     | None => d
     | Some i =>
         withOperations
           (alter (fun r => {| op_id := op_id r;
                               ip_address := ip_address r;
                               operation_type := operation_type r;
                               operation_count := operation_count r;
                               document_id := Some id;
                               created_at := created_at r |}) i (operations d)) d
     end)).

Fixpoint addToGroups (r : OperationRow) (gs : list OperationGroup) : list OperationGroup :=
  match gs with
  | [] => [{| group_type := operation_type r;
              total_count := operation_count r;
              operation_instances := 1 |}]
  | g :: gs' =>
      if String.eqb (group_type g) (operation_type r)
      then {| group_type := group_type g;
              total_count := total_count g + operation_count r;
              operation_instances := operation_instances g + 1 |} :: gs'
      else g :: addToGroups r gs'
  end.

(** [GROUP BY operation_type] with [SUM(operation_count)] and [COUNT]. *)
Definition groupByType (rows : list OperationRow) : list OperationGroup :=
  fold_right addToGroups [] rows.

Fixpoint insertGroup (e : Engine) (g : OperationGroup) (gs : list OperationGroup)
    : list OperationGroup :=
  match gs with
  | [] => [g]
  | h :: gs' =>
      if (total_count h <? total_count g)
         || ((total_count h =? total_count g) && listedBefore e g h)
      then g :: h :: gs'
      else h :: insertGroup e g gs'
  end.

(** [ORDER BY total_count DESC]: greater totals first, equal totals as the
    engine lists them. *)
Definition orderByTotalDesc (e : Engine) (gs : list OperationGroup) : list OperationGroup :=
  fold_right (insertGroup e) [] gs.

(** The [WHERE ip_address = ? AND created_at >= ?] of the statistics
    query: the second comparison is between the stored text of
    [created_at] and the bound text. *)
Definition since (ip since_text : string) (r : OperationRow) : bool :=
  String.eqb (ip_address r) ip &&
  Time.textGe (Time.sqliteTimestamp (created_at r)) since_text.

(** The statistics query of [getUsageStats], then [.all()]. *)
Definition selectOperationsSince (ip since_text : string) : M (list OperationGroup) :=
  statement (fun d =>
    (Returned (orderByTotalDesc (engine d)
                 (groupByType (filter (fun r => since ip since_text r = true)
                                      (operations d)))), d)).

(* ================================================================== *)
(** * [app/utils/quota.ts] *)
(* ================================================================== *)

Definition FREE_QUOTA : Z := 50.
Definition QUOTA_RESET_HOURS : Z := 24.

Record QuotaInfo : Type := {
  ip : string;
  remaining : Z;
  total : Z;
  resetTime : string;
  isNewUser : bool
}.

Record OperationResult : Type := {
  success : bool;
  quota : option QuotaInfo;
  error : option string
}.

(** The headers and the form field that the handlers read from a request. *)
Record Request : Type := {
  cfConnectingIP : option string;
  xForwardedFor : option string;
  formContent : option string
}.

Definition getClientIP (request : Request) : string :=
  match Js.orElse (cfConnectingIP request)
          (Js.orElse ((fun h => hd EmptyString (Js.split "," h)) <$> xForwardedFor request)
                     (Some "unknown"%string)) with
  | Some s => s
  | None => "unknown"%string
  end.

(** [(now.getTime() - lastReset.getTime()) / (1000 * 60 * 60)]. *)
Definition hoursSinceReset (now lastReset : Z) : Q :=
  (inject_Z (now - lastReset) / inject_Z (1000 * 60 * 60))%Q.

Definition windowEnd (from : Z) : string :=
  Time.toISOString (from + QUOTA_RESET_HOURS * 60 * 60 * 1000).

Definition checkQuota (ip : string) (now : Z) : M QuotaInfo :=
  tryCatch
    (let* existing := selectQuota ip in
     match existing with
     | None =>
         let* _ := insertQuota ip FREE_QUOTA now now in
         ret {| ip := ip;
                remaining := FREE_QUOTA;
                total := FREE_QUOTA;
                resetTime := windowEnd now;
                isNewUser := true |}
     | Some existing =>
         let lastReset := last_reset existing in
         if Qle_bool (inject_Z QUOTA_RESET_HOURS) (hoursSinceReset now lastReset) then
           let* _ := updateQuotaReset FREE_QUOTA now ip in
           ret {| ip := ip;
                  remaining := FREE_QUOTA;
                  total := FREE_QUOTA;
                  resetTime := windowEnd now;
                  isNewUser := false |}
         else
           ret {| ip := ip;
                  remaining := remaining_operations existing;
                  total := FREE_QUOTA;
                  resetTime := windowEnd lastReset;
                  isNewUser := false |}
     end)
    (fun error => throw error).

Definition insufficientQuota (remaining operationCount : Z) : string :=
  "Insufficient quota. You have " ++ Js.ofZ remaining
    ++ " documents remaining. This action requires " ++ Js.ofZ operationCount
    ++ " documents.".

Definition withRemaining (q : QuotaInfo) (r : Z) : QuotaInfo :=
  {| ip := ip q; remaining := r; total := total q;
     resetTime := resetTime q; isNewUser := isNewUser q |}.

Definition consumeQuota (ip operationType : string) (operationCount : Z)
    (documentId : option string) (now : Z) : M OperationResult :=
  tryCatch
    (let* quotaInfo := checkQuota ip now in
     if remaining quotaInfo <? operationCount then
       ret {| success := false;
              quota := Some quotaInfo;
              error := Some (insufficientQuota (remaining quotaInfo) operationCount) |}
     else
       let newRemaining := Js.sub (remaining quotaInfo) operationCount in
       let* _ := updateQuotaRemaining newRemaining ip in
       let* _ := insertOperation ip operationType operationCount
                   (Js.orElse documentId None) now in
       ret {| success := true;
              quota := Some (withRemaining quotaInfo newRemaining);
              error := None |})
    (fun _ =>
       ret {| success := false;
              quota := None;
              error := Some "Failed to process quota operation"%string |}).

Record UsageStats : Type := {
  stats_quota : QuotaInfo;
  operationsToday : Z;
  operationBreakdown : list OperationGroup;
  usagePercentage : Z
}.

(** [Math.round(x)]. *)
Definition mathRound (x : Q) : Z := Qfloor (Qplus x (Qmake 1 2)).

Definition percentageUsed (remaining : Z) : Z :=
  mathRound ((inject_Z (FREE_QUOTA - remaining) / inject_Z FREE_QUOTA) * inject_Z 100)%Q.

(** [getUsageStats]: [now] is the clock of the inner [checkQuota], [today]
    the one read for the start of the day, [tz] the zone of the runtime.
    [None] is the [null] of the [catch] branch. *)
Definition getUsageStats (tz : Z) (ip : string) (now today : Z) : M (option UsageStats) :=
  tryCatch
    (let* quota := checkQuota ip now in
     let startOfDay := Time.startOfLocalDay tz today in
     let* results := selectOperationsSince ip (Time.toISOString startOfDay) in
     let totalOperationsToday := fold_left (fun sum op => sum + total_count op) results 0 in
     ret (Some {| stats_quota := quota;
                  operationsToday := totalOperationsToday;
                  operationBreakdown := results;
                  usagePercentage := percentageUsed (remaining quota) |}))
    (fun _ => ret None).

(* ================================================================== *)
(** * [app/utils/id.ts] *)
(* ================================================================== *)

(** [crypto.randomUUID().substring(0, 8)], for the UUID that was drawn. *)
Definition generateShortId (uuid : string) : string := Js.substring0 8 uuid.

(* ================================================================== *)
(** * [app/utils/moderation.ts] *)
(* ================================================================== *)

(** What a field of the AI response can hold, as far as the code
    distinguishes: a string, another truthy value (with its
    [JSON.stringify] text), or a falsy non-string ([undefined], [null]). *)
Inductive JsValue : Type :=
| JsString (s : string)
| JsObject (json : string)
| JsNothing.

Record AiResponse : Type := {
  ai_response : JsValue;
  ai_output : JsValue
}.

Definition truthy (v : JsValue) : bool :=
  match v with
  | JsString EmptyString => false
  | JsString _ => true
  | JsObject _ => true
  | JsNothing => false
  end.

Record Moderation : Type := {
  safe : bool;
  reason : option string
}.

Definition suspiciousPatterns : list Regex.regex :=
  let notLt := Regex.notChr "<" in
  [ (* <script \b [^<]* (?: (?!<\/script>) < [^<]* )* <\/script>, flags gi *)
    Regex.Seq (Regex.text "<script")
      (Regex.Seq Regex.WordBoundary
        (Regex.Seq (Regex.Star notLt)
          (Regex.Seq
            (Regex.Star
              (Regex.Seq (Regex.NotAhead (Regex.text "</script>"))
                (Regex.Seq (Regex.chr "<") (Regex.Star notLt))))
            (Regex.text "</script>"))));
    (* <iframe \b [^>]* >, flags gi *)
    Regex.Seq (Regex.text "<iframe")
      (Regex.Seq Regex.WordBoundary
        (Regex.Seq (Regex.Star (Regex.notChr ">")) (Regex.chr ">")));
    (* javascript:, flags gi *)
    Regex.text "javascript:";
    (* data:text\/html, flags gi *)
    Regex.text "data:text/html";
    (* vbscript:, flags gi *)
    Regex.text "vbscript:";
    (* on \w+ \s* =, flags gi *)
    Regex.Seq (Regex.text "on")
      (Regex.Seq (Regex.plus Regex.word)
        (Regex.Seq (Regex.Star Regex.space) (Regex.chr "="))) ].

Definition basicContentCheck (content : string) : Moderation :=
  if existsb (fun pattern => Regex.test pattern content) suspiciousPatterns then
    {| safe := false; reason := Some "Content contains potentially malicious code"%string |}
  else if (50000 <? Z.of_nat (String.length content)) then
    {| safe := false; reason := Some "Content exceeds reasonable length limits"%string |}
  else {| safe := true; reason := None |}.

Definition moderationPrompt (content : string) : string :=
  let dq := String "034" EmptyString in
  let nl := String "010" EmptyString in
  "Please analyze the following content for potential security risks, malicious code, harmful content, spam, or inappropriate material. Respond with only "
  ++ dq ++ "SAFE" ++ dq ++ " if the content is acceptable, or " ++ dq
  ++ "UNSAFE: [brief reason]" ++ dq ++ " if it should be blocked."
  ++ nl ++ nl ++ "Content to analyze:" ++ nl ++ Js.substring0 20000 content.

(** [moderateContent(content, ai)], for an AI binding that answers the
    prompt with [ai prompt]: a response, or an exception. *)
Definition moderateContent (content : string) (ai : string -> Outcome AiResponse)
    : M Moderation :=
  tryCatch
    (let* response := await (ai (moderationPrompt content)) in
     let aiResponse :=
       if truthy (ai_response response) then ai_response response
       else if truthy (ai_output response) then ai_output response
       else JsString EmptyString in
     let responseText :=
       match aiResponse with
       | JsString s => s
       | JsObject json => json
       | JsNothing => EmptyString
       end in
     if Js.includes "UNSAFE" (Js.toUpperCase responseText) then
       let reason :=
         Js.orElse (Js.trim <$> (Js.split ":" responseText !! 1%nat))
                   (Some "Content flagged as potentially harmful"%string) in
       ret {| safe := false; reason := reason |}
     else ret {| safe := true; reason := None |})
    (fun _ => ret (basicContentCheck content)).

(* ================================================================== *)
(** * The route handlers *)
(* ================================================================== *)

(** The bindings of [context.cloudflare.env] other than the database, and
    the UUID that [crypto.randomUUID] draws. *)
Record Context : Type := {
  PUBLISH_RATE_LIMITER : string -> Outcome bool;
  AI : string -> Outcome AiResponse;
  randomUUID : string
}.

(** The object an action returns: [{ error, quota }] or
    [{ success: true, id, quota }]. *)
Record ActionData : Type := {
  act_success : bool;
  act_id : option string;
  act_error : option string;
  act_quota : option QuotaInfo
}.

Definition actionError (msg : option string) (q : option QuotaInfo) : ActionData :=
  {| act_success := false; act_id := None; act_error := msg; act_quota := q |}.

(** [1.8 * 1024 * 1024]. *)
Definition maxSize : Q := ((18 # 10) * inject_Z 1024 * inject_Z 1024)%Q.

Definition tooLarge (contentSize : Z) : string :=
  "Document is too large (" ++ Js.ofZ (mathRound (inject_Z contentSize / inject_Z 1024)%Q)
    ++ "KB). Maximum size is " ++ Js.ofZ (mathRound (maxSize / inject_Z 1024)%Q) ++ "KB.".

Definition rateLimited : string :=
  "Rate limit exceeded. Please wait before publishing again.".

Definition contentBlocked (reason : option string) : string :=
  "Content blocked: " ++ match reason with Some r => r | None => "undefined" end.

Definition saveFailed : string := "Failed to save document".

(** [routes/home.tsx], [loader]. *)
Definition homeLoader (request : Request) (now : Z) : M QuotaInfo :=
  checkQuota (getClientIP request) now.

(** [routes/home.tsx], [action]. A [Some] from a stage is its [return]. *)
Definition action (request : Request) (context : Context) (now : Z) : M ActionData :=
  match formContent request with
  | None | Some EmptyString => ret (actionError (Some "Content is required"%string) None)
  | Some content =>
      let ip := getClientIP request in
      let contentSize := Js.utf8Length content in
      if negb (Qle_bool (inject_Z contentSize) maxSize) then
        ret (actionError (Some (tooLarge contentSize)) None)
      else
        let* quotaResult := consumeQuota ip "publish" 1 None now in
        if negb (success quotaResult) then
          ret (actionError (error quotaResult) (quota quotaResult))
        else
          let rateLimitKey := ("publish:" ++ ip)%string in
          let* limited :=
            tryCatch
              (let* ok := await (PUBLISH_RATE_LIMITER context rateLimitKey) in
               if negb ok then
                 let* _ := refundQuota ip in
                 ret (Some (actionError (Some rateLimited) None))
               else ret None)
              (fun _ => ret None) in
          match limited with
          | Some result => ret result
          | None =>
              let* blocked :=
                tryCatch
                  (let* moderationResult := moderateContent content (AI context) in
                   if negb (safe moderationResult) then
                     let* _ := refundQuota ip in
                     ret (Some (actionError
                                  (Some (contentBlocked (reason moderationResult))) None))
                   else ret None)
                  (fun _ => ret None) in
              match blocked with
              | Some result => ret result
              | None =>
                  let id := generateShortId (randomUUID context) in
                  tryCatch
                    (let* _ := insertDocument id "Untitled Document" content now in
                     let* _ := attachDocumentId id ip in
                     ret {| act_success := true; act_id := Some id;
                            act_error := None; act_quota := quota quotaResult |})
                    (fun _ =>
                       let* _ := refundQuota ip in
                       ret (actionError (Some saveFailed) None))
              end
          end
  end.

(** [routes/document.tsx], [loader]. *)
Definition documentLoader (id : string) (request : Request) (now : Z) : M DocumentRow :=
  tryCatch
    (let* result := selectDocument id in
     match result with
     | None => throw NotFoundResponse
     | Some document =>
         let* _ :=
           tryCatch
             (let ip := getClientIP request in
              let* _ := consumeQuota ip "view" 1 (Some id) now in
              ret tt)
             (fun _ => ret tt) in
         ret document
     end)
    (fun _ => throw NotFoundResponse).

(** The JSON response of [routes/api.quota.ts]. *)
Inductive ApiBody : Type :=
| ApiError (msg : string)
| ApiUsage (maskedIp : string) (stats : UsageStats).

(** [routes/api.quota.ts], [loader]: the status and the body. *)
Definition apiQuotaLoader (tz : Z) (request : Request) (now today : Z) : M (Z * ApiBody) :=
  let ip := getClientIP request in
  tryCatch
    (let* stats := getUsageStats tz ip now today in
     match stats with
     | None => ret (500, ApiError "Failed to fetch usage stats")
     | Some stats => ret (200, ApiUsage (Js.replaceDots ip) stats)
     end)
    (fun _ => ret (500, ApiError "Internal server error")).

(** One request served to completion. *)
Inductive Call : Type :=
| CallHome (request : Request) (now : Z)
| CallPublish (request : Request) (context : Context) (now : Z)
| CallDocument (id : string) (request : Request) (now : Z)
| CallApiQuota (tz : Z) (request : Request) (now today : Z).

(** The world after a request has been served. *)
Definition serve (w : World) (c : Call) : World :=
  match c with
  | CallHome request now => snd (homeLoader request now w)
  | CallPublish request context now => snd (action request context now w)
  | CallDocument id request now => snd (documentLoader id request now w)
  | CallApiQuota tz request now today => snd (apiQuotaLoader tz request now today w)
  end.

(** The world after a sequence of requests served one after the other. *)
Definition serveAll (w : World) (calls : list Call) : World :=
  fold_left serve calls w.

(** The values that the [Home] component of [routes/home.tsx] derives
    from its props and state before it renders. *)
Record HomeView : Type := {
  view_quota : option QuotaInfo;
  isLowQuota : bool;
  isOutOfQuota : bool;
  showsQuota : bool;
  sizeKB : Z;
  maxSizeKB : Z;
  isNearLimit : bool;
  isOverLimit : bool;
  publishDisabled : bool;
  buttonLabel : string
}.

(** [a > b] on two numbers. *)
Definition Qgt_bool (a b : Q) : bool := negb (Qle_bool a b).

(** [Home({ actionData, loaderData })] with the editor holding [content]
    and [navigation.state === "submitting"] being [isSubmitting]. *)
Definition Home (actionData : option ActionData) (loaderData : option QuotaInfo)
    (content : string) (isSubmitting : bool) : HomeView :=
  let quota :=
    match actionData with
    | Some data => match act_quota data with Some q => Some q | None => loaderData end
    | None => loaderData
    end in
  let isLowQuota := match quota with Some q => remaining q <? 10 | None => false end in
  let isOutOfQuota := match quota with Some q => remaining q =? 0 | None => false end in
  let contentSize := Js.utf8Length content in
  let isNearLimit := Qgt_bool (inject_Z contentSize) (maxSize * (8 # 10))%Q in
  let isOverLimit := Qgt_bool (inject_Z contentSize) maxSize in
  {| view_quota := quota;
     isLowQuota := isLowQuota;
     isOutOfQuota := isOutOfQuota;
     showsQuota := match quota with Some q => remaining q <=? 10 | None => false end;
     sizeKB := mathRound (inject_Z contentSize / inject_Z 1024)%Q;
     maxSizeKB := mathRound (maxSize / inject_Z 1024)%Q;
     isNearLimit := isNearLimit;
     isOverLimit := isOverLimit;
     publishDisabled :=
       isSubmitting || String.eqb (Js.trim content) EmptyString || isOverLimit
       || isOutOfQuota;
     buttonLabel :=
       if isSubmitting then "PUBLISHING..."
       else if isOutOfQuota then "QUOTA EXCEEDED" else "PUBLISH DOCUMENT" |}.

(* ================================================================== *)
(** * The spec's own wording, and sample data *)
(* ================================================================== *)

(** The spec's [operationsToday]: the sum of [operationCount] over the
    operation records of the identity created since the start of the
    local calendar day. *)
Definition operationsSinceLocalDayStart (tz : Z) (ip : string) (today : Z)
    (rows : list OperationRow) : Z :=
  fold_right Z.add 0
    (map operation_count
       (filter (fun r => String.eqb (ip_address r) ip &&
                         (Time.startOfLocalDay tz today <=? created_at r) = true)
               rows)).

Definition sampleIp : string := "203.0.113.7".

(** 2024-01-15T12:00:00.123Z. *)
Definition sampleNow : Z := 1705320000123.

Definition sampleRequest (content : option string) : Request :=
  {| cfConnectingIP := Some sampleIp; xForwardedFor := None; formContent := content |}.

Definition sampleDocument : DocumentRow :=
  {| title := "Untitled Document"; content := "# Hello"; doc_created_at := sampleNow |}.

(** An engine that lists tied rows in the order of their insertion. *)
Definition insertionOrder : Engine :=
  {| firstOfTied := fun tied => hd 0%nat tied;
     listedBefore := fun _ _ => false |}.

Definition emptyDb : D1Database :=
  {| quotas := ∅; operations := []; documents := ∅; engine := insertionOrder |}.

(** One identity with [remaining] operations left since [lastReset], and
    one published document. *)
Definition sampleDb (remaining lastReset : Z) : D1Database :=
  {| quotas := {[ sampleIp := {| remaining_operations := remaining;
                                 last_reset := lastReset;
                                 quota_created_at := lastReset |} ]};
     operations := [];
     documents := {[ "a1b2c3d4"%string := sampleDocument ]};
     engine := insertionOrder |}.

(** A content of 2097152 bytes, above the size limit. *)
Definition bigContent : string := Nat.iter 21 (fun s => (s ++ s)%string) "a"%string.

(** 32768 characters of padding, more than the AI is shown. *)
Definition padding : string := Nat.iter 15 (fun s => (s ++ s)%string) "a"%string.

(** A world without storage faults. *)
Definition quiet (d : D1Database) : World := {| db := d; faults := [] |}.

(** A world whose next statement throws. *)
Definition failing (d : D1Database) : World := {| db := d; faults := [true] |}.

(** Bindings that answer: the limiter lets through or not, the AI says
    [answer] or is down. *)
Definition sampleContext (allowed : bool) (answer : option string) : Context :=
  {| PUBLISH_RATE_LIMITER := fun _ => Returned allowed;
     AI := fun _ =>
             match answer with
             | Some text => Returned {| ai_response := JsString text; ai_output := JsNothing |}
             | None => Thrown CollaboratorError
             end;
     randomUUID := "123e4567-e89b-12d3-a456-426614174000" |}.

(** Bindings whose UUID starts with the id of the sample document, so
    that saving fails on the primary key. *)
Definition collidingContext : Context :=
  {| PUBLISH_RATE_LIMITER := fun _ => Returned true;
     AI := fun _ => Returned {| ai_response := JsString "SAFE"; ai_output := JsNothing |};
     randomUUID := "a1b2c3d4-0000-4000-8000-000000000000" |}.

(* ================================================================== *)
(** * Predicates of the statements *)
(* ================================================================== *)

(** [wp m Q w]: running [m] in [w] ends in an outcome and a world that
    satisfy [Q]. Every handler is a total function, so this also says that
    the run ends. *)
Definition wp {A : Type} (m : M A) (Q : Outcome A -> World -> Prop) (w : World) : Prop :=
  Q (fst (m w)) (snd (m w)).

(** The first [n] statements executed from [w] on do not throw. *)
Definition faultFree (n : nat) (w : World) : bool :=
  forallb negb (take n (faults w)).

(** The stored remaining quota of [ip], when it has a row. *)
Definition stored (ip : string) (w : World) : option Z :=
  remaining_operations <$> (quotas (db w) !! ip).

(** The window of a row is still open at [now]. *)
Definition inWindow (now : Z) (row : QuotaRow) : Prop :=
  now - last_reset row < Time.msPerDay.

(** Every stored remaining quota lies between 0 and the daily limit. *)
Definition quotaBounded (d : D1Database) : Prop :=
  map_Forall (fun _ row => 0 <= remaining_operations row <= FREE_QUOTA) (quotas d).

(** No stored remaining quota is negative. *)
Definition quotaNonneg (d : D1Database) : Prop :=
  map_Forall (fun _ row => 0 <= remaining_operations row) (quotas d).

(** As [quotaBounded], and the row of [ip] has room for a refund. *)
Definition refundable (ip : string) (d : D1Database) : Prop :=
  quotaBounded d /\
  forall row, quotas d !! ip = Some row -> remaining_operations row < FREE_QUOTA.

(** The rows that [checkQuota] and [consumeQuota] write. *)
Definition freshRow (now : Z) : QuotaRow :=
  {| remaining_operations := FREE_QUOTA; last_reset := now; quota_created_at := now |}.

Definition resetRow (now : Z) (row : QuotaRow) : QuotaRow :=
  {| remaining_operations := FREE_QUOTA; last_reset := now;
     quota_created_at := quota_created_at row |}.

Definition chargedRow (r : Z) (row : QuotaRow) : QuotaRow :=
  {| remaining_operations := r; last_reset := last_reset row;
     quota_created_at := quota_created_at row |}.

(** The action returned from one of its three refund branches. *)
Definition refundError (data : ActionData) : Prop :=
  act_error data = Some rateLimited \/
  (exists reason, act_error data = Some (contentBlocked reason)) \/
  act_error data = Some saveFailed.

(** The result of [consumeQuota] when a statement has thrown. *)
Definition quotaFailure : OperationResult :=
  {| success := false; quota := None;
     error := Some "Failed to process quota operation"%string |}.

(** Sums over operation records and over the groups of the query. *)
Definition sumCounts (rows : list OperationRow) : Z :=
  fold_right Z.add 0 (map operation_count rows).

Definition sumTotals (gs : list OperationGroup) : Z :=
  fold_right Z.add 0 (map total_count gs).

(** The record that a successful [consumeQuota] appends to the log. *)
Definition loggedRow (ip type : string) (count : Z) (doc : option string) (now : Z)
    (rows : list OperationRow) : OperationRow :=
  {| op_id := Z.of_nat (length rows) + 1; ip_address := ip; operation_type := type;
     operation_count := count; document_id := Js.orElse doc None; created_at := now |}.

(** The three stages of [action] that follow a successful charge, each as
    the code has it. *)
Definition limiterStage (ip : string) (context : Context) : M (option ActionData) :=
  tryCatch
    (let* ok := await (PUBLISH_RATE_LIMITER context ("publish:" ++ ip)) in
     if negb ok then
       let* _ := refundQuota ip in
       ret (Some (actionError (Some rateLimited) None))
     else ret None)
    (fun _ => ret None).

Definition moderationStage (ip content : string) (context : Context)
    : M (option ActionData) :=
  tryCatch
    (let* moderationResult := moderateContent content (AI context) in
     if negb (safe moderationResult) then
       let* _ := refundQuota ip in
       ret (Some (actionError (Some (contentBlocked (reason moderationResult))) None))
     else ret None)
    (fun _ => ret None).

Definition saveStage (ip content : string) (context : Context) (now : Z)
    (q : option QuotaInfo) : M ActionData :=
  let id := generateShortId (randomUUID context) in
  tryCatch
    (let* _ := insertDocument id "Untitled Document" content now in
     let* _ := attachDocumentId id ip in
     ret {| act_success := true; act_id := Some id;
            act_error := None; act_quota := q |})
    (fun _ =>
       let* _ := refundQuota ip in
       ret (actionError (Some saveFailed) None)).

(** The two statements of the [try] block of the save stage. *)
Definition persistDocument (ip content : string) (context : Context) (now : Z) : M unit :=
  let id := generateShortId (randomUUID context) in
  let* _ := insertDocument id "Untitled Document" content now in
  attachDocumentId id ip.

(** The document that a publish stores. *)
Definition publishedDocument (content : string) (now : Z) : DocumentRow :=
  {| title := "Untitled Document"; content := content; doc_created_at := now |}.

(** The update of [attachDocumentId] on one record. *)
Definition setDocument (id : string) (r : OperationRow) : OperationRow :=
  {| op_id := op_id r; ip_address := ip_address r; operation_type := operation_type r;
     operation_count := operation_count r; document_id := Some id;
     created_at := created_at r |}.

(** [r'] is the record [r], possibly with a document id attached to a
    record that had none. *)
Definition keeps (r r' : OperationRow) : Prop :=
  op_id r' = op_id r /\ ip_address r' = ip_address r /\
  operation_type r' = operation_type r /\ operation_count r' = operation_count r /\
  created_at r' = created_at r /\
  (document_id r = None \/ document_id r' = document_id r).

(** The log [new] is the log [old] with records appended and document ids
    attached: every record of [old] is kept at its position. *)
Definition logExtends (old new : list OperationRow) : Prop :=
  forall i r, old !! i = Some r -> exists r', new !! i = Some r' /\ keeps r r'.

(* ================================================================== *)
(** * Properties *)
(* ================================================================== *)

(** ** Numbers *)

(** Below [2 ^ 53] in magnitude every integer is a double. *)
Lemma roundDouble_exact z : Z.abs z < 2 ^ 53 -> Js.roundDouble z = z.
Proof.
  intros H. unfold Js.roundDouble.
  destruct (Z.ltb_spec (Z.abs z) (2 ^ 53)); [reflexivity | lia].
Qed.

Lemma roundDouble_nonneg z : 0 <= z -> 0 <= Js.roundDouble z.
Proof.
  intros H. unfold Js.roundDouble.
  destruct (Z.ltb_spec (Z.abs z) (2 ^ 53)); [exact H|].
  assert (Hu : 0 <= 2 ^ (Z.log2 (Z.abs z) - 52)) by (apply Z.pow_nonneg; lia).
  assert (Hq : 0 <= Z.abs z / 2 ^ (Z.log2 (Z.abs z) - 52))
    by (apply Z_div_nonneg_nonneg; lia).
  apply Z.mul_nonneg_nonneg; [lia|].
  apply Z.mul_nonneg_nonneg; [|exact Hu].
  repeat match goal with |- context [if ?b then _ else _] => destruct b end; lia.
Qed.

(** A subtraction whose exact result is below [2 ^ 53] in magnitude is
    exact. *)
Lemma sub_exact a b : - 2 ^ 53 < a - b < 2 ^ 53 -> Js.sub a b = a - b.
Proof. intros H. apply roundDouble_exact. lia. Qed.

Lemma sub_nonneg a b : b <= a -> 0 <= Js.sub a b.
Proof. intros H. apply roundDouble_nonneg. lia. Qed.

(** ** Reasoning about handlers *)

Lemma wp_ret {A : Type} (a : A) (Q : Outcome A -> World -> Prop) w :
  Q (Returned a) w -> wp (ret a) Q w.
Proof. intros H. exact H. Qed.

Lemma wp_throw {A : Type} e (Q : Outcome A -> World -> Prop) w :
  Q (Thrown e) w -> wp (throw e) Q w.
Proof. intros H. exact H. Qed.

Lemma wp_await {A : Type} (o : Outcome A) (Q : Outcome A -> World -> Prop) w :
  Q o w -> wp (await o) Q w.
Proof. intros H. exact H. Qed.

Lemma wp_bind {A B : Type} (m : M A) (k : A -> M B) (Q : Outcome B -> World -> Prop) w :
  wp m (fun o w' =>
          match o with
          | Returned a => wp (k a) Q w'
          | Thrown e => Q (Thrown e) w'
          end) w ->
  wp (bind m k) Q w.
Proof.
  unfold wp, bind. destruct (m w) as [[a|e] w']; simpl; intros H; exact H.
Qed.

Lemma wp_tryCatch {A : Type} (body : M A) (handler : JsError -> M A)
    (Q : Outcome A -> World -> Prop) w :
  wp body (fun o w' =>
             match o with
             | Returned a => Q (Returned a) w'
             | Thrown e => wp (handler e) Q w'
             end) w ->
  wp (tryCatch body handler) Q w.
Proof.
  unfold wp, tryCatch. destruct (body w) as [[a|e] w']; simpl; intros H; exact H.
Qed.

Lemma wp_conseq {A : Type} (m : M A) (Q Q' : Outcome A -> World -> Prop) w :
  wp m Q w -> (forall o w', Q o w' -> Q' o w') -> wp m Q' w.
Proof. unfold wp. intros H HQ. apply HQ, H. Qed.

Lemma wp_elim {A : Type} (m : M A) (Q : Outcome A -> World -> Prop) w o w' :
  wp m Q w -> m w = (o, w') -> Q o w'.
Proof. unfold wp. intros H E. rewrite E in H. exact H. Qed.

(** A statement either throws and leaves the tables alone, or runs. *)
Lemma wp_statement {A : Type} (run : D1Database -> Outcome A * D1Database)
    (Q : Outcome A -> World -> Prop) w :
  Q (Thrown D1Error) {| db := db w; faults := tail (faults w) |} ->
  Q (fst (run (db w))) {| db := snd (run (db w)); faults := tail (faults w) |} ->
  wp (statement run) Q w.
Proof.
  unfold wp, statement. intros Ht Hr.
  destruct (faults w) as [|[] fs]; simpl in *;
    try exact Ht; destruct (run (db w)); exact Hr.
Qed.

(** A statement that the schedule lets through. *)
Lemma statement_run {A : Type} (run : D1Database -> Outcome A * D1Database) w :
  faultFree 1 w = true ->
  statement run w =
    (fst (run (db w)), {| db := snd (run (db w)); faults := tail (faults w) |}).
Proof.
  unfold faultFree, statement. intros H.
  destruct (faults w) as [|[] fs]; simpl in *; try discriminate;
    destruct (run (db w)); reflexivity.
Qed.

(** A statement that the schedule makes throw. *)
Lemma statement_fault {A : Type} (run : D1Database -> Outcome A * D1Database) w :
  head (faults w) = Some true ->
  statement run w = (Thrown D1Error, {| db := db w; faults := tail (faults w) |}).
Proof.
  unfold statement. intros H.
  destruct (faults w) as [|[] fs]; simpl in *; try discriminate; reflexivity.
Qed.

Lemma faultFree_S n w :
  faultFree (S n) w = true ->
  faultFree 1 w = true /\
  forall d, faultFree n {| db := d; faults := tail (faults w) |} = true.
Proof.
  unfold faultFree. destruct (faults w) as [|b fs]; simpl.
  - intros _. split; [reflexivity|]. intros _. destruct n; reflexivity.
  - intros H. apply andb_true_iff in H as [Hb Hfs]. rewrite Hb.
    split; [reflexivity|]. intros _. exact Hfs.
Qed.

(** ** The window test *)

Lemma expired_iff now lastReset :
  Qle_bool (inject_Z QUOTA_RESET_HOURS) (hoursSinceReset now lastReset) = true <->
  Time.msPerDay <= now - lastReset.
Proof.
  rewrite Qle_bool_iff. unfold hoursSinceReset, Qle, Qdiv, Qmult, Qinv, inject_Z.
  unfold QUOTA_RESET_HOURS, Time.msPerDay, Time.msPerHour.
  change (1000 * 60 * 60) with 3600000. cbn [Qnum Qden].
  rewrite Pos.mul_1_l. lia.
Qed.

Lemma inWindow_iff now row :
  Qle_bool (inject_Z QUOTA_RESET_HOURS) (hoursSinceReset now (last_reset row)) = false <->
  inWindow now row.
Proof.
  unfold inWindow. rewrite <- not_true_iff_false, expired_iff. lia.
Qed.

(** ** [checkQuota], case by case *)

Ltac run_statement H :=
  let H1 := fresh "Hnow" in
  let H2 := fresh "Hlater" in
  apply faultFree_S in H as [H1 H2];
  rewrite (statement_run _ _ H1); clear H1; cbn [fst snd db faults].

Lemma checkQuota_new ip now w :
  quotas (db w) !! ip = None ->
  faultFree 2 w = true ->
  checkQuota ip now w =
    (Returned {| ip := ip; remaining := FREE_QUOTA; total := FREE_QUOTA;
                 resetTime := windowEnd now; isNewUser := true |},
     {| db := withQuotas (<[ip := freshRow now]> (quotas (db w))) (db w);
        faults := tail (tail (faults w)) |}).
Proof.
  intros Hnone Hff. unfold checkQuota, tryCatch, bind, selectQuota, insertQuota.
  run_statement Hff. rewrite Hnone.
  specialize (Hlater (db w)). run_statement Hlater.
  rewrite Hnone. reflexivity.
Qed.

Lemma checkQuota_expired ip now w row :
  quotas (db w) !! ip = Some row ->
  Time.msPerDay <= now - last_reset row ->
  faultFree 2 w = true ->
  checkQuota ip now w =
    (Returned {| ip := ip; remaining := FREE_QUOTA; total := FREE_QUOTA;
                 resetTime := windowEnd now; isNewUser := false |},
     {| db := withQuotas (<[ip := resetRow now row]> (quotas (db w))) (db w);
        faults := tail (tail (faults w)) |}).
Proof.
  intros Hrow Hexp Hff. unfold checkQuota, tryCatch, bind, selectQuota, updateQuotaReset.
  run_statement Hff. rewrite Hrow.
  apply expired_iff in Hexp. rewrite Hexp.
  specialize (Hlater (db w)). run_statement Hlater.
  unfold ret. do 3 f_equal. unfold withQuotas. f_equal.
  apply map_eq. intros k. rewrite lookup_alter, lookup_insert.
  destruct (decide (ip = k)) as [<-|]; [rewrite Hrow|]; reflexivity.
Qed.

Lemma checkQuota_open ip now w row :
  quotas (db w) !! ip = Some row ->
  inWindow now row ->
  faultFree 1 w = true ->
  checkQuota ip now w =
    (Returned {| ip := ip; remaining := remaining_operations row; total := FREE_QUOTA;
                 resetTime := windowEnd (last_reset row); isNewUser := false |},
     {| db := db w; faults := tail (faults w) |}).
Proof.
  intros Hrow Hwin Hff. unfold checkQuota, tryCatch, bind, selectQuota.
  run_statement Hff. rewrite Hrow.
  apply inWindow_iff in Hwin. rewrite Hwin. reflexivity.
Qed.

(** What [consumeQuota] does once the window check has returned. *)
Lemma consumeQuota_after_check ip type count doc now w info w1 :
  checkQuota ip now w = (Returned info, w1) ->
  consumeQuota ip type count doc now w =
    if remaining info <? count then
      (Returned {| success := false; quota := Some info;
                   error := Some (insufficientQuota (remaining info) count) |}, w1)
    else
      tryCatch
        (let* _ := updateQuotaRemaining (Js.sub (remaining info) count) ip in
         let* _ := insertOperation ip type count (Js.orElse doc None) now in
         ret {| success := true;
                quota := Some (withRemaining info (Js.sub (remaining info) count));
                error := None |})
        (fun _ => ret {| success := false; quota := None;
                         error := Some "Failed to process quota operation"%string |}) w1.
Proof.
  intros Hcheck. unfold consumeQuota, tryCatch at 1. unfold bind at 1.
  rewrite Hcheck. destruct (remaining info <? count); reflexivity.
Qed.

(** What a successful deduction and log entry leave behind. *)
Lemma charge_run ip type count doc now info w1 :
  faultFree 2 w1 = true ->
  tryCatch
    (let* _ := updateQuotaRemaining (Js.sub (remaining info) count) ip in
     let* _ := insertOperation ip type count (Js.orElse doc None) now in
     ret {| success := true;
            quota := Some (withRemaining info (Js.sub (remaining info) count));
            error := None |})
    (fun _ => ret {| success := false; quota := None;
                     error := Some "Failed to process quota operation"%string |}) w1 =
  (Returned {| success := true;
               quota := Some (withRemaining info (Js.sub (remaining info) count));
               error := None |},
   {| db := withOperations
              (operations (db w1) ++
                 [{| op_id := Z.of_nat (length (operations (db w1))) + 1;
                     ip_address := ip; operation_type := type;
                     operation_count := count; document_id := Js.orElse doc None;
                     created_at := now |}])
              (withQuotas (alter (chargedRow (Js.sub (remaining info) count)) ip
                             (quotas (db w1))) (db w1));
      faults := tail (tail (faults w1)) |}).
Proof.
  intros Hff. unfold tryCatch, bind, updateQuotaRemaining, insertOperation.
  run_statement Hff.
  specialize (Hlater (withQuotas (alter (chargedRow (Js.sub (remaining info) count)) ip
                                    (quotas (db w1))) (db w1))).
  unfold chargedRow in *. run_statement Hlater. reflexivity.
Qed.

(** C5. For an identity with no quota record, the first [checkQuota]
    (with no storage fault) persists a record with the daily limit as
    remaining quota and [now] as last reset, and returns a [QuotaInfo]
    with [remaining = total = dailyLimit = 50], [isNewUser = true] and a
    reset time of [now] plus 24 hours. *)
Theorem checkQuota_first_call ip now w :
  quotas (db w) !! ip = None ->
  faultFree 2 w = true ->
  exists w',
    checkQuota ip now w =
      (Returned {| ip := ip; remaining := FREE_QUOTA; total := FREE_QUOTA;
                   resetTime := Time.toISOString (now + 24 * Time.msPerHour);
                   isNewUser := true |}, w') /\
    quotas (db w') !! ip =
      Some {| remaining_operations := FREE_QUOTA; last_reset := now;
              quota_created_at := now |} /\
    FREE_QUOTA = 50.
Proof.
  intros Hnone Hff. eexists. split; [|split].
  - rewrite (checkQuota_new _ _ _ Hnone Hff). reflexivity.
  - cbn [db quotas withQuotas]. apply lookup_insert_eq.
  - reflexivity.
Qed.

(** C3. For a stored record whose last reset is at least 24 hours before
    [now], [checkQuota] (with no storage fault) sets the remaining quota
    to the daily limit and the last reset to [now], whatever the remaining
    quota was, and returns [remaining = dailyLimit] with
    [isNewUser = false]; [consumeQuota] starts from that reset record: it
    stores the number [dailyLimit - operationCount], the exact difference
    for every [operationCount] above [dailyLimit - 2 ^ 53]. *)
Theorem checkQuota_resets_expired_window ip now w row :
  quotas (db w) !! ip = Some row ->
  Time.msPerDay <= now - last_reset row ->
  faultFree 2 w = true ->
  (exists info w',
     checkQuota ip now w = (Returned info, w') /\
     remaining info = FREE_QUOTA /\ total info = FREE_QUOTA /\
     isNewUser info = false /\
     quotas (db w') !! ip =
       Some {| remaining_operations := FREE_QUOTA; last_reset := now;
               quota_created_at := quota_created_at row |}) /\
  (forall type count doc,
     faultFree 4 w = true ->
     exists res w' row',
       consumeQuota ip type count doc now w = (Returned res, w') /\
       quotas (db w') !! ip = Some row' /\
       last_reset row' = now /\
       remaining_operations row' =
         (if FREE_QUOTA <? count then FREE_QUOTA else Js.sub FREE_QUOTA count) /\
       (- 2 ^ 53 + FREE_QUOTA < count ->
        remaining_operations row' =
          if FREE_QUOTA <? count then FREE_QUOTA else FREE_QUOTA - count)).
Proof.
  intros Hrow Hexp Hff.
  pose proof (checkQuota_expired _ _ _ _ Hrow Hexp Hff) as Hcheck.
  split.
  - do 2 eexists. split; [exact Hcheck|]. cbn [remaining total isNewUser db quotas withQuotas].
    repeat split. apply lookup_insert_eq.
  - intros type count doc Hff4.
    remember {| ip := ip; remaining := FREE_QUOTA; total := FREE_QUOTA;
                resetTime := windowEnd now; isNewUser := false |} as info eqn:Hinfo.
    assert (Hrem : remaining info = FREE_QUOTA) by (subst info; reflexivity).
    rewrite (consumeQuota_after_check _ _ _ _ _ _ _ _ Hcheck).
    destruct (remaining info <? count) eqn:Hlt; rewrite Hrem in Hlt; rewrite Hlt.
    + do 3 eexists. split; [reflexivity|]. cbn [db quotas withQuotas].
      rewrite lookup_insert_eq. repeat split.
    + apply faultFree_S in Hff4 as [_ Hff3]. specialize (Hff3 (db w)).
      apply faultFree_S in Hff3 as [_ Hff2].
      rewrite charge_run by apply Hff2.
      do 3 eexists. split; [reflexivity|].
      cbn [db quotas withQuotas withOperations].
      rewrite lookup_alter, decide_True by reflexivity.
      rewrite lookup_insert_eq. cbn. rewrite Hrem. repeat split.
      intros Hsafe. apply sub_exact. apply Z.ltb_ge in Hlt.
      unfold FREE_QUOTA in *. lia.
Qed.

(** ** [checkQuota] and [consumeQuota] under any fault schedule *)

(** What a returning [checkQuota] has done: one of its three branches. *)
Lemma checkQuota_returned ip now w info w1 :
  checkQuota ip now w = (Returned info, w1) ->
  (quotas (db w) !! ip = None /\
   info = {| ip := ip; remaining := FREE_QUOTA; total := FREE_QUOTA;
             resetTime := windowEnd now; isNewUser := true |} /\
   db w1 = withQuotas (<[ip := freshRow now]> (quotas (db w))) (db w)) \/
  (exists row,
     quotas (db w) !! ip = Some row /\ Time.msPerDay <= now - last_reset row /\
     info = {| ip := ip; remaining := FREE_QUOTA; total := FREE_QUOTA;
               resetTime := windowEnd now; isNewUser := false |} /\
     db w1 = withQuotas (<[ip := resetRow now row]> (quotas (db w))) (db w)) \/
  (exists row,
     quotas (db w) !! ip = Some row /\ inWindow now row /\
     info = {| ip := ip; remaining := remaining_operations row; total := FREE_QUOTA;
               resetTime := windowEnd (last_reset row); isNewUser := false |} /\
     db w1 = db w).
Proof.
  intros Hcheck.
  destruct (decide (head (faults w) = Some true)) as [Hf|Hf].
  { unfold checkQuota, tryCatch, bind, selectQuota in Hcheck.
    rewrite (statement_fault _ _ Hf) in Hcheck. discriminate. }
  assert (Hff : faultFree 1 w = true).
  { unfold faultFree. destruct (faults w) as [|[] fs]; simpl in *; congruence. }
  destruct (quotas (db w) !! ip) as [row|] eqn:Hrow.
  - destruct (Z_lt_le_dec (now - last_reset row) Time.msPerDay) as [Hwin|Hexp].
    + right; right. exists row.
      rewrite (checkQuota_open _ _ _ _ Hrow Hwin Hff) in Hcheck.
      injection Hcheck as <- <-. auto.
    + right; left. exists row.
      destruct (decide (head (tail (faults w)) = Some true)) as [Hf2|Hf2].
      * unfold checkQuota, tryCatch, bind, selectQuota, updateQuotaReset in Hcheck.
        rewrite (statement_run _ _ Hff) in Hcheck. cbn [fst snd] in Hcheck.
        rewrite Hrow in Hcheck. apply expired_iff in Hexp. rewrite Hexp in Hcheck.
        rewrite statement_fault in Hcheck by exact Hf2. discriminate.
      * assert (Hff2 : faultFree 2 w = true).
        { unfold faultFree in *. destruct (faults w) as [|[] [|[] fs]]; simpl in *; congruence. }
        rewrite (checkQuota_expired _ _ _ _ Hrow Hexp Hff2) in Hcheck.
        injection Hcheck as <- <-. auto.
  - left.
    destruct (decide (head (tail (faults w)) = Some true)) as [Hf2|Hf2].
    + unfold checkQuota, tryCatch, bind, selectQuota, insertQuota in Hcheck.
      rewrite (statement_run _ _ Hff) in Hcheck. cbn [fst snd] in Hcheck.
      rewrite Hrow in Hcheck.
      rewrite statement_fault in Hcheck by exact Hf2. discriminate.
    + assert (Hff2 : faultFree 2 w = true).
      { unfold faultFree in *. destruct (faults w) as [|[] [|[] fs]]; simpl in *; congruence. }
      rewrite (checkQuota_new _ _ _ Hrow Hff2) in Hcheck.
      injection Hcheck as <- <-. auto.
Qed.

(** A throwing [checkQuota] has written nothing. *)
Lemma checkQuota_thrown ip now w e w1 :
  checkQuota ip now w = (Thrown e, w1) -> db w1 = db w.
Proof.
  unfold checkQuota, tryCatch, bind, throw, selectQuota, insertQuota, updateQuotaReset,
    statement, ret.
  destruct (faults w) as [|[] [|[] fs]]; cbn [fst snd db faults tail];
    destruct (quotas (db w) !! ip) as [row|] eqn:Hrow; cbn [fst snd db faults tail];
    try destruct (Qle_bool _ _); cbn [fst snd db faults tail];
    try rewrite Hrow; intros H; inversion H; reflexivity.
Qed.

(** After a returning [checkQuota] the row of [ip] holds the remaining
    quota that was returned. *)
Lemma checkQuota_stored ip now w info w1 :
  checkQuota ip now w = (Returned info, w1) ->
  stored ip w1 = Some (remaining info).
Proof.
  intros H. unfold stored.
  destruct (checkQuota_returned _ _ _ _ _ H)
    as [(_ & -> & ->) | [(row & _ & _ & -> & ->) | (row & Hrow & _ & -> & ->)]];
    cbn [quotas withQuotas remaining].
  - rewrite lookup_insert_eq. reflexivity.
  - rewrite lookup_insert_eq. reflexivity.
  - rewrite Hrow. reflexivity.
Qed.

(** [consumeQuota] returns a structured result under every schedule. *)
Lemma consumeQuota_returns ip type count doc now w :
  exists res w', consumeQuota ip type count doc now w = (Returned res, w').
Proof.
  unfold consumeQuota, tryCatch, ret.
  match goal with |- context [match ?b w with _ => _ end] => destruct (b w) as [[res|e] w'] end;
    eauto.
Qed.

(** C2. When the remaining quota after the window check is strictly less
    than [operationCount], [consumeQuota] returns [success: false] with
    that [QuotaInfo] and the insufficient-quota message, and writes
    nothing: the world is the one the window check left. For a record
    whose window is open that is the database as it was; with
    [remaining = 0] and [operationCount = 1] the call fails and the stored
    remaining quota stays 0. *)
Theorem consumeQuota_insufficient ip type count doc now w info w1 :
  checkQuota ip now w = (Returned info, w1) ->
  remaining info < count ->
  consumeQuota ip type count doc now w =
    (Returned {| success := false; quota := Some info;
                 error := Some (insufficientQuota (remaining info) count) |}, w1) /\
  stored ip w1 = Some (remaining info) /\
  (forall row, quotas (db w) !! ip = Some row -> inWindow now row ->
     db w1 = db w /\ remaining info = remaining_operations row).
Proof.
  intros Hcheck Hlt. split; [|split].
  - rewrite (consumeQuota_after_check _ _ _ _ _ _ _ _ Hcheck).
    apply Z.ltb_lt in Hlt. rewrite Hlt. reflexivity.
  - exact (checkQuota_stored _ _ _ _ _ Hcheck).
  - intros row Hrow Hwin.
    destruct (checkQuota_returned _ _ _ _ _ Hcheck)
      as [(Hnone & _) | [(row' & Hrow' & Hexp & _) | (row' & Hrow' & _ & -> & ->)]].
    + congruence.
    + unfold inWindow in Hwin. assert (row' = row) by congruence. subst. lia.
    + assert (row' = row) by congruence. subst. auto.
Qed.


(** ** The bound on the stored quota *)

Lemma quotaBounded_same d d' :
  quotas d' = quotas d -> quotaBounded d -> quotaBounded d'.
Proof. unfold quotaBounded. intros ->. auto. Qed.

Lemma refundable_same ip d d' :
  quotas d' = quotas d -> refundable ip d -> refundable ip d'.
Proof. unfold refundable, quotaBounded. intros ->. auto. Qed.

Lemma quotaBounded_insert ip row d :
  0 <= remaining_operations row <= FREE_QUOTA ->
  quotaBounded d ->
  quotaBounded (withQuotas (<[ip := row]> (quotas d)) d).
Proof.
  unfold quotaBounded. cbn [quotas withQuotas]. intros Hrow Hd.
  apply map_Forall_insert_2; assumption.
Qed.

Lemma quotaBounded_alter f ip d :
  (forall row, quotas d !! ip = Some row ->
     0 <= remaining_operations (f row) <= FREE_QUOTA) ->
  quotaBounded d ->
  quotaBounded (withQuotas (alter f ip (quotas d)) d).
Proof.
  unfold quotaBounded. cbn [quotas withQuotas]. intros Hf Hd k row.
  rewrite lookup_alter. destruct (decide (ip = k)) as [<-|Hne].
  - destruct (quotas d !! ip) as [row0|] eqn:Hrow; cbn; [|discriminate].
    intros [= <-]. apply Hf. reflexivity.
  - apply Hd.
Qed.

(** A refund keeps the bound when the row has room for it. *)
Lemma refund_bounded ip d :
  refundable ip d ->
  quotaBounded (withQuotas (alter (fun r =>
      {| remaining_operations := remaining_operations r + 1;
         last_reset := last_reset r;
         quota_created_at := quota_created_at r |}) ip (quotas d)) d).
Proof.
  intros [Hb Hroom]. apply quotaBounded_alter; [|exact Hb].
  intros row Hrow. cbn. specialize (Hroom row Hrow).
  specialize (Hb ip row Hrow). cbn in Hb. unfold FREE_QUOTA in *. lia.
Qed.

Lemma checkQuota_bounded ip now w :
  quotaBounded (db w) ->
  wp (checkQuota ip now)
     (fun o w' =>
        quotaBounded (db w') /\
        forall info, o = Returned info ->
          0 <= remaining info <= FREE_QUOTA /\ stored ip w' = Some (remaining info)) w.
Proof.
  intros Hb. unfold wp.
  destruct (checkQuota ip now w) as [[info|e] w1] eqn:Hcheck; cbn [fst snd].
  - pose proof (checkQuota_stored _ _ _ _ _ Hcheck) as Hst.
    destruct (checkQuota_returned _ _ _ _ _ Hcheck)
      as [(_ & -> & ->) | [(row & _ & _ & -> & ->) | (row & Hrow & _ & -> & Hdb)]].
    + split; [apply quotaBounded_insert; [cbn; unfold FREE_QUOTA; lia | exact Hb]|].
      intros ? [= <-]. cbn. split; [unfold FREE_QUOTA; lia | exact Hst].
    + split; [apply quotaBounded_insert; [cbn; unfold FREE_QUOTA; lia | exact Hb]|].
      intros ? [= <-]. cbn. split; [unfold FREE_QUOTA; lia | exact Hst].
    + rewrite Hdb. split; [exact Hb|].
      intros ? [= <-]. cbn. split; [exact (Hb ip row Hrow) | exact Hst].
  - rewrite (checkQuota_thrown _ _ _ _ _ Hcheck). split; [exact Hb | discriminate].
Qed.

(** [consumeQuota] keeps the bound for a cost that is not negative, and a
    successful charge of one unit leaves room for one refund. *)
Lemma consumeQuota_bounded ip type count doc now w :
  0 <= count ->
  quotaBounded (db w) ->
  wp (consumeQuota ip type count doc now)
     (fun o w' =>
        exists res, o = Returned res /\ quotaBounded (db w') /\
          (success res = true -> 1 <= count -> refundable ip (db w'))) w.
Proof.
  intros Hcount Hb. unfold wp.
  pose proof (checkQuota_bounded ip now w Hb) as Hcheck. unfold wp in Hcheck.
  destruct (checkQuota ip now w) as [[info|e] w1] eqn:Heq; cbn [fst snd] in Hcheck.
  - destruct Hcheck as [Hb1 Hinfo].
    destruct (Hinfo info eq_refl) as [Hrange Hst].
    rewrite (consumeQuota_after_check _ _ _ _ _ _ _ _ Heq).
    destruct (remaining info <? count) eqn:Hlt; cbn [fst snd].
    + eexists. split; [reflexivity|]. split; [exact Hb1|]. cbn. discriminate.
    + apply Z.ltb_ge in Hlt.
      assert (Hcharged : quotaBounded
                (withQuotas (alter (chargedRow (Js.sub (remaining info) count)) ip
                               (quotas (db w1))) (db w1))).
      { apply quotaBounded_alter; [|exact Hb1]. intros row _. cbn.
        rewrite sub_exact; unfold FREE_QUOTA in *; lia. }
      apply wp_tryCatch, wp_bind, wp_statement; cbv beta iota; cbn [fst snd db].
      * apply wp_ret. eexists. split; [reflexivity|]. split; [exact Hb1|]. cbn. discriminate.
      * apply wp_bind, wp_statement; cbv beta iota; cbn [fst snd db].
        -- apply wp_ret. eexists. split; [reflexivity|].
           split; [exact Hcharged|]. cbn. discriminate.
        -- apply wp_ret. eexists. split; [reflexivity|].
           split; [eapply quotaBounded_same; [|exact Hcharged]; reflexivity|].
           intros _ Hone. split; [eapply quotaBounded_same; [|exact Hcharged]; reflexivity|].
           cbn [db quotas withOperations withQuotas]. intros row.
           rewrite lookup_alter, decide_True by reflexivity.
           destruct (quotas (db w1) !! ip); cbn; [|discriminate].
           intros [= <-]. cbn. rewrite sub_exact; unfold FREE_QUOTA in *; lia.
  - unfold consumeQuota, tryCatch, bind. rewrite Heq. cbn [fst snd ret].
    eexists. split; [reflexivity|]. split; [|cbn; discriminate].
    rewrite (checkQuota_thrown _ _ _ _ _ Heq). exact Hb.
Qed.

(** Whatever the cost, even a negative one, [consumeQuota] never stores a
    negative remaining quota. *)
Lemma consumeQuota_nonneg ip type count doc now w :
  quotaNonneg (db w) ->
  wp (consumeQuota ip type count doc now) (fun _ w' => quotaNonneg (db w')) w.
Proof.
  intros Hn. unfold wp.
  destruct (checkQuota ip now w) as [[info|e] w1] eqn:Hcheck.
  - assert (Hn1 : quotaNonneg (db w1) /\ 0 <= remaining info).
    { destruct (checkQuota_returned _ _ _ _ _ Hcheck)
        as [(_ & -> & ->) | [(row & _ & _ & -> & ->) | (row & Hrow & _ & -> & ->)]];
        unfold quotaNonneg in *; cbn [quotas withQuotas remaining].
      - split; [apply map_Forall_insert_2; [cbn; unfold FREE_QUOTA; lia | exact Hn]|].
        unfold FREE_QUOTA; lia.
      - split; [apply map_Forall_insert_2; [cbn; unfold FREE_QUOTA; lia | exact Hn]|].
        unfold FREE_QUOTA; lia.
      - split; [exact Hn | exact (Hn ip row Hrow)]. }
    destruct Hn1 as [Hn1 Hpos].
    rewrite (consumeQuota_after_check _ _ _ _ _ _ _ _ Hcheck).
    destruct (remaining info <? count) eqn:Hlt; cbn [fst snd]; [exact Hn1|].
    apply Z.ltb_ge in Hlt.
    assert (Hcharged : quotaNonneg
              (withQuotas (alter (chargedRow (Js.sub (remaining info) count)) ip
                             (quotas (db w1))) (db w1))).
    { unfold quotaNonneg. cbn [quotas withQuotas]. intros k row.
      rewrite lookup_alter. destruct (decide (ip = k)) as [<-|Hne]; [|apply Hn1].
      destruct (quotas (db w1) !! ip); cbn; [|discriminate].
      intros [= <-]. cbn. apply sub_nonneg. lia. }
    apply (wp_tryCatch _ _ (fun _ w' => quotaNonneg (db w'))).
    apply wp_bind, wp_statement; cbv beta iota; cbn [fst snd db].
    + apply wp_ret. exact Hn1.
    + apply wp_bind, wp_statement; cbv beta iota; cbn [fst snd db];
        apply wp_ret; exact Hcharged.
  - unfold consumeQuota, tryCatch, bind. rewrite Hcheck. cbn [fst snd ret].
    rewrite (checkQuota_thrown _ _ _ _ _ Hcheck). exact Hn.
Qed.

(** [moderateContent] never throws and does not touch the world. *)
Lemma moderateContent_returns content ai w :
  exists m, moderateContent content ai w = (Returned m, w).
Proof.
  unfold moderateContent, tryCatch, bind, await, ret.
  destruct (ai (moderationPrompt content)) as [response|e]; [|eauto].
  destruct (Js.includes _ _); eauto.
Qed.

Lemma wp_moderateContent content ai (Q : Outcome Moderation -> World -> Prop) w :
  (forall m, Q (Returned m) w) -> wp (moderateContent content ai) Q w.
Proof.
  intros HQ. unfold wp.
  destruct (moderateContent_returns content ai w) as [m ->]. apply HQ.
Qed.

(** The refund statement, from a world with room for it. *)
Lemma wp_refund_bounded ip (Q : Outcome unit -> World -> Prop) w :
  refundable ip (db w) ->
  (forall w', db w' = db w -> Q (Thrown D1Error) w') ->
  (forall w', quotaBounded (db w') -> Q (Returned tt) w') ->
  wp (refundQuota ip) Q w.
Proof.
  intros Href Ht Hr. apply wp_statement; cbn [fst snd].
  - apply Ht. reflexivity.
  - apply Hr. cbn [db]. apply refund_bounded. exact Href.
Qed.

(** One publish request keeps the bound: the refund of a failure branch
    follows the charge of one unit made by the same request. *)
Lemma action_bounded request context now w :
  quotaBounded (db w) ->
  wp (action request context now) (fun _ w' => quotaBounded (db w')) w.
Proof.
  intros Hb. unfold action.
  destruct (formContent request) as [[|c content]|]; try (apply wp_ret; exact Hb).
  destruct (negb (Qle_bool _ _)); [apply wp_ret; exact Hb|].
  apply wp_bind. eapply wp_conseq; [apply consumeQuota_bounded; [lia | exact Hb]|].
  intros o w2 (res & -> & Hb2 & Href).
  destruct (success res) eqn:Hs; cbn [negb]; [|apply wp_ret; exact Hb2].
  specialize (Href eq_refl ltac:(lia)).
  assert (Hsave : forall w3, db w3 = db w2 ->
            wp (tryCatch
                  (let* _ := insertDocument (generateShortId (randomUUID context))
                               "Untitled Document" (String c content) now in
                   let* _ := attachDocumentId (generateShortId (randomUUID context))
                               (getClientIP request) in
                   ret {| act_success := true;
                          act_id := Some (generateShortId (randomUUID context));
                          act_error := None; act_quota := quota res |})
                  (fun _ => let* _ := refundQuota (getClientIP request) in
                            ret (actionError (Some saveFailed) None)))
               (fun _ w' => quotaBounded (db w')) w3).
  { intros w3 Hw3.
    assert (Href3 : refundable (getClientIP request) (db w3)) by (rewrite Hw3; exact Href).
    assert (Hrefund : forall w4, quotas (db w4) = quotas (db w3) ->
              wp (let* _ := refundQuota (getClientIP request) in
                  ret (actionError (Some saveFailed) None))
                 (fun _ w' => quotaBounded (db w')) w4).
    { intros w4 Hw4. apply wp_bind.
      apply wp_refund_bounded.
      - eapply refundable_same; [exact Hw4 | exact Href3].
      - intros w' Hw'. rewrite Hw'. eapply quotaBounded_same; [exact Hw4 | apply Href3].
      - intros w' Hw'. apply wp_ret. exact Hw'. }
    apply wp_tryCatch, wp_bind. unfold insertDocument. apply wp_statement; cbn [fst snd].
    - apply Hrefund. reflexivity.
    - destruct (documents (db w3) !! _); cbn [fst snd].
      + apply Hrefund. reflexivity.
      + apply wp_bind. unfold attachDocumentId. apply wp_statement; cbn [fst snd].
        * apply Hrefund. reflexivity.
        * apply wp_ret. cbn [db].
          destruct (firstAttachable _ _ _);
            (eapply quotaBounded_same; [|apply Href3]; reflexivity). }
  assert (Hmoderate : forall w3, db w3 = db w2 ->
            wp (tryCatch
                  (let* moderationResult := moderateContent (String c content) (AI context) in
                   if negb (safe moderationResult) then
                     let* _ := refundQuota (getClientIP request) in
                     ret (Some (actionError
                                  (Some (contentBlocked (reason moderationResult))) None))
                   else ret None)
                  (fun _ => ret None))
               (fun o w' =>
                  match o with
                  | Returned (Some _) => quotaBounded (db w')
                  | Returned None => db w' = db w2
                  | Thrown _ => False
                  end) w3).
  { intros w3 Hw3. apply wp_tryCatch, wp_bind, wp_moderateContent. intros m.
    destruct (negb (safe m)); [|apply wp_ret; exact Hw3].
    apply wp_bind, wp_refund_bounded.
    - rewrite Hw3. exact Href.
    - intros w' Hw'. apply wp_ret. congruence.
    - intros w' Hw'. apply wp_ret. exact Hw'. }
  assert (Hrest : forall w3, db w3 = db w2 ->
            wp (let* blocked :=
                  tryCatch
                    (let* moderationResult :=
                       moderateContent (String c content) (AI context) in
                     if negb (safe moderationResult) then
                       let* _ := refundQuota (getClientIP request) in
                       ret (Some (actionError
                                    (Some (contentBlocked (reason moderationResult))) None))
                     else ret None)
                    (fun _ => ret None) in
                match blocked with
                | Some result => ret result
                | None =>
                    tryCatch
                      (let* _ := insertDocument (generateShortId (randomUUID context))
                                   "Untitled Document" (String c content) now in
                       let* _ := attachDocumentId (generateShortId (randomUUID context))
                                   (getClientIP request) in
                       ret {| act_success := true;
                              act_id := Some (generateShortId (randomUUID context));
                              act_error := None; act_quota := quota res |})
                      (fun _ => let* _ := refundQuota (getClientIP request) in
                                ret (actionError (Some saveFailed) None))
                end)
               (fun _ w' => quotaBounded (db w')) w3).
  { intros w3 Hw3. apply wp_bind.
    eapply wp_conseq; [apply Hmoderate; exact Hw3|].
    intros [[result|]|e] w4 H4; try contradiction.
    - apply wp_ret. exact H4.
    - apply Hsave. exact H4. }
  apply wp_bind, wp_tryCatch, wp_bind, wp_await.
  destruct (PUBLISH_RATE_LIMITER context _) as [[|]|e]; cbn [negb].
  - apply wp_ret. apply Hrest. reflexivity.
  - apply wp_bind, wp_refund_bounded.
    + exact Href.
    + intros w' Hw'. apply wp_ret. apply Hrest. exact Hw'.
    + intros w' Hw'. apply wp_ret. apply wp_ret. exact Hw'.
  - apply wp_ret. apply Hrest. reflexivity.
Qed.

Lemma documentLoader_bounded id request now w :
  quotaBounded (db w) ->
  wp (documentLoader id request now) (fun _ w' => quotaBounded (db w')) w.
Proof.
  intros Hb. unfold documentLoader, selectDocument.
  apply wp_tryCatch, wp_bind, wp_statement; cbn [fst snd].
  - apply wp_throw. exact Hb.
  - destruct (documents (db w) !! id) as [document|].
    + apply wp_bind, wp_tryCatch, wp_bind.
      eapply wp_conseq; [apply consumeQuota_bounded; [lia | exact Hb]|].
      intros o w2 (res & -> & Hb2 & _). do 2 apply wp_ret. exact Hb2.
    + apply wp_throw, wp_throw. exact Hb.
Qed.

Lemma getUsageStats_bounded tz ip now today w :
  quotaBounded (db w) ->
  wp (getUsageStats tz ip now today)
     (fun o w' => quotaBounded (db w') /\ exists stats, o = Returned stats) w.
Proof.
  intros Hb. unfold getUsageStats.
  apply wp_tryCatch, wp_bind.
  eapply wp_conseq; [apply checkQuota_bounded; exact Hb|].
  intros [info|e] w1 [Hb1 _].
  - apply wp_bind. unfold selectOperationsSince. apply wp_statement; cbn [fst snd].
    + apply wp_ret. eauto.
    + apply wp_ret. eauto.
  - apply wp_ret. eauto.
Qed.

Lemma apiQuotaLoader_bounded tz request now today w :
  quotaBounded (db w) ->
  wp (apiQuotaLoader tz request now today) (fun _ w' => quotaBounded (db w')) w.
Proof.
  intros Hb. unfold apiQuotaLoader. apply wp_tryCatch, wp_bind.
  eapply wp_conseq; [apply getUsageStats_bounded; exact Hb|].
  intros o w1 [Hb1 [[stats|] ->]]; apply wp_ret; exact Hb1.
Qed.

Lemma serve_bounded w c : quotaBounded (db w) -> quotaBounded (db (serve w c)).
Proof.
  intros Hb. destruct c as [request now | request context now | id request now
                           | tz request now today]; cbn [serve].
  - exact (proj1 (checkQuota_bounded (getClientIP request) now w Hb)).
  - exact (action_bounded request context now w Hb).
  - exact (documentLoader_bounded id request now w Hb).
  - exact (apiQuotaLoader_bounded tz request now today w Hb).
Qed.

(** C1, as the code has it. The refund is not capped, so the bound is
    one of whole requests: starting from a database in which every stored
    remaining quota lies in [0, dailyLimit], after any sequence of
    requests served one after the other (home page, publish with its
    refunds, document view, usage statistics), under any storage faults
    and any behaviour of the rate limiter and of the moderation, every
    stored remaining quota still lies in [0, dailyLimit]. *)
Theorem quota_bounded_across_requests w calls :
  quotaBounded (db w) ->
  quotaBounded (db (serveAll w calls)).
Proof.
  unfold serveAll. revert w.
  induction calls as [|c calls IH]; intros w Hb; cbn [fold_left].
  - exact Hb.
  - apply IH, serve_bounded, Hb.
Qed.

(** ** The refund of the publish action *)

Lemma wp_bind_returned {A B : Type} (m : M A) (k : A -> M B)
    (Q : Outcome B -> World -> Prop) w a w1 :
  m w = (Returned a, w1) -> wp (k a) Q w1 -> wp (bind m k) Q w.
Proof. unfold wp, bind. intros ->. auto. Qed.

Lemma stored_same ip w w' :
  quotas (db w') = quotas (db w) -> stored ip w' = stored ip w.
Proof. unfold stored. intros ->. reflexivity. Qed.

Lemma wp_refund_stored ip r (Q : Outcome unit -> World -> Prop) w :
  stored ip w = Some r ->
  (forall w', quotas (db w') = quotas (db w) -> Q (Thrown D1Error) w') ->
  (forall w', stored ip w' = Some (r + 1) -> Q (Returned tt) w') ->
  wp (refundQuota ip) Q w.
Proof.
  intros Hst Ht Hr. apply wp_statement; cbn [fst snd].
  - apply Ht. reflexivity.
  - apply Hr. unfold stored in *. cbn [db quotas withQuotas].
    rewrite lookup_alter, decide_True by reflexivity.
    destruct (quotas (db w) !! ip) as [row|]; cbn in *; [|discriminate].
    injection Hst as <-. reflexivity.
Qed.

(** The two ways [consumeQuota] can end. *)
Lemma consumeQuota_outcome ip type count doc now w res w2 :
  consumeQuota ip type count doc now w = (Returned res, w2) ->
  (success res = true /\ error res = None /\
   exists info w1,
     checkQuota ip now w = (Returned info, w1) /\ count <= remaining info /\
     quota res = Some (withRemaining info (Js.sub (remaining info) count)) /\
     stored ip w1 = Some (remaining info) /\
     stored ip w2 = Some (Js.sub (remaining info) count)) \/
  (success res = false /\
   (error res = Some "Failed to process quota operation"%string \/
    exists r, error res = Some (insufficientQuota r count))).
Proof.
  intros Hcons.
  destruct (checkQuota ip now w) as [[info|e] w1] eqn:Hcheck.
  - rewrite (consumeQuota_after_check _ _ _ _ _ _ _ _ Hcheck) in Hcons.
    pose proof (checkQuota_stored _ _ _ _ _ Hcheck) as Hst.
    destruct (remaining info <? count) eqn:Hlt.
    + injection Hcons as <- <-. right. cbn. eauto.
    + apply Z.ltb_ge in Hlt. revert Hcons.
      unfold tryCatch, bind, updateQuotaRemaining, insertOperation, statement, ret.
      destruct (faults w1) as [|[] [|[] fs]]; cbn [fst snd db faults tail];
        intros [= <- <-]; cbn [success error quota]; auto.
      all: left; split; [reflexivity|]; split; [reflexivity|];
        exists info, w1; repeat split; try assumption;
        unfold stored in *; cbn [db quotas withQuotas withOperations];
        rewrite lookup_alter, decide_True by reflexivity;
        destruct (quotas (db w1) !! ip); cbn in *; [reflexivity | discriminate].
  - unfold consumeQuota, tryCatch, bind in Hcons. rewrite Hcheck in Hcons.
    injection Hcons as <- <-. right. cbn. auto.
Qed.

Ltac not_refund H :=
  exfalso; destruct H as [H|[[? H]|H]]; cbn in H;
  unfold insufficientQuota, tooLarge in H; cbn in H;
  try congruence; discriminate H.

Lemma action_refund_post request context now w :
  wp (action request context now)
     (fun o w' =>
        forall data, o = Returned data -> refundError data ->
        exists info w1 res w2,
          checkQuota (getClientIP request) now w = (Returned info, w1) /\
          consumeQuota (getClientIP request) "publish" 1 None now w = (Returned res, w2) /\
          success res = true /\
          stored (getClientIP request) w1 = Some (remaining info) /\
          stored (getClientIP request) w2 = Some (Js.sub (remaining info) 1) /\
          stored (getClientIP request) w' = Some (Js.sub (remaining info) 1 + 1)) w.
Proof.
  unfold action.
  destruct (formContent request) as [[|c content]|];
    try (apply wp_ret; intros data [= <-] Hre; not_refund Hre).
  destruct (negb (Qle_bool _ _));
    [apply wp_ret; intros data [= <-] Hre; not_refund Hre|].
  destruct (consumeQuota_returns (getClientIP request) "publish" 1 None now w)
    as (res & w2 & Hcons).
  eapply wp_bind_returned; [exact Hcons|].
  destruct (consumeQuota_outcome _ _ _ _ _ _ _ _ Hcons)
    as [(Hs & _ & info & w1 & Hcheck & _ & _ & Hst1 & Hst2)
       | (Hs & [Hmsg | [r Hmsg]])];
    rewrite Hs; cbn [negb];
    try (apply wp_ret; intros data [= <-] Hre; cbn in Hre; rewrite Hmsg in Hre;
         not_refund Hre).
  eapply wp_conseq with
    (Q := fun o w' => forall data, o = Returned data -> refundError data ->
                      stored (getClientIP request) w' = Some (Js.sub (remaining info) 1 + 1)).
  2: { intros o w' H data Ho Hre. exists info, w1, res, w2.
       repeat split; try assumption. exact (H data Ho Hre). }
  assert (Hrefund : forall w3 msg,
            stored (getClientIP request) w3 = Some (Js.sub (remaining info) 1) ->
            wp (let* _ := refundQuota (getClientIP request) in
                ret (actionError msg None))
               (fun o w' => forall data, o = Returned data -> refundError data ->
                            stored (getClientIP request) w' = Some (Js.sub (remaining info) 1 + 1)) w3).
  { intros w3 msg H3. apply wp_bind. eapply wp_refund_stored; [exact H3| |].
    - intros w' _ data [=].
    - intros w' Hw'. apply wp_ret. intros data _ _. exact Hw'. }
  match goal with
  | |- wp (bind _ ?k) _ _ =>
      assert (Hrest : forall w3,
                stored (getClientIP request) w3 = Some (Js.sub (remaining info) 1) ->
                wp (k None)
                   (fun o w' => forall data, o = Returned data -> refundError data ->
                                stored (getClientIP request) w' = Some (Js.sub (remaining info) 1 + 1)) w3)
  end.
  { intros w3 H3. cbv beta iota.
    apply wp_bind, wp_tryCatch, wp_bind, wp_moderateContent. intros m.
    assert (Hsave : forall w4,
              stored (getClientIP request) w4 = Some (Js.sub (remaining info) 1) ->
              wp (tryCatch
                    (let* _ := insertDocument (generateShortId (randomUUID context))
                                 "Untitled Document" (String c content) now in
                     let* _ := attachDocumentId (generateShortId (randomUUID context))
                                 (getClientIP request) in
                     ret {| act_success := true;
                            act_id := Some (generateShortId (randomUUID context));
                            act_error := None; act_quota := quota res |})
                    (fun _ => let* _ := refundQuota (getClientIP request) in
                              ret (actionError (Some saveFailed) None)))
                 (fun o w' => forall data, o = Returned data -> refundError data ->
                              stored (getClientIP request) w' = Some (Js.sub (remaining info) 1 + 1)) w4).
    { intros w4 H4.
      apply wp_tryCatch, wp_bind. unfold insertDocument. apply wp_statement; cbn [fst snd].
      - apply Hrefund. exact H4.
      - destruct (documents (db w4) !! _); cbn [fst snd].
        + apply Hrefund. exact H4.
        + apply wp_bind. unfold attachDocumentId. apply wp_statement; cbn [fst snd].
          * apply Hrefund. exact H4.
          * apply wp_ret. intros data [= <-] Hre. not_refund Hre. }
    destruct (negb (safe m)).
    - apply wp_bind. eapply wp_refund_stored; [exact H3| |].
      + intros w' Hw'. apply wp_ret. apply Hsave.
        rewrite (stored_same _ _ _ Hw'). exact H3.
      + intros w' Hw'. do 2 apply wp_ret. intros data _ _. exact Hw'.
    - apply wp_ret. apply Hsave. exact H3. }
  apply wp_bind, wp_tryCatch, wp_bind, wp_await.
  destruct (PUBLISH_RATE_LIMITER context _) as [[|]|e]; cbn [negb].
  - apply wp_ret. apply Hrest. exact Hst2.
  - apply wp_bind. eapply wp_refund_stored; [exact Hst2| |].
    + intros w' Hw'. apply wp_ret. apply Hrest.
      rewrite (stored_same _ _ _ Hw'). exact Hst2.
    + intros w' Hw'. do 2 apply wp_ret. intros data _ _. exact Hw'.
  - apply wp_ret. apply Hrest. exact Hst2.
Qed.

(** ** Witnesses of the quota theorems *)

Lemma checkQuota_first_call_witness :
  exists w',
    checkQuota sampleIp sampleNow (quiet emptyDb) =
      (Returned {| ip := sampleIp; remaining := FREE_QUOTA; total := FREE_QUOTA;
                   resetTime := Time.toISOString (sampleNow + 24 * Time.msPerHour);
                   isNewUser := true |}, w') /\
    quotas (db w') !! sampleIp =
      Some {| remaining_operations := FREE_QUOTA; last_reset := sampleNow;
              quota_created_at := sampleNow |} /\
    FREE_QUOTA = 50.
Proof.
  apply (checkQuota_first_call sampleIp sampleNow (quiet emptyDb)); reflexivity.
Defined.

Lemma checkQuota_resets_expired_window_witness :
  exists info w',
    checkQuota sampleIp sampleNow
      (quiet (sampleDb 3 (sampleNow - 25 * Time.msPerHour))) = (Returned info, w') /\
    remaining info = 50 /\ isNewUser info = false /\
    (last_reset <$> quotas (db w') !! sampleIp) = Some sampleNow.
Proof.
  destruct (checkQuota_resets_expired_window sampleIp sampleNow
              (quiet (sampleDb 3 (sampleNow - 25 * Time.msPerHour)))
              {| remaining_operations := 3;
                 last_reset := sampleNow - 25 * Time.msPerHour;
                 quota_created_at := sampleNow - 25 * Time.msPerHour |})
    as [(info & w' & Hcheck & Hrem & _ & Hnew & Hrow) _].
  - reflexivity.
  - vm_compute. discriminate.
  - reflexivity.
  - exists info, w'. rewrite Hrow. auto.
Defined.

Lemma consumeQuota_insufficient_witness :
  consumeQuota sampleIp "publish" 1 None sampleNow (quiet (sampleDb 0 sampleNow)) =
    (Returned {| success := false;
                 quota := Some {| ip := sampleIp; remaining := 0; total := 50;
                                  resetTime := windowEnd sampleNow; isNewUser := false |};
                 error := Some (insufficientQuota 0 1) |},
     quiet (sampleDb 0 sampleNow)) /\
  stored sampleIp (quiet (sampleDb 0 sampleNow)) = Some 0.
Proof.
  destruct (consumeQuota_insufficient sampleIp "publish" 1 None sampleNow
              (quiet (sampleDb 0 sampleNow))
              {| ip := sampleIp; remaining := 0; total := 50;
                 resetTime := windowEnd sampleNow; isNewUser := false |}
              (quiet (sampleDb 0 sampleNow)))
    as (Hres & Hst & _).
  - vm_compute. reflexivity.
  - cbn. lia.
  - split; [exact Hres | exact Hst].
Defined.



Lemma quota_bounded_across_requests_witness :
  quotaBounded
    (db (serveAll (quiet emptyDb)
           [CallPublish (sampleRequest (Some "# Hello"%string))
              (sampleContext true (Some "UNSAFE: spam"%string)) sampleNow;
            CallPublish (sampleRequest (Some "# Hello"%string))
              (sampleContext true (Some "SAFE"%string)) (sampleNow + 1000);
            CallDocument "123e4567" (sampleRequest None) (sampleNow + 2000);
            CallApiQuota 0 (sampleRequest None) (sampleNow + 3000) (sampleNow + 3000)])).
Proof.
  apply quota_bounded_across_requests. apply map_Forall_empty.
Defined.

(** C1, as stated, fails: the refund statement has no cap. A unit is
    consumed one hour before the window ends, the window check of a later
    call resets the record to the daily limit, and the refund of the
    consumed unit then stores 51. *)
Lemma refund_overshoots_counterexample :
  let w := quiet (sampleDb 50 (sampleNow - 23 * Time.msPerHour)) in
  exists w',
    (let* _ := consumeQuota sampleIp "publish" 1 None sampleNow in
     let* _ := checkQuota sampleIp (sampleNow + 2 * Time.msPerHour) in
     refundQuota sampleIp) w = (Returned tt, w') /\
    quotaBounded (db w) /\
    stored sampleIp w' = Some 51 /\
    ~ quotaBounded (db w').
Proof.
  cbv zeta. eexists. split; [vm_compute; reflexivity|]. split; [|split].
  - apply map_Forall_singleton. cbn. unfold FREE_QUOTA. lia.
  - vm_compute. reflexivity.
  - intros Hb. specialize (Hb sampleIp _ ltac:(vm_compute; reflexivity)).
    cbn in Hb. unfold FREE_QUOTA in Hb. lia.
Qed.

(** ** Viewing a document *)

(** C6, as the code has it. A view of an existing document is served
    whatever [consumeQuota] answers, and it is charged like any other
    operation: with at least one unit left after the window check (and no
    storage fault) the view deducts one unit and appends a "view" record;
    with none left nothing is deducted and nothing is logged. The value
    stored is the number [remaining - 1], one unit less for every
    [remaining] up to [2 ^ 53]. *)
Theorem documentLoader_charges_view id request now w document :
  documents (db w) !! id = Some document ->
  faultFree 1 w = true ->
  exists res w',
    documentLoader id request now w = (Returned document, w') /\
    consumeQuota (getClientIP request) "view" 1 (Some id) now
      {| db := db w; faults := tail (faults w) |} = (Returned res, w') /\
    forall info w1,
      checkQuota (getClientIP request) now {| db := db w; faults := tail (faults w) |}
        = (Returned info, w1) ->
      (remaining info < 1 -> success res = false /\ w' = w1) /\
      (1 <= remaining info -> faultFree 2 w1 = true ->
         success res = true /\
         stored (getClientIP request) w' = Some (Js.sub (remaining info) 1) /\
         (remaining info <= 2 ^ 53 ->
          stored (getClientIP request) w' = Some (remaining info - 1)) /\
         operations (db w') =
           operations (db w1) ++
             [{| op_id := Z.of_nat (length (operations (db w1))) + 1;
                 ip_address := getClientIP request; operation_type := "view";
                 operation_count := 1; document_id := Js.orElse (Some id) None;
                 created_at := now |}]).
Proof.
  intros Hdoc Hff.
  destruct (consumeQuota_returns (getClientIP request) "view" 1 (Some id) now
              {| db := db w; faults := tail (faults w) |}) as (res & w' & Hcons).
  exists res, w'. split; [|split; [exact Hcons|]].
  - unfold documentLoader, tryCatch at 1. unfold bind at 1. unfold selectDocument.
    rewrite (statement_run _ _ Hff). cbn [fst snd]. rewrite Hdoc.
    unfold bind at 1, tryCatch, bind. rewrite Hcons. reflexivity.
  - intros info w1 Hcheck.
    rewrite (consumeQuota_after_check _ _ _ _ _ _ _ _ Hcheck) in Hcons. split.
    + intros Hlt. apply Z.ltb_lt in Hlt. rewrite Hlt in Hcons.
      injection Hcons as <- <-. auto.
    + intros Hge Hff2. assert (Hlt : (remaining info <? 1) = false) by (apply Z.ltb_ge; lia).
      rewrite Hlt, charge_run in Hcons by exact Hff2.
      injection Hcons as <- <-. split; [reflexivity|].
      pose proof (checkQuota_stored _ _ _ _ _ Hcheck) as Hst.
      unfold stored in *. cbn [db quotas operations withQuotas withOperations].
      rewrite lookup_alter, decide_True by reflexivity.
      destruct (quotas (db w1) !! getClientIP request); cbn in *; [|discriminate].
      split; [reflexivity|]. split; [|reflexivity].
      intros Hsafe. rewrite sub_exact by lia. reflexivity.
Qed.

Lemma documentLoader_charges_view_witness :
  exists res w',
    documentLoader "a1b2c3d4" (sampleRequest None) sampleNow (quiet (sampleDb 5 sampleNow))
      = (Returned sampleDocument, w') /\
    consumeQuota sampleIp "view" 1 (Some "a1b2c3d4"%string) sampleNow
      (quiet (sampleDb 5 sampleNow)) = (Returned res, w').
Proof.
  destruct (documentLoader_charges_view "a1b2c3d4" (sampleRequest None) sampleNow
              (quiet (sampleDb 5 sampleNow)) sampleDocument)
    as (res & w' & Hload & Hcons & _).
  - reflexivity.
  - reflexivity.
  - exists res, w'. split; [exact Hload | exact Hcons].
Defined.

(** C6, as stated, fails twice: a view deducts a unit when one is left
    (5 becomes 4), and with none left the view is served without being
    logged. *)
Lemma view_is_charged_counterexample :
  (let w' := snd (documentLoader "a1b2c3d4" (sampleRequest None) sampleNow
                    (quiet (sampleDb 5 sampleNow))) in
   stored sampleIp (quiet (sampleDb 5 sampleNow)) = Some 5 /\
   stored sampleIp w' = Some 4) /\
  (let r := documentLoader "a1b2c3d4" (sampleRequest None) sampleNow
              (quiet (sampleDb 0 sampleNow)) in
   fst r = Returned sampleDocument /\ operations (db (snd r)) = []).
Proof.
  vm_compute. repeat split.
Qed.

(** ** Moderation when the AI binding fails *)

Lemma bind_returned {A B : Type} (m : M A) (k : A -> M B) w a w1 :
  m w = (Returned a, w1) -> bind m k w = k a w1.
Proof. unfold bind. intros ->. reflexivity. Qed.

Lemma tryCatch_returned {A : Type} (body : M A) (handler : JsError -> M A) w a w1 :
  body w = (Returned a, w1) -> tryCatch body handler w = (Returned a, w1).
Proof. unfold tryCatch. intros ->. reflexivity. Qed.

(** With the AI binding down, [moderateContent] answers with the basic
    check of the content. *)
Lemma moderateContent_fallback content ai e w :
  ai (moderationPrompt content) = Thrown e ->
  moderateContent content ai w = (Returned (basicContentCheck content), w).
Proof.
  intros Hai. unfold moderateContent, tryCatch, bind, await. rewrite Hai. reflexivity.
Qed.

(** C7, as stated, fails: with the AI binding down, a content that the
    basic check flags is aborted as content-blocked. *)
Lemma ai_failure_can_block_counterexample :
  AI (sampleContext true None) (moderationPrompt "<iframe src=x>") =
    Thrown CollaboratorError /\
  fst (action (sampleRequest (Some "<iframe src=x>"%string)) (sampleContext true None)
         sampleNow (quiet emptyDb)) =
    Returned (actionError
                (Some "Content blocked: Content contains potentially malicious code"%string)
                None).
Proof.
  split; vm_compute; reflexivity.
Qed.

(** ** Storage faults *)

(** A thrown [checkQuota] has met a storage fault in one of the two
    statements it can execute. *)
Lemma checkQuota_thrown_fault ip now w e w1 :
  checkQuota ip now w = (Thrown e, w1) -> e = D1Error /\ faultFree 2 w = false.
Proof.
  unfold checkQuota, tryCatch, bind, throw, selectQuota, insertQuota, updateQuotaReset,
    statement, ret, faultFree.
  destruct (faults w) as [|[] [|[] fs]]; cbn [fst snd db faults tail];
    destruct (quotas (db w) !! ip) as [row|] eqn:Hrow; cbn [fst snd db faults tail];
    try destruct (Qle_bool _ _); cbn [fst snd db faults tail];
    rewrite ?Hrow; intros [= <- <-]; split; reflexivity.
Qed.

(** C8, as the code has it. A storage fault in [checkQuota] is rethrown
    to the caller, whichever of its statements meets it: the [SELECT], the
    [INSERT] of a new record or the [UPDATE] of a reset; the tables are left
    as they were, and [checkQuota] throws nothing else. [getUsageStats]
    catches every fault, those of its inner [checkQuota] and of its own
    query, and returns [null]; it never throws. [consumeQuota] never throws
    either: a fault of its inner [checkQuota], of its [UPDATE] or of its
    [INSERT] becomes the structured result "Failed to process quota
    operation", and [success: true] is only answered when no statement has
    thrown. *)
Theorem storage_faults ip now w :
  (head (faults w) = Some true ->
   checkQuota ip now w = (Thrown D1Error, {| db := db w; faults := tail (faults w) |})) /\
  (forall fs,
     faults w = false :: true :: fs ->
     quotas (db w) !! ip = None \/
     (exists row, quotas (db w) !! ip = Some row /\
                  Time.msPerDay <= now - last_reset row) ->
     checkQuota ip now w = (Thrown D1Error, {| db := db w; faults := fs |})) /\
  (forall e w1, checkQuota ip now w = (Thrown e, w1) ->
     e = D1Error /\ db w1 = db w /\ faultFree 2 w = false /\
     (forall tz today, getUsageStats tz ip now today w = (Returned None, w1)) /\
     (forall type count doc,
        consumeQuota ip type count doc now w = (Returned quotaFailure, w1))) /\
  (forall info w1, checkQuota ip now w = (Returned info, w1) ->
     (head (faults w1) = Some true ->
      forall tz today,
        getUsageStats tz ip now today w =
          (Returned None, {| db := db w1; faults := tail (faults w1) |})) /\
     (forall type count doc,
        count <= remaining info ->
        (head (faults w1) = Some true ->
         consumeQuota ip type count doc now w =
           (Returned quotaFailure, {| db := db w1; faults := tail (faults w1) |})) /\
        (forall fs, faults w1 = false :: true :: fs ->
           exists w', consumeQuota ip type count doc now w = (Returned quotaFailure, w') /\
                      operations (db w') = operations (db w1)) /\
        (forall res w', consumeQuota ip type count doc now w = (Returned res, w') ->
           success res = true -> faultFree 2 w1 = true))) /\
  (forall tz today, exists o w', getUsageStats tz ip now today w = (Returned o, w')) /\
  (forall type count doc,
     exists res w', consumeQuota ip type count doc now w = (Returned res, w')).
Proof.
  split; [|split; [|split; [|split; [|split]]]].
  - intros Hf. unfold checkQuota, tryCatch, bind, selectQuota.
    rewrite (statement_fault _ _ Hf). reflexivity.
  - intros fs Hfs Hrow.
    unfold checkQuota, tryCatch, bind, selectQuota, insertQuota, updateQuotaReset, statement.
    rewrite Hfs. cbn [fst snd db faults tail].
    destruct Hrow as [-> | (row & -> & Hexp)].
    + reflexivity.
    + apply expired_iff in Hexp. rewrite Hexp. reflexivity.
  - intros e w1 Hcheck.
    destruct (checkQuota_thrown_fault _ _ _ _ _ Hcheck) as [He Hff].
    split; [exact He|]. split; [exact (checkQuota_thrown _ _ _ _ _ Hcheck)|].
    split; [exact Hff|]. split.
    + intros tz today. unfold getUsageStats, tryCatch, bind. rewrite Hcheck. reflexivity.
    + intros type count doc. unfold consumeQuota, tryCatch, bind. rewrite Hcheck.
      reflexivity.
  - intros info w1 Hcheck. split.
    + intros Hf tz today.
      unfold getUsageStats, tryCatch, bind, selectOperationsSince.
      rewrite Hcheck, (statement_fault _ _ Hf). reflexivity.
    + intros type count doc Hle.
      rewrite (consumeQuota_after_check _ _ _ _ _ _ _ _ Hcheck).
      assert (Hlt : (remaining info <? count) = false) by (apply Z.ltb_ge; lia).
      rewrite Hlt. split; [|split].
      * intros Hf. unfold tryCatch, bind, updateQuotaRemaining.
        rewrite (statement_fault _ _ Hf). reflexivity.
      * intros fs Hfs.
        unfold tryCatch, bind, updateQuotaRemaining, insertOperation, statement.
        rewrite Hfs. cbn [fst snd db faults tail ret].
        eexists. split; reflexivity.
      * intros res w'.
        unfold tryCatch, bind, updateQuotaRemaining, insertOperation, statement, ret,
          faultFree.
        destruct (faults w1) as [|[] [|[] fs]]; cbn [fst snd db faults tail];
          intros [= <- <-]; cbn [success]; try discriminate; reflexivity.
  - intros tz today. unfold getUsageStats, tryCatch, ret.
    match goal with |- context [match ?b w with _ => _ end] => destruct (b w) as [[o|e] w'] end;
      eauto.
  - intros type count doc. apply consumeQuota_returns.
Qed.

(** A fault of each statement: the [SELECT] and the [INSERT] of
    [checkQuota] for a new identity, and the [UPDATE] of [consumeQuota]. *)
Lemma storage_faults_witness :
  checkQuota sampleIp sampleNow (failing emptyDb) = (Thrown D1Error, quiet emptyDb) /\
  checkQuota sampleIp sampleNow {| db := emptyDb; faults := [false; true] |} =
    (Thrown D1Error, quiet emptyDb) /\
  consumeQuota sampleIp "publish" 1 None sampleNow
    {| db := sampleDb 5 sampleNow; faults := [false; true] |} =
    (Returned quotaFailure, quiet (sampleDb 5 sampleNow)).
Proof.
  split; [|split].
  - apply (proj1 (storage_faults sampleIp sampleNow (failing emptyDb))). reflexivity.
  - destruct (storage_faults sampleIp sampleNow {| db := emptyDb; faults := [false; true] |})
      as (_ & Hwrite & _).
    apply (Hwrite []); [reflexivity | left; reflexivity].
  - destruct (storage_faults sampleIp sampleNow
                {| db := sampleDb 5 sampleNow; faults := [false; true] |})
      as (_ & _ & _ & Hreturned & _).
    destruct (Hreturned {| ip := sampleIp; remaining := 5; total := 50;
                           resetTime := windowEnd sampleNow; isNewUser := false |}
                {| db := sampleDb 5 sampleNow; faults := [true] |})
      as (_ & Hconsume).
    + vm_compute. reflexivity.
    + destruct (Hconsume "publish"%string 1 None) as (Hupdate & _).
      * cbn. lia.
      * apply Hupdate. reflexivity.
Defined.

(** C8, as stated, fails for [getUsageStats]: a fault on its read path
    does not reach the caller as an exception, [null] is returned. *)
Lemma getUsageStats_swallows_fault_counterexample :
  head (faults (failing emptyDb)) = Some true /\
  fst (getUsageStats 0 sampleIp sampleNow sampleNow (failing emptyDb)) = Returned None /\
  forall e, fst (getUsageStats 0 sampleIp sampleNow sampleNow (failing emptyDb)) <> Thrown e.
Proof.
  split; [reflexivity|]. split; [vm_compute; reflexivity|].
  intros e. vm_compute. discriminate.
Qed.

(** ** Usage statistics *)

Lemma fold_left_totals gs acc :
  fold_left (fun sum op => sum + total_count op) gs acc = acc + sumTotals gs.
Proof.
  revert acc. induction gs as [|g gs IH]; intros acc; cbn.
  - lia.
  - rewrite IH. unfold sumTotals. lia.
Qed.

Lemma addToGroups_total r gs :
  sumTotals (addToGroups r gs) = operation_count r + sumTotals gs.
Proof.
  induction gs as [|g gs IH]; cbn.
  - reflexivity.
  - destruct (String.eqb _ _); cbn; unfold sumTotals in *; cbn; lia.
Qed.

Lemma groupByType_total rows : sumTotals (groupByType rows) = sumCounts rows.
Proof.
  induction rows as [|r rows IH].
  - reflexivity.
  - change (groupByType (r :: rows)) with (addToGroups r (groupByType rows)).
    rewrite addToGroups_total, IH. reflexivity.
Qed.

Lemma insertGroup_total e g gs :
  sumTotals (insertGroup e g gs) = total_count g + sumTotals gs.
Proof.
  induction gs as [|h gs IH]; cbn [insertGroup].
  - reflexivity.
  - destruct (_ || _); unfold sumTotals in *; cbn [map fold_right] in *; lia.
Qed.

Lemma orderByTotalDesc_total e gs : sumTotals (orderByTotalDesc e gs) = sumTotals gs.
Proof.
  induction gs as [|g gs IH].
  - reflexivity.
  - change (orderByTotalDesc e (g :: gs)) with (insertGroup e g (orderByTotalDesc e gs)).
    rewrite insertGroup_total, IH. reflexivity.
Qed.

(** [Math.round(((FREE_QUOTA - remaining) / FREE_QUOTA) * 100)] is twice
    the number of units used. *)
Lemma percentageUsed_exact r : percentageUsed r = 2 * (FREE_QUOTA - r).
Proof.
  unfold percentageUsed, mathRound, FREE_QUOTA, Qfloor, Qdiv.
  unfold Qplus, Qmult, Qinv, inject_Z. cbn [Qnum Qden].
  change (Z.pos (1 * 50 * 1 * 2)) with 100. change (Z.pos (1 * 50 * 1)) with 50.
  symmetry. apply (Z.div_unique _ _ _ 50); lia.
Qed.

(** What [getUsageStats] computes when no statement throws: the sum is
    over the records of the identity whose stored [created_at] text is not
    below the ISO text of the start of the day. *)
Lemma getUsageStats_run tz ip now today w info w1 :
  checkQuota ip now w = (Returned info, w1) ->
  faultFree 1 w1 = true ->
  exists stats w',
    getUsageStats tz ip now today w = (Returned (Some stats), w') /\
    stats_quota stats = info /\
    operationsToday stats =
      sumCounts (filter (fun r => since ip (Time.toISOString
                                              (Time.startOfLocalDay tz today)) r = true)
                        (operations (db w1))) /\
    usagePercentage stats = percentageUsed (remaining info).
Proof.
  intros Hcheck Hff. unfold getUsageStats, tryCatch, bind, selectOperationsSince.
  rewrite Hcheck, (statement_run _ _ Hff). cbn [fst snd ret].
  do 2 eexists. split; [reflexivity|]. cbn [stats_quota operationsToday usagePercentage].
  repeat split.
  rewrite fold_left_totals, orderByTotalDesc_total, groupByType_total. lia.
Qed.

Lemma compare_common_prefix p a b :
  String.compare (p ++ a) (p ++ b) = String.compare a b.
Proof.
  induction p as [|c p IH].
  - reflexivity.
  - change (match Ascii.compare c c with
            | Eq => String.compare (p ++ a) (p ++ b)
            | Lt => Lt
            | Gt => Gt
            end = String.compare a b).
    assert (Hc : Ascii.compare c c = Eq) by (unfold Ascii.compare; apply N.compare_refl).
    rewrite Hc. exact IH.
Qed.

Lemma dateText_same_day a b :
  a / Time.msPerDay = b / Time.msPerDay -> Time.dateText a = Time.dateText b.
Proof. unfold Time.dateText. intros ->. reflexivity. Qed.

(** A record created on the UTC day of the start of the day never passes
    the filter of the statistics query: the stored text has a space where
    the ISO text has a [T]. *)
Lemma same_utc_day_excluded created start :
  created / Time.msPerDay = start / Time.msPerDay ->
  Time.textGe (Time.sqliteTimestamp created) (Time.toISOString start) = false.
Proof.
  intros Hday. unfold Time.textGe, Time.sqliteTimestamp, Time.toISOString, String.leb.
  rewrite (dateText_same_day _ _ Hday), compare_common_prefix. reflexivity.
Qed.

(** In a runtime on UTC no record created today is counted. *)
Lemma today_excluded ip today r :
  Time.startOfLocalDay 0 today <= created_at r <= today ->
  since ip (Time.toISOString (Time.startOfLocalDay 0 today)) r = false.
Proof.
  intros Hcreated. unfold since. rewrite same_utc_day_excluded.
  - apply andb_false_r.
  - revert Hcreated. unfold Time.startOfLocalDay, Time.msPerDay, Time.msPerHour.
    change (24 * (1000 * 60 * 60)) with 86400000. rewrite Z.mul_0_l, Z.add_0_r.
    intros Hcreated.
    pose proof (Z.mod_pos_bound today 86400000 ltac:(lia)) as Hmod.
    pose proof (Z.div_mod today 86400000 ltac:(lia)) as Hdiv.
    assert (Hstart : today - today mod 86400000 = today / 86400000 * 86400000) by lia.
    rewrite Hstart, Z.div_mul by lia.
    symmetry. apply (Z.div_unique _ _ _ (created_at r - today / 86400000 * 86400000)); lia.
Qed.

(** C9 on the code. One publish at 12:00:00 UTC, statistics asked one
    second later in a runtime on UTC: the identity has one operation
    record of count 1 created since the start of the day, so the specified
    sum is 1, and [getUsageStats] returns [operationsToday = 0]: the
    query compares the stored text [2024-01-15 12:00:00] with the bound
    text [2024-01-15T00:00:00.000Z], and a space sorts before [T]. The
    usage percentage is the rounded quotient, 2. *)
Theorem getUsageStats_misses_todays_operations :
  let published :=
    snd (action (sampleRequest (Some "# Hello"%string))
           (sampleContext true (Some "SAFE"%string)) sampleNow (quiet emptyDb)) in
  let later := sampleNow + 1000 in
  operations (db published) =
    [{| op_id := 1; ip_address := sampleIp; operation_type := "publish";
        operation_count := 1; document_id := Some "123e4567"%string;
        created_at := sampleNow |}] /\
  Time.sqliteTimestamp sampleNow = "2024-01-15 12:00:00"%string /\
  Time.toISOString (Time.startOfLocalDay 0 later) = "2024-01-15T00:00:00.000Z"%string /\
  operationsSinceLocalDayStart 0 sampleIp later (operations (db published)) = 1 /\
  exists stats w',
    getUsageStats 0 sampleIp later later published = (Returned (Some stats), w') /\
    operationsToday stats = 0 /\
    operationBreakdown stats = [] /\
    remaining (stats_quota stats) = 49 /\
    usagePercentage stats = 2.
Proof.
  cbv zeta. split; [vm_compute; reflexivity|]. split; [vm_compute; reflexivity|].
  split; [vm_compute; reflexivity|]. split; [vm_compute; reflexivity|].
  do 2 eexists. split; [vm_compute; reflexivity|]. repeat split.
Qed.

(* ================================================================== *)
(** * Further properties of the quota functions *)
(* ================================================================== *)

(** X1. [getClientIP] never returns the empty string, and a non-empty
    [CF-Connecting-IP] header always wins over [X-Forwarded-For]. *)
Theorem getClientIP_nonempty request :
  (exists c rest, getClientIP request = String c rest) /\
  match cfConnectingIP request with
  | Some (String c rest) => getClientIP request = String c rest
  | _ => True
  end.
Proof.
  unfold getClientIP, Js.orElse.
  destruct (cfConnectingIP request) as [[|c rest]|];
    destruct (xForwardedFor request) as [h|]; cbn [fmap option_fmap option_map];
    try destruct (hd EmptyString (Js.split "," h)); eauto.
Qed.

(** The frame of [checkQuota]: the log, the documents and the rows of the
    other identities are as they were. *)
Lemma checkQuota_frame ip now w o w1 :
  checkQuota ip now w = (o, w1) ->
  operations (db w1) = operations (db w) /\
  documents (db w1) = documents (db w) /\
  forall other, other <> ip -> quotas (db w1) !! other = quotas (db w) !! other.
Proof.
  intros Hcheck. destruct o as [info|e].
  - destruct (checkQuota_returned _ _ _ _ _ Hcheck)
      as [(_ & _ & ->) | [(row & _ & _ & _ & ->) | (row & _ & _ & _ & ->)]];
      cbn [operations documents quotas withQuotas]; repeat split; intros other Hne;
      apply lookup_insert_ne; congruence.
  - rewrite (checkQuota_thrown _ _ _ _ _ Hcheck). auto.
Qed.

(** X2. Under any storage faults, [checkQuota] changes nothing but the
    quota row of its own identity: the operation log, the documents and the
    rows of every other identity are left as they were. *)
Theorem checkQuota_touches_one_row ip other now w :
  other <> ip ->
  operations (db (snd (checkQuota ip now w))) = operations (db w) /\
  documents (db (snd (checkQuota ip now w))) = documents (db w) /\
  quotas (db (snd (checkQuota ip now w))) !! other = quotas (db w) !! other.
Proof.
  intros Hne. destruct (checkQuota ip now w) as [o w1] eqn:Hcheck.
  destruct (checkQuota_frame _ _ _ _ _ Hcheck) as (Hops & Hdocs & Hrows).
  cbn [snd]. auto.
Qed.

Lemma checkQuota_touches_one_row_witness :
  quotas (db (snd (checkQuota "198.51.100.2" sampleNow (quiet (sampleDb 7 sampleNow)))))
    !! sampleIp = quotas (sampleDb 7 sampleNow) !! sampleIp.
Proof.
  apply (checkQuota_touches_one_row "198.51.100.2" sampleIp sampleNow
           (quiet (sampleDb 7 sampleNow))).
  discriminate.
Defined.

(** X3. A second [checkQuota] made while the window left by the first one
    is still open returns the same remaining quota, total and reset time,
    reports [isNewUser = false] even if the first call created the record,
    and writes nothing. *)
Theorem checkQuota_again ip now later w info w1 row :
  checkQuota ip now w = (Returned info, w1) ->
  quotas (db w1) !! ip = Some row ->
  inWindow later row ->
  faultFree 1 w1 = true ->
  checkQuota ip later w1 =
    (Returned {| ip := ip; remaining := remaining info; total := total info;
                 resetTime := resetTime info; isNewUser := false |},
     {| db := db w1; faults := tail (faults w1) |}).
Proof.
  intros Hcheck Hrow Hwin Hff.
  rewrite (checkQuota_open _ _ _ _ Hrow Hwin Hff).
  destruct (checkQuota_returned _ _ _ _ _ Hcheck)
    as [(_ & -> & Hdb) | [(row0 & _ & _ & -> & Hdb) | (row0 & Hrow0 & _ & -> & Hdb)]];
    rewrite Hdb in Hrow; cbn [quotas withQuotas] in Hrow.
  - rewrite lookup_insert_eq in Hrow. injection Hrow as <-. reflexivity.
  - rewrite lookup_insert_eq in Hrow. injection Hrow as <-. reflexivity.
  - assert (row0 = row) by congruence. subst. reflexivity.
Qed.

Lemma checkQuota_again_witness :
  exists w2,
    checkQuota sampleIp (sampleNow + 5000)
      (snd (checkQuota sampleIp sampleNow (quiet emptyDb))) =
    (Returned {| ip := sampleIp; remaining := 50; total := 50;
                 resetTime := windowEnd sampleNow; isNewUser := false |}, w2).
Proof.
  eexists.
  apply (checkQuota_again sampleIp sampleNow (sampleNow + 5000) (quiet emptyDb)
           {| ip := sampleIp; remaining := 50; total := 50;
              resetTime := windowEnd sampleNow; isNewUser := true |}
           (snd (checkQuota sampleIp sampleNow (quiet emptyDb)))
           (freshRow sampleNow)).
  - vm_compute. reflexivity.
  - vm_compute. reflexivity.
  - vm_compute. reflexivity.
  - reflexivity.
Defined.

(** X4. The charge. When the remaining quota after the window check
    covers [operationCount] and neither the deduction nor the log entry
    throws, [consumeQuota] returns [success: true] with the [QuotaInfo] of
    the window check in which [remaining] is the number
    [remaining - operationCount], stores that value, appends exactly one
    operation record carrying the identity, the type, the count and the
    document id, and leaves the documents alone. While the exact difference
    is below [2 ^ 53] the new value is that difference; beyond, it is the
    nearest double. *)
Theorem consumeQuota_charges ip type count doc now w info w1 :
  checkQuota ip now w = (Returned info, w1) ->
  count <= remaining info ->
  faultFree 2 w1 = true ->
  exists w' new,
    new = Js.sub (remaining info) count /\
    consumeQuota ip type count doc now w =
      (Returned {| success := true;
                   quota := Some (withRemaining info new);
                   error := None |}, w') /\
    stored ip w' = Some new /\
    operations (db w') =
      operations (db w) ++ [loggedRow ip type count doc now (operations (db w))] /\
    documents (db w') = documents (db w) /\
    (remaining info - count < 2 ^ 53 -> new = remaining info - count).
Proof.
  intros Hcheck Hle Hff.
  destruct (checkQuota_frame _ _ _ _ _ Hcheck) as (Hops & Hdocs & _).
  pose proof (checkQuota_stored _ _ _ _ _ Hcheck) as Hst.
  rewrite (consumeQuota_after_check _ _ _ _ _ _ _ _ Hcheck).
  assert (Hlt : (remaining info <? count) = false) by (apply Z.ltb_ge; lia).
  rewrite Hlt, charge_run by exact Hff.
  do 2 eexists. split; [reflexivity|]. split; [reflexivity|].
  unfold stored in *. cbn [db quotas operations documents withQuotas withOperations].
  rewrite lookup_alter, decide_True by reflexivity.
  destruct (quotas (db w1) !! ip); cbn in *; [|discriminate].
  rewrite Hops, Hdocs.
  split; [reflexivity|]. split; [reflexivity|]. split; [reflexivity|].
  intros Hsafe. apply sub_exact. lia.
Qed.

Lemma consumeQuota_charges_witness :
  exists w',
    consumeQuota sampleIp "publish" 1 None sampleNow (quiet (sampleDb 7 sampleNow)) =
      (Returned {| success := true;
                   quota := Some {| ip := sampleIp; remaining := 6; total := 50;
                                    resetTime := windowEnd sampleNow;
                                    isNewUser := false |};
                   error := None |}, w') /\
    stored sampleIp w' = Some 6.
Proof.
  destruct (consumeQuota_charges sampleIp "publish" 1 None sampleNow
              (quiet (sampleDb 7 sampleNow))
              {| ip := sampleIp; remaining := 7; total := 50;
                 resetTime := windowEnd sampleNow; isNewUser := false |}
              (quiet (sampleDb 7 sampleNow)))
    as (w' & new & _ & Hres & Hst & _ & _ & Hnew).
  - vm_compute. reflexivity.
  - cbn. lia.
  - reflexivity.
  - rewrite Hnew in Hres, Hst by (cbn; lia).
    exists w'. split; [exact Hres | exact Hst].
Defined.

(** X5. A fault between the deduction and the log entry. When the
    deduction is stored and the insertion of the log record throws,
    [consumeQuota] reports the failure "Failed to process quota operation"
    without a [QuotaInfo], the log is unchanged, and the deduction stays
    stored (the number [remaining - operationCount], the exact difference
    while it is below [2 ^ 53]): the unit is charged without an operation
    record. *)
Theorem consumeQuota_log_fault ip type count doc now w info w1 fs :
  checkQuota ip now w = (Returned info, w1) ->
  count <= remaining info ->
  faults w1 = false :: true :: fs ->
  exists w',
    consumeQuota ip type count doc now w = (Returned quotaFailure, w') /\
    stored ip w' = Some (Js.sub (remaining info) count) /\
    (remaining info - count < 2 ^ 53 -> stored ip w' = Some (remaining info - count)) /\
    operations (db w') = operations (db w).
Proof.
  intros Hcheck Hle Hfs.
  destruct (checkQuota_frame _ _ _ _ _ Hcheck) as (Hops & _ & _).
  pose proof (checkQuota_stored _ _ _ _ _ Hcheck) as Hst.
  rewrite (consumeQuota_after_check _ _ _ _ _ _ _ _ Hcheck).
  assert (Hlt : (remaining info <? count) = false) by (apply Z.ltb_ge; lia).
  rewrite Hlt.
  unfold tryCatch, bind, updateQuotaRemaining, insertOperation, statement.
  rewrite Hfs. cbn [fst snd db faults tail ret].
  eexists. split; [reflexivity|].
  unfold stored in *. cbn [db quotas operations withQuotas].
  rewrite lookup_alter, decide_True by reflexivity.
  destruct (quotas (db w1) !! ip); cbn in *; [|discriminate].
  split; [reflexivity|]. split; [|exact Hops].
  intros Hsafe. rewrite sub_exact by lia. reflexivity.
Qed.

Lemma consumeQuota_log_fault_witness :
  exists w',
    consumeQuota sampleIp "publish" 1 None sampleNow
      {| db := sampleDb 7 sampleNow; faults := [false; false; true] |} =
      (Returned quotaFailure, w') /\
    stored sampleIp w' = Some 6 /\
    operations (db w') = [].
Proof.
  destruct (consumeQuota_log_fault sampleIp "publish" 1 None sampleNow
              {| db := sampleDb 7 sampleNow; faults := [false; false; true] |}
              {| ip := sampleIp; remaining := 7; total := 50;
                 resetTime := windowEnd sampleNow; isNewUser := false |}
              {| db := sampleDb 7 sampleNow; faults := [false; true] |} [])
    as (w' & Hres & _ & Hst & Hops).
  - vm_compute. reflexivity.
  - cbn. lia.
  - reflexivity.
  - exists w'. split; [exact Hres|]. split; [apply Hst; cbn; lia | exact Hops].
Defined.

(** The frame of [consumeQuota] under any storage faults. *)
Lemma consumeQuota_frame ip type count doc now w res w' :
  consumeQuota ip type count doc now w = (Returned res, w') ->
  documents (db w') = documents (db w) /\
  (forall other, other <> ip -> quotas (db w') !! other = quotas (db w) !! other) /\
  operations (db w') =
    if success res
    then operations (db w) ++ [loggedRow ip type count doc now (operations (db w))]
    else operations (db w).
Proof.
  intros Hcons.
  destruct (checkQuota ip now w) as [[info|e] w1] eqn:Hcheck.
  - destruct (checkQuota_frame _ _ _ _ _ Hcheck) as (Hops & Hdocs & Hrows).
    rewrite (consumeQuota_after_check _ _ _ _ _ _ _ _ Hcheck) in Hcons.
    destruct (remaining info <? count).
    + injection Hcons as <- <-. cbn [success]. auto.
    + revert Hcons.
      unfold tryCatch, bind, updateQuotaRemaining, insertOperation, statement, ret.
      destruct (faults w1) as [|[] [|[] fs]]; cbn [fst snd db faults tail];
        intros [= <- <-];
        cbn [success db quotas operations documents withQuotas withOperations];
        rewrite ?Hops, ?Hdocs; (split; [reflexivity|]); (split; [|reflexivity]);
        intros other Hne; rewrite <- (Hrows other Hne); try reflexivity;
        apply lookup_alter_ne; congruence.
  - unfold consumeQuota, tryCatch, bind in Hcons. rewrite Hcheck in Hcons.
    injection Hcons as <- <-. cbn [success].
    rewrite (checkQuota_thrown _ _ _ _ _ Hcheck). auto.
Qed.

(** X6. Under any storage faults, [consumeQuota] appends an operation
    record exactly when it returns [success: true], it appends exactly one,
    at the end of the log, and it never touches the documents. *)
Theorem consumeQuota_logs_iff_success ip type count doc now w res w' :
  consumeQuota ip type count doc now w = (Returned res, w') ->
  documents (db w') = documents (db w) /\
  operations (db w') =
    if success res
    then operations (db w) ++ [loggedRow ip type count doc now (operations (db w))]
    else operations (db w).
Proof.
  intros Hcons.
  destruct (consumeQuota_frame _ _ _ _ _ _ _ _ Hcons) as (Hdocs & _ & Hops). auto.
Qed.

Lemma consumeQuota_logs_iff_success_witness :
  operations (db (snd (consumeQuota sampleIp "view" 1 (Some "a1b2c3d4"%string) sampleNow
                         (quiet (sampleDb 0 sampleNow))))) = [].
Proof.
  refine (proj2 (consumeQuota_logs_iff_success sampleIp "view" 1 (Some "a1b2c3d4"%string)
                   sampleNow (quiet (sampleDb 0 sampleNow))
                   {| success := false;
                      quota := Some {| ip := sampleIp; remaining := 0; total := 50;
                                       resetTime := windowEnd sampleNow;
                                       isNewUser := false |};
                      error := Some (insufficientQuota 0 1) |}
                   (snd (consumeQuota sampleIp "view" 1 (Some "a1b2c3d4"%string) sampleNow
                           (quiet (sampleDb 0 sampleNow)))) _)).
  vm_compute. reflexivity.
Defined.

(** One unit charged to a record whose window is open, without faults. *)
Lemma consume_one_unit ip type now w row :
  quotas (db w) !! ip = Some row ->
  inWindow now row ->
  faults w = [] ->
  1 <= remaining_operations row <= 2 ^ 53 ->
  exists res w',
    consumeQuota ip type 1 None now w = (Returned res, w') /\
    success res = true /\
    quotas (db w') !! ip = Some (chargedRow (remaining_operations row - 1) row) /\
    faults w' = [] /\
    length (operations (db w')) = S (length (operations (db w))).
Proof.
  intros Hrow Hwin Hfs Hone.
  assert (Hff : faultFree 1 w = true) by (unfold faultFree; rewrite Hfs; reflexivity).
  pose proof (checkQuota_open _ _ _ _ Hrow Hwin Hff) as Hcheck.
  remember {| ip := ip; remaining := remaining_operations row; total := FREE_QUOTA;
              resetTime := windowEnd (last_reset row); isNewUser := false |}
    as info eqn:Hinfo.
  assert (Hrem : remaining info = remaining_operations row) by (subst info; reflexivity).
  rewrite (consumeQuota_after_check _ _ _ _ _ _ _ _ Hcheck).
  assert (Hlt : (remaining info <? 1) = false) by (apply Z.ltb_ge; lia).
  rewrite Hlt, charge_run by (unfold faultFree; cbn; rewrite Hfs; reflexivity).
  do 2 eexists. split; [reflexivity|]. cbn [success db faults quotas operations
                                            withQuotas withOperations].
  rewrite lookup_alter, decide_True, Hrow, Hfs, Hrem by reflexivity.
  rewrite length_app, sub_exact by lia. cbn. repeat split. lia.
Qed.

(** X7. Spending the quota down. From a record whose window is open and
    that holds [r] units, [r] at most [2 ^ 53] (the numbers up to which
    the subtraction of [consumeQuota] is exact), [k <= r] successive
    one-unit [consumeQuota] calls (no storage fault) leave exactly [r - k]
    units and [k] more operation records; once the record holds 0, the next
    call fails and changes nothing. *)
Theorem consume_until_exhausted ip type now w row k :
  quotas (db w) !! ip = Some row ->
  inWindow now row ->
  faults w = [] ->
  Z.of_nat k <= remaining_operations row ->
  remaining_operations row <= 2 ^ 53 ->
  let spend := fun v => snd (consumeQuota ip type 1 None now v) in
  stored ip (Nat.iter k spend w) = Some (remaining_operations row - Z.of_nat k) /\
  length (operations (db (Nat.iter k spend w))) = (length (operations (db w)) + k)%nat /\
  (Z.of_nat k = remaining_operations row ->
   exists res,
     fst (consumeQuota ip type 1 None now (Nat.iter k spend w)) = Returned res /\
     success res = false /\
     db (spend (Nat.iter k spend w)) = db (Nat.iter k spend w)).
Proof.
  intros Hrow Hwin Hfs Hk Hsafe spend.
  assert (Hinv : quotas (db (Nat.iter k spend w)) !! ip =
                   Some (chargedRow (remaining_operations row - Z.of_nat k) row) /\
                 faults (Nat.iter k spend w) = [] /\
                 length (operations (db (Nat.iter k spend w))) =
                   (length (operations (db w)) + k)%nat).
  { induction k as [|k IH].
    - cbn [Nat.iter]. rewrite Z.sub_0_r, Nat.add_0_r. destruct row. auto.
    - destruct IH as (Hrowk & Hfsk & Hlen); [lia|].
      change (Nat.iter (S k) spend w) with (spend (Nat.iter k spend w)).
      destruct (consume_one_unit ip type now (Nat.iter k spend w) _ Hrowk)
        as (res & w' & Hcons & _ & Hrow' & Hfs' & Hlen'); try assumption.
      + cbn. lia.
      + assert (Hsp : spend (Nat.iter k spend w) = w')
          by (unfold spend at 1; rewrite Hcons; reflexivity).
        rewrite Hsp, Hrow', Hfs', Hlen', Hlen. cbn [chargedRow remaining_operations last_reset
                                               quota_created_at].
        unfold chargedRow. repeat split; [do 2 f_equal; lia | lia]. }
  destruct Hinv as (Hrowk & Hfsk & Hlen).
  split; [unfold stored; rewrite Hrowk; reflexivity|]. split; [exact Hlen|].
  intros Hzero.
  assert (Hff : faultFree 1 (Nat.iter k spend w) = true)
    by (unfold faultFree; rewrite Hfsk; reflexivity).
  pose proof (checkQuota_open _ _ _ _ Hrowk Hwin Hff) as Hcheck.
  unfold spend at 2. rewrite (consumeQuota_after_check _ _ _ _ _ _ _ _ Hcheck).
  cbn [remaining chargedRow remaining_operations].
  assert (Hlt : (remaining_operations row - Z.of_nat k <? 1) = true)
    by (apply Z.ltb_lt; lia).
  rewrite Hlt. cbn [fst snd db]. eexists. repeat split.
Qed.

Lemma consume_until_exhausted_witness :
  stored sampleIp
    (Nat.iter 3 (fun v => snd (consumeQuota sampleIp "publish" 1 None sampleNow v))
       (quiet (sampleDb 3 sampleNow))) = Some 0.
Proof.
  apply (consume_until_exhausted sampleIp "publish" sampleNow (quiet (sampleDb 3 sampleNow))
           {| remaining_operations := 3; last_reset := sampleNow;
              quota_created_at := sampleNow |} 3).
  - reflexivity.
  - vm_compute. reflexivity.
  - reflexivity.
  - cbn. lia.
  - cbn. lia.
Defined.

(* ================================================================== *)
(** * Further properties of the publish action *)
(* ================================================================== *)

(** The size test of [action], on integers. *)
Lemma maxSize_threshold n :
  Qle_bool (inject_Z n) maxSize = true <-> n <= 1887436.
Proof.
  rewrite Qle_bool_iff. unfold maxSize, Qle, Qmult, inject_Z. cbn [Qnum Qden].
  change (Z.pos (10 * 1 * 1)) with 10. lia.
Qed.

(** [action] once the payload is accepted and the unit is charged. *)
Lemma action_after_charge request context now w content res w2 :
  formContent request = Some content ->
  content <> EmptyString ->
  Js.utf8Length content <= 1887436 ->
  consumeQuota (getClientIP request) "publish" 1 None now w = (Returned res, w2) ->
  success res = true ->
  action request context now w =
    (let* limited := limiterStage (getClientIP request) context in
     match limited with
     | Some result => ret result
     | None =>
         let* blocked := moderationStage (getClientIP request) content context in
         match blocked with
         | Some result => ret result
         | None => saveStage (getClientIP request) content context now (quota res)
         end
     end) w2.
Proof.
  intros Hcontent Hne Hsize Hcons Hs.
  unfold action. rewrite Hcontent. destruct content as [|c content]; [contradiction|].
  apply maxSize_threshold in Hsize. rewrite Hsize. cbn [negb].
  rewrite (bind_returned _ _ _ _ _ Hcons), Hs. reflexivity.
Qed.

Lemma limiterStage_pass ip context w :
  PUBLISH_RATE_LIMITER context ("publish:" ++ ip) <> Returned false ->
  limiterStage ip context w = (Returned None, w).
Proof.
  intros Hlimit. unfold limiterStage, tryCatch, bind, await.
  destruct (PUBLISH_RATE_LIMITER context _) as [[|]|e]; try reflexivity. contradiction.
Qed.

Lemma moderateContent_any_world content ai w m w' :
  moderateContent content ai w = (Returned m, w) ->
  moderateContent content ai w' = (Returned m, w').
Proof.
  unfold moderateContent, tryCatch, bind, await, ret.
  destruct (ai (moderationPrompt content)) as [response|e].
  - destruct (Js.includes _ _); intros [= <-]; reflexivity.
  - intros [= <-]. reflexivity.
Qed.

Lemma moderationStage_pass ip content context w m :
  moderateContent content (AI context) w = (Returned m, w) ->
  safe m = true ->
  moderationStage ip content context w = (Returned None, w).
Proof.
  intros Hmod Hsafe. unfold moderationStage.
  apply tryCatch_returned. rewrite (bind_returned _ _ _ _ _ Hmod), Hsafe. reflexivity.
Qed.

(** The save stage when the id is free and nothing throws. *)
Lemma saveStage_run ip content context now q w :
  documents (db w) !! generateShortId (randomUUID context) = None ->
  faultFree 2 w = true ->
  exists w',
    saveStage ip content context now q w =
      (Returned {| act_success := true;
                   act_id := Some (generateShortId (randomUUID context));
                   act_error := None; act_quota := q |}, w') /\
    documents (db w') =
      <[generateShortId (randomUUID context) := publishedDocument content now]>
        (documents (db w)) /\
    quotas (db w') = quotas (db w) /\
    length (operations (db w')) = length (operations (db w)).
Proof.
  intros Hfree Hff. unfold saveStage, tryCatch, bind, insertDocument, attachDocumentId.
  run_statement Hff. rewrite Hfree. cbn [fst snd].
  match goal with
  | |- context [statement ?run ?w0] =>
      specialize (Hlater (db w0)); apply faultFree_S in Hlater as [Hnow _];
      rewrite (statement_run run w0 Hnow)
  end.
  cbn [fst snd db ret]. eexists. split; [reflexivity|].
  cbn [db]. destruct (firstAttachable _ _ _);
    cbn [documents quotas operations withDocuments withOperations];
    rewrite ?length_alter; auto.
Qed.

Lemma faultFree_two n w :
  faultFree (S (S n)) w = true ->
  faultFree 2 w = true /\
  forall d, faultFree n {| db := d; faults := tail (tail (faults w)) |} = true.
Proof.
  unfold faultFree. destruct (faults w) as [|a [|b fs]]; cbn.
  - intros _. split; [reflexivity|]. intros _. destruct n; reflexivity.
  - rewrite andb_true_r. intros ->. split; [reflexivity|]. intros _. destruct n; reflexivity.
  - intros H. apply andb_true_iff in H as [-> H]. apply andb_true_iff in H as [-> H].
    split; [reflexivity|]. intros _. exact H.
Qed.

(** X8. The successful publish. For a non-empty content of at most
    1887436 bytes, an identity with at least one unit left after the
    window check, a rate limiter that does not reject, a moderation that
    reports safe, a short id that is free and no storage fault, [action]
    returns [success: true] with the id (the first 8 characters of the
    UUID) and the [QuotaInfo] with one unit less, stores the document under
    that id with the title "Untitled Document", stores the remaining quota
    reduced by one (the number [remaining - 1], one less for every
    [remaining] up to [2 ^ 53]) and appends one operation record. *)
Theorem publish_succeeds request context now w content info w1 m :
  formContent request = Some content ->
  content <> EmptyString ->
  Js.utf8Length content <= 1887436 ->
  checkQuota (getClientIP request) now w = (Returned info, w1) ->
  1 <= remaining info ->
  PUBLISH_RATE_LIMITER context ("publish:" ++ getClientIP request) <> Returned false ->
  moderateContent content (AI context) w = (Returned m, w) ->
  safe m = true ->
  documents (db w) !! Js.substring0 8 (randomUUID context) = None ->
  faultFree 4 w1 = true ->
  exists w',
    action request context now w =
      (Returned {| act_success := true;
                   act_id := Some (Js.substring0 8 (randomUUID context));
                   act_error := None;
                   act_quota :=
                     Some (withRemaining info (Js.sub (remaining info) 1)) |}, w') /\
    documents (db w') =
      <[Js.substring0 8 (randomUUID context) := publishedDocument content now]>
        (documents (db w)) /\
    stored (getClientIP request) w' = Some (Js.sub (remaining info) 1) /\
    (remaining info <= 2 ^ 53 -> Js.sub (remaining info) 1 = remaining info - 1) /\
    length (operations (db w')) = S (length (operations (db w))).
Proof.
  intros Hcontent Hne Hsize Hcheck Hone Hlimit Hmod Hsafe Hfree Hff.
  destruct (faultFree_two _ _ Hff) as [Hff2 Hrest].
  destruct (checkQuota_frame _ _ _ _ _ Hcheck) as (Hops & Hdocs & _).
  pose proof (checkQuota_stored _ _ _ _ _ Hcheck) as Hst.
  pose proof (consumeQuota_after_check (getClientIP request) "publish" 1 None now
                w info w1 Hcheck) as Hcons.
  assert (Hlt : (remaining info <? 1) = false) by (apply Z.ltb_ge; lia).
  rewrite Hlt, charge_run in Hcons by exact Hff2.
  rewrite (action_after_charge _ _ _ _ _ _ _ Hcontent Hne Hsize Hcons eq_refl).
  rewrite (bind_returned _ _ _ _ _ (limiterStage_pass _ _ _ Hlimit)).
  rewrite (bind_returned _ _ _ _ _
             (moderationStage_pass _ _ _ _ _ (moderateContent_any_world _ _ _ _ _ Hmod)
                Hsafe)).
  match goal with
  | |- context [saveStage ?i ?c ?x ?n ?q ?w0] =>
      destruct (saveStage_run i c x n q w0) as (w' & Hsave & Hdocs' & Hquotas & Hlen)
  end.
  - cbn [db documents withOperations withQuotas]. rewrite Hdocs. exact Hfree.
  - apply Hrest.
  - exists w'. split; [exact Hsave|].
    rewrite Hdocs'. unfold stored in *. rewrite Hquotas, Hlen.
    cbn [db documents quotas operations withOperations withQuotas].
    rewrite lookup_alter, decide_True by reflexivity.
    destruct (quotas (db w1) !! getClientIP request); cbn in *; [|discriminate].
    rewrite Hdocs, Hops, length_app. cbn.
    split; [reflexivity|]. split; [reflexivity|]. split; [|lia].
    intros Hbound. apply sub_exact. lia.
Qed.

Lemma publish_succeeds_witness :
  exists w',
    action (sampleRequest (Some "# Hello"%string)) (sampleContext true (Some "SAFE"%string))
      sampleNow (quiet emptyDb) =
      (Returned {| act_success := true; act_id := Some "123e4567"%string;
                   act_error := None;
                   act_quota := Some {| ip := sampleIp; remaining := 49; total := 50;
                                        resetTime := windowEnd sampleNow;
                                        isNewUser := true |} |}, w') /\
    documents (db w') !! "123e4567"%string = Some (publishedDocument "# Hello" sampleNow).
Proof.
  destruct (publish_succeeds (sampleRequest (Some "# Hello"%string))
              (sampleContext true (Some "SAFE"%string)) sampleNow (quiet emptyDb)
              "# Hello"
              {| ip := sampleIp; remaining := 50; total := 50;
                 resetTime := windowEnd sampleNow; isNewUser := true |}
              (snd (checkQuota sampleIp sampleNow (quiet emptyDb)))
              {| safe := true; reason := None |})
    as (w' & Hact & Hdocs & _).
  - reflexivity.
  - discriminate.
  - vm_compute. discriminate.
  - vm_compute. reflexivity.
  - cbn. lia.
  - discriminate.
  - vm_compute. reflexivity.
  - reflexivity.
  - reflexivity.
  - reflexivity.
  - exists w'. split; [exact Hact|]. rewrite Hdocs. apply lookup_insert_eq.
Defined.

(** X9. Rejection before any cost. A missing or empty content is answered
    with "Content is required", and a content of more than 1887436 bytes
    (1.8 MiB) with the too-large message; in both cases nothing is read from
    or written to the database, so no quota is charged. *)
Theorem action_rejects_invalid_payload request context now w :
  (formContent request = None \/ formContent request = Some EmptyString ->
   action request context now w =
     (Returned (actionError (Some "Content is required"%string) None), w)) /\
  (forall content,
     formContent request = Some content ->
     1887436 < Js.utf8Length content ->
     action request context now w =
       (Returned (actionError (Some (tooLarge (Js.utf8Length content))) None), w)).
Proof.
  unfold action. split.
  - intros [-> | ->]; reflexivity.
  - intros content -> Hsize. destruct content as [|c content]; [cbn in Hsize; lia|].
    destruct (Qle_bool (inject_Z (Js.utf8Length (String c content))) maxSize) eqn:Hle.
    + apply maxSize_threshold in Hle. lia.
    + reflexivity.
Qed.

Lemma action_rejects_invalid_payload_witness :
  action (sampleRequest (Some bigContent)) (sampleContext true None) sampleNow
    (failing emptyDb) =
    (Returned (actionError (Some (tooLarge (Js.utf8Length bigContent))) None),
     failing emptyDb).
Proof.
  apply (proj2 (action_rejects_invalid_payload (sampleRequest (Some bigContent))
                  (sampleContext true None) sampleNow (failing emptyDb))).
  - reflexivity.
  - vm_compute. reflexivity.
Defined.

Lemma moderationStage_refund_fault ip content context w m :
  moderateContent content (AI context) w = (Returned m, w) ->
  safe m = false ->
  head (faults w) = Some true ->
  moderationStage ip content context w =
    (Returned None, {| db := db w; faults := tail (faults w) |}).
Proof.
  intros Hmod Hunsafe Hf. unfold moderationStage, tryCatch.
  rewrite (bind_returned _ _ _ _ _ Hmod), Hunsafe. cbn [negb].
  unfold bind, refundQuota. rewrite (statement_fault _ _ Hf). reflexivity.
Qed.

Lemma limiterStage_refund_fault ip context w :
  PUBLISH_RATE_LIMITER context ("publish:" ++ ip) = Returned false ->
  head (faults w) = Some true ->
  limiterStage ip context w = (Returned None, {| db := db w; faults := tail (faults w) |}).
Proof.
  intros Hlimit Hf. unfold limiterStage, tryCatch, bind, await. rewrite Hlimit.
  cbn [negb]. unfold refundQuota. rewrite (statement_fault _ _ Hf). reflexivity.
Qed.

(** X10. A refund that throws lets blocked content through. When the
    moderation reports the content unsafe and the refund statement of that
    branch throws, the [catch] of the moderation block swallows the error
    and the action goes on: with a free id and no further fault the unsafe
    content is stored and the action returns [success: true]; the unit
    stays charged. *)
Theorem unsafe_content_saved_when_refund_throws
    request context now w content res w2 m fs :
  formContent request = Some content ->
  content <> EmptyString ->
  Js.utf8Length content <= 1887436 ->
  consumeQuota (getClientIP request) "publish" 1 None now w = (Returned res, w2) ->
  success res = true ->
  PUBLISH_RATE_LIMITER context ("publish:" ++ getClientIP request) <> Returned false ->
  moderateContent content (AI context) w2 = (Returned m, w2) ->
  safe m = false ->
  faults w2 = true :: fs ->
  forallb negb (take 2 fs) = true ->
  documents (db w2) !! Js.substring0 8 (randomUUID context) = None ->
  exists w',
    action request context now w =
      (Returned {| act_success := true;
                   act_id := Some (Js.substring0 8 (randomUUID context));
                   act_error := None; act_quota := quota res |}, w') /\
    documents (db w') !! Js.substring0 8 (randomUUID context) =
      Some (publishedDocument content now) /\
    quotas (db w') = quotas (db w2).
Proof.
  intros Hcontent Hne Hsize Hcons Hs Hlimit Hmod Hunsafe Hfs Hrest Hfree.
  rewrite (action_after_charge _ _ _ _ _ _ _ Hcontent Hne Hsize Hcons Hs).
  rewrite (bind_returned _ _ _ _ _ (limiterStage_pass _ _ _ Hlimit)).
  rewrite (bind_returned _ _ _ _ _
             (moderationStage_refund_fault _ _ _ _ _ Hmod Hunsafe
                ltac:(rewrite Hfs; reflexivity))).
  rewrite Hfs. cbn [tail].
  destruct (saveStage_run (getClientIP request) content context now (quota res)
              {| db := db w2; faults := fs |} Hfree Hrest)
    as (w' & Hsave & Hdocs & Hquotas & _).
  exists w'. split; [exact Hsave|]. rewrite Hdocs, Hquotas.
  split; [apply lookup_insert_eq | reflexivity].
Qed.

Lemma unsafe_content_saved_when_refund_throws_witness :
  exists w',
    action (sampleRequest (Some "<iframe src=x>"%string)) (sampleContext true None)
      sampleNow {| db := sampleDb 5 sampleNow; faults := [false; false; false; true] |} =
      (Returned {| act_success := true; act_id := Some "123e4567"%string;
                   act_error := None;
                   act_quota := Some {| ip := sampleIp; remaining := 4; total := 50;
                                        resetTime := windowEnd sampleNow;
                                        isNewUser := false |} |}, w') /\
    documents (db w') !! "123e4567"%string =
      Some (publishedDocument "<iframe src=x>" sampleNow).
Proof.
  destruct (unsafe_content_saved_when_refund_throws
              (sampleRequest (Some "<iframe src=x>"%string)) (sampleContext true None)
              sampleNow
              {| db := sampleDb 5 sampleNow; faults := [false; false; false; true] |}
              "<iframe src=x>"
              {| success := true;
                 quota := Some {| ip := sampleIp; remaining := 4; total := 50;
                                  resetTime := windowEnd sampleNow; isNewUser := false |};
                 error := None |}
              (snd (consumeQuota sampleIp "publish" 1 None sampleNow
                      {| db := sampleDb 5 sampleNow;
                         faults := [false; false; false; true] |}))
              (basicContentCheck "<iframe src=x>") [])
    as (w' & Hact & Hdoc & _).
  - reflexivity.
  - discriminate.
  - vm_compute. discriminate.
  - vm_compute. reflexivity.
  - reflexivity.
  - discriminate.
  - vm_compute. reflexivity.
  - vm_compute. reflexivity.
  - vm_compute. reflexivity.
  - reflexivity.
  - vm_compute. reflexivity.
  - exists w'. split; [exact Hact | exact Hdoc].
Defined.

(** X11. A refund that throws cancels the rate limit. When the rate
    limiter rejects the request and the refund statement of that branch
    throws, the [catch] of the rate-limit block swallows the error and the
    request is handled as if the limiter had let it through: with a safe
    verdict, a free id and no further fault the document is published. *)
Theorem rate_limit_ignored_when_refund_throws
    request context now w content res w2 m fs :
  formContent request = Some content ->
  content <> EmptyString ->
  Js.utf8Length content <= 1887436 ->
  consumeQuota (getClientIP request) "publish" 1 None now w = (Returned res, w2) ->
  success res = true ->
  PUBLISH_RATE_LIMITER context ("publish:" ++ getClientIP request) = Returned false ->
  moderateContent content (AI context) w2 = (Returned m, w2) ->
  safe m = true ->
  faults w2 = true :: fs ->
  forallb negb (take 2 fs) = true ->
  documents (db w2) !! Js.substring0 8 (randomUUID context) = None ->
  exists w',
    action request context now w =
      (Returned {| act_success := true;
                   act_id := Some (Js.substring0 8 (randomUUID context));
                   act_error := None; act_quota := quota res |}, w') /\
    documents (db w') !! Js.substring0 8 (randomUUID context) =
      Some (publishedDocument content now).
Proof.
  intros Hcontent Hne Hsize Hcons Hs Hlimit Hmod Hsafe Hfs Hrest Hfree.
  rewrite (action_after_charge _ _ _ _ _ _ _ Hcontent Hne Hsize Hcons Hs).
  rewrite (bind_returned _ _ _ _ _
             (limiterStage_refund_fault _ _ _ Hlimit ltac:(rewrite Hfs; reflexivity))).
  rewrite Hfs. cbn [tail].
  rewrite (bind_returned _ _ _ _ _
             (moderationStage_pass _ _ _ _ _
                (moderateContent_any_world _ _ _ _ {| db := db w2; faults := fs |} Hmod)
                Hsafe)).
  destruct (saveStage_run (getClientIP request) content context now (quota res)
              {| db := db w2; faults := fs |} Hfree Hrest)
    as (w' & Hsave & Hdocs & _).
  exists w'. split; [exact Hsave|]. rewrite Hdocs. apply lookup_insert_eq.
Qed.

Lemma rate_limit_ignored_when_refund_throws_witness :
  exists w',
    fst (action (sampleRequest (Some "# Hello"%string))
           (sampleContext false (Some "SAFE"%string)) sampleNow
           {| db := sampleDb 5 sampleNow; faults := [false; false; false; true] |}) =
      Returned {| act_success := true; act_id := Some "123e4567"%string;
                  act_error := None;
                  act_quota := Some {| ip := sampleIp; remaining := 4; total := 50;
                                       resetTime := windowEnd sampleNow;
                                       isNewUser := false |} |} /\
    documents (db w') !! "123e4567"%string = Some (publishedDocument "# Hello" sampleNow).
Proof.
  destruct (rate_limit_ignored_when_refund_throws
              (sampleRequest (Some "# Hello"%string))
              (sampleContext false (Some "SAFE"%string)) sampleNow
              {| db := sampleDb 5 sampleNow; faults := [false; false; false; true] |}
              "# Hello"
              {| success := true;
                 quota := Some {| ip := sampleIp; remaining := 4; total := 50;
                                  resetTime := windowEnd sampleNow; isNewUser := false |};
                 error := None |}
              (snd (consumeQuota sampleIp "publish" 1 None sampleNow
                      {| db := sampleDb 5 sampleNow;
                         faults := [false; false; false; true] |}))
              {| safe := true; reason := None |} [])
    as (w' & Hact & Hdoc).
  - reflexivity.
  - discriminate.
  - vm_compute. discriminate.
  - vm_compute. reflexivity.
  - reflexivity.
  - reflexivity.
  - vm_compute. reflexivity.
  - reflexivity.
  - vm_compute. reflexivity.
  - reflexivity.
  - vm_compute. reflexivity.
  - exists w'. rewrite Hact. split; [reflexivity | exact Hdoc].
Defined.

(* ================================================================== *)
(** * The refund round trip *)
(* ================================================================== *)

(** A refund that the schedule lets through adds one unit. *)
Lemma refundQuota_run ip r w :
  stored ip w = Some r ->
  faultFree 1 w = true ->
  exists w',
    refundQuota ip w = (Returned tt, w') /\
    stored ip w' = Some (r + 1) /\
    faults w' = tail (faults w).
Proof.
  intros Hst Hff. unfold refundQuota. rewrite (statement_run _ _ Hff). cbn [fst snd].
  eexists. split; [reflexivity|]. split; [|reflexivity].
  unfold stored in *. cbn [db quotas withQuotas].
  rewrite lookup_alter, decide_True by reflexivity.
  destruct (quotas (db w) !! ip); cbn in *; [|discriminate].
  injection Hst as <-. reflexivity.
Qed.

(** A stage that lets the request through has written nothing. *)
Lemma limiterStage_through ip context w w3 :
  limiterStage ip context w = (Returned None, w3) -> db w3 = db w.
Proof.
  unfold limiterStage, tryCatch, bind, await, refundQuota, statement, ret.
  destruct (PUBLISH_RATE_LIMITER context _) as [[|]|e]; cbn [negb];
    try (intros [= <-]; reflexivity).
  destruct (faults w) as [|[] fs]; cbn [fst snd]; intros [= <-]; reflexivity.
Qed.

Lemma moderationStage_through ip content context w w4 :
  moderationStage ip content context w = (Returned None, w4) -> db w4 = db w.
Proof.
  unfold moderationStage, tryCatch.
  destruct (moderateContent_returns content (AI context) w) as (m & Hmod).
  rewrite (bind_returned _ _ _ _ _ Hmod).
  destruct (safe m); cbn [negb]; [intros [= <-]; reflexivity|].
  unfold bind, refundQuota, statement, ret.
  destruct (faults w) as [|[] fs]; cbn [fst snd]; intros [= <-]; reflexivity.
Qed.

(** The [try] block of the save stage never writes to the quotas. *)
Lemma persistDocument_quotas ip content context now w :
  quotas (db (snd (persistDocument ip content context now w))) = quotas (db w).
Proof.
  unfold persistDocument, bind, insertDocument, attachDocumentId, statement.
  destruct (faults w) as [|[] [|[] fs]]; cbn [fst snd db faults tail];
    try reflexivity;
    destruct (documents (db w) !! _); cbn [fst snd db faults tail]; try reflexivity;
    destruct (firstAttachable _ _ _); reflexivity.
Qed.

(** The save stage, from the outcome of its [try] block. *)
Lemma saveStage_persist ip content context now q w :
  saveStage ip content context now q w =
    match persistDocument ip content context now w with
    | (Returned _, w') =>
        (Returned {| act_success := true;
                     act_id := Some (generateShortId (randomUUID context));
                     act_error := None; act_quota := q |}, w')
    | (Thrown _, w') =>
        (let* _ := refundQuota ip in ret (actionError (Some saveFailed) None)) w'
    end.
Proof.
  unfold saveStage, persistDocument, tryCatch, bind.
  destruct (insertDocument _ _ _ _ w) as [[[]|e] w1]; [|reflexivity].
  destruct (attachDocumentId _ _ w1) as [[[]|e] w2]; reflexivity.
Qed.

(** C4. A publish request whose charge succeeded, on a remaining quota
    within the numbers that the subtraction of [consumeQuota] handles
    exactly (at most [2 ^ 53]). The charge stores one unit less than the
    value the window check left. When a later stage fails and the refund of
    that branch is executed, the action returns the error of that stage and
    the stored remaining quota is again the value before the charge:
    - the rate limiter rejects the request;
    - the moderation reports the content unsafe;
    - one of the two statements that save the document throws.
    Conversely, whenever the action returns one of these three errors the
    stored value is the one before the charge. For a record whose window is
    open, that is the value stored before the request. *)
Theorem publish_refund_round_trip request context now w content info w1 res w2 :
  formContent request = Some content ->
  content <> EmptyString ->
  Js.utf8Length content <= 1887436 ->
  checkQuota (getClientIP request) now w = (Returned info, w1) ->
  consumeQuota (getClientIP request) "publish" 1 None now w = (Returned res, w2) ->
  success res = true ->
  remaining info <= 2 ^ 53 ->
  (stored (getClientIP request) w1 = Some (remaining info) /\
   stored (getClientIP request) w2 = Some (remaining info - 1)) /\
  (PUBLISH_RATE_LIMITER context ("publish:" ++ getClientIP request) = Returned false ->
   faultFree 1 w2 = true ->
   exists w',
     action request context now w = (Returned (actionError (Some rateLimited) None), w') /\
     stored (getClientIP request) w' = Some (remaining info)) /\
  (forall w3 m,
     limiterStage (getClientIP request) context w2 = (Returned None, w3) ->
     moderateContent content (AI context) w3 = (Returned m, w3) ->
     safe m = false ->
     faultFree 1 w3 = true ->
     exists w',
       action request context now w =
         (Returned (actionError (Some (contentBlocked (reason m))) None), w') /\
       stored (getClientIP request) w' = Some (remaining info)) /\
  (forall w3 w4 e w5,
     limiterStage (getClientIP request) context w2 = (Returned None, w3) ->
     moderationStage (getClientIP request) content context w3 = (Returned None, w4) ->
     persistDocument (getClientIP request) content context now w4 = (Thrown e, w5) ->
     faultFree 1 w5 = true ->
     exists w',
       action request context now w = (Returned (actionError (Some saveFailed) None), w') /\
       stored (getClientIP request) w' = Some (remaining info)) /\
  (forall data w',
     action request context now w = (Returned data, w') ->
     refundError data ->
     stored (getClientIP request) w' = Some (remaining info)) /\
  (forall row,
     quotas (db w) !! getClientIP request = Some row -> inWindow now row ->
     stored (getClientIP request) w1 = stored (getClientIP request) w).
Proof.
  intros Hcontent Hne Hsize Hcheck Hcons Hs Hsafe.
  pose proof (action_after_charge _ context _ _ _ _ _ Hcontent Hne Hsize Hcons Hs) as Hact.
  assert (Hcharged : 1 <= remaining info /\
                     stored (getClientIP request) w1 = Some (remaining info) /\
                     stored (getClientIP request) w2 = Some (remaining info - 1)).
  { destruct (consumeQuota_outcome _ _ _ _ _ _ _ _ Hcons)
      as [(_ & _ & info' & w1' & Hcheck' & Hone & _ & Hst1 & Hst2) | (Hf & _)];
      [|congruence].
    rewrite Hcheck in Hcheck'. injection Hcheck' as <- <-.
    rewrite sub_exact in Hst2 by lia. auto. }
  destruct Hcharged as (Hone & Hst1 & Hst2).
  assert (Hback : remaining info - 1 + 1 = remaining info) by lia.
  split; [auto|]. split; [|split; [|split; [|split]]].
  - intros Hlimit Hff.
    destruct (refundQuota_run _ _ _ Hst2 Hff) as (w' & Hrefund & Hst' & _).
    exists w'. rewrite Hact, <- Hback. split; [|exact Hst'].
    unfold bind at 1. unfold limiterStage, tryCatch, bind, await.
    rewrite Hlimit. cbn [negb]. rewrite Hrefund. reflexivity.
  - intros w3 m Hlim Hmod Hunsafe Hff.
    assert (Hst3 : stored (getClientIP request) w3 = Some (remaining info - 1))
      by (rewrite <- Hst2; apply stored_same; f_equal;
          exact (limiterStage_through _ _ _ _ Hlim)).
    destruct (refundQuota_run _ _ _ Hst3 Hff) as (w' & Hrefund & Hst' & _).
    exists w'. rewrite Hact, <- Hback. split; [|exact Hst'].
    rewrite (bind_returned _ _ _ _ _ Hlim).
    unfold bind at 1. unfold moderationStage, tryCatch.
    rewrite (bind_returned _ _ _ _ _ Hmod), Hunsafe. cbn [negb].
    unfold bind. rewrite Hrefund. reflexivity.
  - intros w3 w4 e w5 Hlim Hmod Hsave Hff.
    assert (Hst5 : stored (getClientIP request) w5 = Some (remaining info - 1)).
    { rewrite <- Hst2.
      pose proof (persistDocument_quotas (getClientIP request) content context now w4) as Hq.
      rewrite Hsave in Hq. cbn [snd] in Hq.
      unfold stored. rewrite Hq, (moderationStage_through _ _ _ _ _ Hmod),
        (limiterStage_through _ _ _ _ Hlim). reflexivity. }
    destruct (refundQuota_run _ _ _ Hst5 Hff) as (w' & Hrefund & Hst' & _).
    exists w'. rewrite Hact, <- Hback. split; [|exact Hst'].
    rewrite (bind_returned _ _ _ _ _ Hlim), (bind_returned _ _ _ _ _ Hmod).
    rewrite saveStage_persist, Hsave. unfold bind. rewrite Hrefund. reflexivity.
  - intros data w' Hdata Hre.
    destruct (wp_elim _ _ _ _ _ (action_refund_post request context now w) Hdata
                data eq_refl Hre)
      as (info' & w1' & _ & _ & Hcheck' & _ & _ & _ & _ & Hfinal).
    rewrite Hcheck in Hcheck'. injection Hcheck' as <- <-.
    rewrite sub_exact, Hback in Hfinal by lia. exact Hfinal.
  - intros row Hrow Hwin. rewrite Hst1. unfold stored. rewrite Hrow. cbn.
    destruct (checkQuota_returned _ _ _ _ _ Hcheck)
      as [(Hnone & _) | [(row' & Hrow' & Hexp & _) | (row' & Hrow' & _ & -> & _)]].
    + congruence.
    + unfold inWindow in Hwin. assert (row' = row) by congruence. subst. lia.
    + assert (row' = row) by congruence. subst. reflexivity.
Qed.

(** The three refund branches, each on the sample identity with 5 units
    left: a rejected request, a blocked content, and an id that is taken. *)
Lemma publish_refund_round_trip_witness :
  (exists w',
     action (sampleRequest (Some "# Hello"%string)) (sampleContext false (Some "SAFE"%string))
       sampleNow (quiet (sampleDb 5 sampleNow)) =
       (Returned (actionError (Some rateLimited) None), w') /\
     stored sampleIp w' = Some 5) /\
  (exists w',
     action (sampleRequest (Some "<iframe src=x>"%string)) (sampleContext true None)
       sampleNow (quiet (sampleDb 5 sampleNow)) =
       (Returned (actionError
                    (Some (contentBlocked
                             (Some "Content contains potentially malicious code"%string)))
                    None), w') /\
     stored sampleIp w' = Some 5) /\
  (exists w',
     action (sampleRequest (Some "# Hello"%string)) collidingContext
       sampleNow (quiet (sampleDb 5 sampleNow)) =
       (Returned (actionError (Some saveFailed) None), w') /\
     stored sampleIp w' = Some 5).
Proof.
  pose (info := {| ip := sampleIp; remaining := 5; total := 50;
                   resetTime := windowEnd sampleNow; isNewUser := false |}).
  pose (res := {| success := true; quota := Some (withRemaining info 4); error := None |}).
  pose (w2 := snd (consumeQuota sampleIp "publish" 1 None sampleNow
                     (quiet (sampleDb 5 sampleNow)))).
  split; [|split].
  - destruct (publish_refund_round_trip
                (sampleRequest (Some "# Hello"%string))
                (sampleContext false (Some "SAFE"%string))
                sampleNow (quiet (sampleDb 5 sampleNow)) "# Hello"
                info (quiet (sampleDb 5 sampleNow)) res w2)
      as (_ & Hlimiter & _).
    + reflexivity.
    + discriminate.
    + vm_compute. discriminate.
    + vm_compute. reflexivity.
    + vm_compute. reflexivity.
    + reflexivity.
    + vm_compute. discriminate.
    + apply Hlimiter; reflexivity.
  - destruct (publish_refund_round_trip
                (sampleRequest (Some "<iframe src=x>"%string)) (sampleContext true None)
                sampleNow (quiet (sampleDb 5 sampleNow)) "<iframe src=x>"
                info (quiet (sampleDb 5 sampleNow)) res w2)
      as (_ & _ & Hmoderation & _).
    + reflexivity.
    + discriminate.
    + vm_compute. discriminate.
    + vm_compute. reflexivity.
    + vm_compute. reflexivity.
    + reflexivity.
    + vm_compute. discriminate.
    + apply (Hmoderation w2 (basicContentCheck "<iframe src=x>")).
      * vm_compute. reflexivity.
      * vm_compute. reflexivity.
      * vm_compute. reflexivity.
      * reflexivity.
  - destruct (publish_refund_round_trip
                (sampleRequest (Some "# Hello"%string)) collidingContext
                sampleNow (quiet (sampleDb 5 sampleNow)) "# Hello"
                info (quiet (sampleDb 5 sampleNow)) res w2)
      as (_ & _ & _ & Hsave & _).
    + reflexivity.
    + discriminate.
    + vm_compute. discriminate.
    + vm_compute. reflexivity.
    + vm_compute. reflexivity.
    + reflexivity.
    + vm_compute. discriminate.
    + apply (Hsave w2 w2 ConstraintError w2).
      * vm_compute. reflexivity.
      * vm_compute. reflexivity.
      * vm_compute. reflexivity.
      * reflexivity.
Defined.

(* ================================================================== *)
(** * The publish action when the AI binding fails *)
(* ================================================================== *)

(** The moderation block of [action] never throws. *)
Lemma moderationStage_returns ip content context w :
  exists blocked w', moderationStage ip content context w = (Returned blocked, w').
Proof.
  unfold moderationStage, tryCatch, ret.
  match goal with |- context [match ?b w with _ => _ end] => destruct (b w) as [[o|e] w'] end;
    eauto.
Qed.

(** C7, as the code has it. When the AI call of the moderation fails,
    [moderateContent] does not fail: it falls back to the basic check of
    the content (suspicious patterns, length above 50000), in any world.
    The moderation block of [action] never throws. For a publish that has
    been charged and that the rate-limit stage has let through:
    - when the content passes the basic check, the action goes on with the
      save stage;
    - when the check flags the content and the refund statement runs, the
      action is aborted as content-blocked, with the unit refunded;
    - when the check flags the content and the refund statement throws,
      the [catch] of the moderation block swallows the error and the action
      goes on with the save stage, on the flagged content and with the unit
      still charged. *)
Theorem moderation_failure_falls_back request context now w content res w2 e :
  formContent request = Some content ->
  content <> EmptyString ->
  Js.utf8Length content <= 1887436 ->
  consumeQuota (getClientIP request) "publish" 1 None now w = (Returned res, w2) ->
  success res = true ->
  AI context (moderationPrompt content) = Thrown e ->
  (forall v, moderateContent content (AI context) v =
               (Returned (basicContentCheck content), v)) /\
  (forall v, exists blocked v',
     moderationStage (getClientIP request) content context v = (Returned blocked, v')) /\
  (forall w3,
     limiterStage (getClientIP request) context w2 = (Returned None, w3) ->
     (safe (basicContentCheck content) = true ->
      action request context now w =
        saveStage (getClientIP request) content context now (quota res) w3) /\
     (safe (basicContentCheck content) = false ->
      faultFree 1 w3 = true ->
      exists w',
        action request context now w =
          (Returned (actionError
                       (Some (contentBlocked (reason (basicContentCheck content)))) None),
           w') /\
        stored (getClientIP request) w' = (Z.succ <$> stored (getClientIP request) w3) /\
        documents (db w') = documents (db w3)) /\
     (safe (basicContentCheck content) = false ->
      head (faults w3) = Some true ->
      action request context now w =
        saveStage (getClientIP request) content context now (quota res)
          {| db := db w3; faults := tail (faults w3) |})).
Proof.
  intros Hcontent Hne Hsize Hcons Hs Hai.
  assert (Hmod : forall v, moderateContent content (AI context) v =
                             (Returned (basicContentCheck content), v))
    by (intros v; exact (moderateContent_fallback content (AI context) e v Hai)).
  split; [exact Hmod|]. split; [intros v; apply moderationStage_returns|].
  intros w3 Hlim.
  rewrite (action_after_charge _ context _ _ _ _ _ Hcontent Hne Hsize Hcons Hs).
  rewrite (bind_returned _ _ _ _ _ Hlim).
  split; [|split].
  - intros Hsafe.
    rewrite (bind_returned _ _ _ _ _ (moderationStage_pass _ _ _ _ _ (Hmod w3) Hsafe)).
    reflexivity.
  - intros Hunsafe Hff. eexists.
    erewrite bind_returned.
    2: { unfold moderationStage. apply tryCatch_returned.
         rewrite (bind_returned _ _ _ _ _ (Hmod w3)), Hunsafe. cbn [negb].
         unfold bind, refundQuota. rewrite (statement_run _ _ Hff). reflexivity. }
    split; [reflexivity|].
    unfold stored. cbn [fst snd db quotas documents withQuotas].
    rewrite lookup_alter, decide_True by reflexivity.
    destruct (quotas (db w3) !! getClientIP request); split; reflexivity.
  - intros Hunsafe Hf.
    rewrite (bind_returned _ _ _ _ _
               (moderationStage_refund_fault _ _ _ _ _ (Hmod w3) Hunsafe Hf)).
    reflexivity.
Qed.

(** With the AI binding down and the content "<iframe src=x>", which the
    basic check flags: the publish is blocked and refunded when the refund
    runs, and the content is stored when the refund throws. *)
Lemma moderation_failure_falls_back_witness :
  (exists w',
     action (sampleRequest (Some "<iframe src=x>"%string)) (sampleContext true None)
       sampleNow (quiet (sampleDb 5 sampleNow)) =
       (Returned (actionError
                    (Some "Content blocked: Content contains potentially malicious code"%string)
                    None), w') /\
     stored sampleIp w' = Some 5) /\
  (let r := action (sampleRequest (Some "<iframe src=x>"%string)) (sampleContext true None)
              sampleNow
              {| db := sampleDb 5 sampleNow; faults := [false; false; false; true] |} in
   (act_success <$> match fst r with Returned data => Some data | Thrown _ => None end)
     = Some true /\
   documents (db (snd r)) !! "123e4567"%string =
     Some (publishedDocument "<iframe src=x>" sampleNow)).
Proof.
  pose (res := {| success := true;
                  quota := Some {| ip := sampleIp; remaining := 4; total := 50;
                                   resetTime := windowEnd sampleNow; isNewUser := false |};
                  error := None |}).
  split.
  - pose (w2 := snd (consumeQuota sampleIp "publish" 1 None sampleNow
                       (quiet (sampleDb 5 sampleNow)))).
    destruct (moderation_failure_falls_back
                (sampleRequest (Some "<iframe src=x>"%string)) (sampleContext true None)
                sampleNow (quiet (sampleDb 5 sampleNow)) "<iframe src=x>" res w2
                CollaboratorError)
      as (_ & _ & Hstage).
    + reflexivity.
    + discriminate.
    + vm_compute. discriminate.
    + vm_compute. reflexivity.
    + reflexivity.
    + reflexivity.
    + destruct (Hstage w2) as (_ & Hblocked & _); [vm_compute; reflexivity|].
      destruct Hblocked as (w' & Hact & Hst & _); [vm_compute; reflexivity | reflexivity |].
      exists w'. split; [exact Hact|]. refine (eq_trans Hst _). vm_compute. reflexivity.
  - pose (w0 := {| db := sampleDb 5 sampleNow; faults := [false; false; false; true] |}).
    pose (w2 := snd (consumeQuota sampleIp "publish" 1 None sampleNow w0)).
    destruct (moderation_failure_falls_back
                (sampleRequest (Some "<iframe src=x>"%string)) (sampleContext true None)
                sampleNow w0 "<iframe src=x>" res w2 CollaboratorError)
      as (_ & _ & Hstage).
    + reflexivity.
    + discriminate.
    + vm_compute. discriminate.
    + vm_compute. reflexivity.
    + reflexivity.
    + reflexivity.
    + destruct (Hstage w2) as (_ & _ & Hopen); [vm_compute; reflexivity|].
      cbv zeta. fold w0. rewrite Hopen by (vm_compute; reflexivity).
      vm_compute. split; reflexivity.
Defined.

(* ================================================================== *)
(** * What no request ever does *)
(* ================================================================== *)

Section Invariant.

(** A property of the database that each kind of write preserves. *)
Variable G : D1Database -> Prop.
Hypothesis G_quotas : forall d q, G d -> G (withQuotas q d).
Hypothesis G_log : forall d r, G d -> G (withOperations (operations d ++ [r]) d).
Hypothesis G_document : forall d id row,
  documents d !! id = None -> G d -> G (withDocuments (<[id := row]> (documents d)) d).
Hypothesis G_attach : forall d ip id i,
  firstAttachable (engine d) ip (operations d) = Some i ->
  G d -> G (withOperations (alter (setDocument id) i (operations d)) d).

Ltac walk :=
  repeat (cbv beta iota; cbn [fst snd db];
          match goal with
          | |- G _ => solve [auto]
          | |- wp (ret _) _ _ => apply wp_ret
          | |- wp (throw _) _ _ => apply wp_throw
          | |- wp (await _) _ _ => apply wp_await
          | |- wp (bind _ _) _ _ => apply wp_bind
          | |- wp (tryCatch _ _) _ _ => apply wp_tryCatch
          | |- wp (statement _) _ _ => apply wp_statement
          | |- context [match ?x with Some _ => _ | None => _ end] => destruct x eqn:?
          | |- context [match ?x with Returned _ => _ | Thrown _ => _ end] =>
              destruct x eqn:?
          | |- context [if ?x then _ else _] => destruct x eqn:?
          end).

Ltac call H :=
  eapply wp_conseq; [apply H; assumption|]; intros [?|?] ? ?.

Lemma checkQuota_keeps ip now w :
  G (db w) -> wp (checkQuota ip now) (fun _ w' => G (db w')) w.
Proof.
  intros HG.
  unfold checkQuota, selectQuota, insertQuota, updateQuotaReset. walk.
Qed.

Lemma consumeQuota_keeps ip type count doc now w :
  G (db w) -> wp (consumeQuota ip type count doc now) (fun _ w' => G (db w')) w.
Proof.
  intros HG. unfold consumeQuota, updateQuotaRemaining, insertOperation.
  apply wp_tryCatch, wp_bind. call checkQuota_keeps; walk.
Qed.

Lemma action_keeps request context now w :
  G (db w) -> wp (action request context now) (fun _ w' => G (db w')) w.
Proof.
  intros HG. unfold action.
  destruct (formContent request) as [[|c content]|]; walk.
  call consumeQuota_keeps; walk.
  all: unfold refundQuota, insertDocument, attachDocumentId; walk.
  all: try (apply wp_moderateContent; intros m); walk.
  all: try (apply G_attach with (ip := getClientIP request); [assumption|]); walk.
Qed.

Lemma documentLoader_keeps id request now w :
  G (db w) -> wp (documentLoader id request now) (fun _ w' => G (db w')) w.
Proof.
  intros HG. unfold documentLoader, selectDocument. walk.
  call consumeQuota_keeps; walk.
Qed.

Lemma apiQuotaLoader_keeps tz request now today w :
  G (db w) -> wp (apiQuotaLoader tz request now today) (fun _ w' => G (db w')) w.
Proof.
  intros HG. unfold apiQuotaLoader, getUsageStats, selectOperationsSince.
  apply wp_tryCatch, wp_bind, wp_tryCatch, wp_bind. call checkQuota_keeps; walk.
Qed.

Lemma serveAll_keeps w calls : G (db w) -> G (db (serveAll w calls)).
Proof.
  unfold serveAll. revert w.
  induction calls as [|c calls IH]; intros w HG; cbn [fold_left]; [exact HG|].
  apply IH. destruct c; cbn [serve].
  - exact (checkQuota_keeps _ _ _ HG).
  - exact (action_keeps _ _ _ _ HG).
  - exact (documentLoader_keeps _ _ _ _ HG).
  - exact (apiQuotaLoader_keeps _ _ _ _ _ HG).
Qed.

End Invariant.

Lemma keeps_refl r : keeps r r.
Proof. unfold keeps. auto 10. Qed.

Lemma keeps_trans a b c : keeps a b -> keeps b c -> keeps a c.
Proof.
  unfold keeps. intros (? & ? & ? & ? & ? & Hab) (? & ? & ? & ? & ? & Hbc).
  repeat split; try congruence.
  destruct Hab as [Ha|Hab]; [left; exact Ha|].
  destruct Hbc as [Hb|Hbc]; [left; congruence | right; congruence].
Qed.

(** The record that [attachDocumentId] picks is one of [ip] without a
    document, whichever of the tied records the engine puts first. *)
Lemma newestAttachable_spec ip rows i :
  In i (newestAttachable ip rows) ->
  exists r, rows !! i = Some r /\ attachable ip r = true.
Proof.
  unfold newestAttachable. intros Hin.
  apply filter_In in Hin as [Hin _]. apply filter_In in Hin as [_ Hatt].
  destruct (rows !! i) as [r|]; [eauto | discriminate].
Qed.

Lemma firstAttachable_spec e ip rows i :
  firstAttachable e ip rows = Some i ->
  exists r, rows !! i = Some r /\ attachable ip r = true.
Proof.
  unfold firstAttachable. intros Hpick. apply newestAttachable_spec.
  destruct (newestAttachable ip rows) as [|j tied]; [discriminate|].
  destruct (existsb _ _) eqn:Hex; injection Hpick as <-.
  - apply existsb_exists in Hex as (k & Hk & Heq).
    apply Nat.eqb_eq in Heq. rewrite Heq. exact Hk.
  - left. reflexivity.
Qed.

(** X12. Stored documents are immutable. Whatever requests are served
    (home page, publish, view, statistics), under any storage faults and
    any behaviour of the rate limiter and of the moderation, a document
    that is stored is never overwritten or removed: in particular a publish
    whose short id collides with an existing document leaves that document
    as it was. *)
Theorem documents_never_change w calls id doc :
  documents (db w) !! id = Some doc ->
  documents (db (serveAll w calls)) !! id = Some doc.
Proof.
  apply (serveAll_keeps (fun d => documents d !! id = Some doc)); auto.
  intros d id' row Hfree Hdoc. cbn [documents withDocuments].
  rewrite lookup_insert_ne; [exact Hdoc | congruence].
Qed.

Lemma documents_never_change_witness :
  documents
    (db (serveAll (quiet (sampleDb 5 sampleNow))
           [CallPublish (sampleRequest (Some "# Other"%string))
              {| PUBLISH_RATE_LIMITER := fun _ => Returned true;
                 AI := fun _ => Thrown CollaboratorError;
                 randomUUID := "a1b2c3d4-0000-4000-8000-000000000000" |}
              (sampleNow + 1000)])) !! "a1b2c3d4"%string = Some sampleDocument.
Proof.
  apply documents_never_change. reflexivity.
Defined.

(** X13. The operation log is append-only. Whatever requests are served,
    under any storage faults and collaborator behaviour, every record of
    the log stays at its position with its id, identity, type, count and
    creation time; the only change a record can undergo is that a document
    id is attached to a record that had none. *)
Theorem log_append_only w calls :
  logExtends (operations (db w)) (operations (db (serveAll w calls))).
Proof.
  apply (serveAll_keeps (fun d => logExtends (operations (db w)) (operations d))).
  - auto.
  - intros d r Hd i r0 Hr0. destruct (Hd i r0 Hr0) as (r' & Hr' & Hk).
    exists r'. cbn [operations withOperations]. split; [|exact Hk].
    apply lookup_app_l_Some. exact Hr'.
  - auto.
  - intros d ip id i Hpick Hd j r0 Hr0. destruct (Hd j r0 Hr0) as (r' & Hr' & Hk).
    cbn [operations withOperations]. rewrite list_lookup_alter.
    destruct (decide (i = j)) as [<-|Hne]; [|eauto].
    rewrite Hr'. cbn. eexists. split; [reflexivity|].
    apply (keeps_trans _ r'); [exact Hk|].
    destruct (firstAttachable_spec _ _ _ _ Hpick) as (r1 & Hr1 & Hatt).
    rewrite Hr' in Hr1. injection Hr1 as <-.
    unfold attachable in Hatt. apply andb_true_iff in Hatt as [_ Hdoc].
    unfold keeps, setDocument. cbn. destruct (document_id r'); [discriminate|]. auto 10.
  - intros i r Hr. exists r. split; [exact Hr | apply keeps_refl].
Qed.

(* ================================================================== *)
(** * Further properties of the loaders *)
(* ================================================================== *)

(** X14. The document loader fails only with a 404 response, also when the
    storage is what failed, and a request that fails has written nothing
    (no unit is charged for it); a document that is returned is the stored
    one. *)
Theorem documentLoader_outcome id request now w :
  match fst (documentLoader id request now w) with
  | Returned document => documents (db w) !! id = Some document
  | Thrown e => e = NotFoundResponse /\ db (snd (documentLoader id request now w)) = db w
  end.
Proof.
  destruct (documentLoader id request now w) as [o w'] eqn:Hload. cbn [fst snd].
  revert Hload.
  destruct (decide (head (faults w) = Some true)) as [Hf|Hf].
  { unfold documentLoader, tryCatch, bind, selectDocument.
    rewrite (statement_fault _ _ Hf). intros [= <- <-]. auto. }
  assert (Hff : faultFree 1 w = true).
  { unfold faultFree. destruct (faults w) as [|[] fs]; simpl in *; congruence. }
  unfold documentLoader, tryCatch at 1. unfold bind at 1. unfold selectDocument.
  rewrite (statement_run _ _ Hff). cbn [fst snd].
  destruct (documents (db w) !! id) as [document|]; [|intros [= <- <-]; auto].
  unfold bind at 1, tryCatch, bind.
  match goal with
  | |- context [consumeQuota ?i ?t ?c ?d ?n ?v] =>
      destruct (consumeQuota_returns i t c d n v) as (res & w2 & ->)
  end.
  intros [= <- <-]. reflexivity.
Qed.

Lemma replaceDots_no_dot s : Js.includes "." (Js.replaceDots s) = false.
Proof.
  induction s as [|c s IH]; [reflexivity|].
  cbn [Js.replaceDots Js.includes]. rewrite IH, orb_false_r.
  destruct (Ascii.eqb c ".") eqn:Hc; cbn; [reflexivity|].
  rewrite Ascii.eqb_sym in Hc. unfold Ascii.eqb in *.
  destruct c as [[] [] [] [] [] [] [] []]; cbn in *; congruence.
Qed.

(** X15. The statistics endpoint always answers: it never throws, the
    status is 200 or 500, a 500 always carries "Failed to fetch usage
    stats" (the "Internal server error" branch cannot be reached, since
    [getUsageStats] never throws), and in a 200 the identity is shown with
    every dot replaced, so that no dot is left in it. *)
Theorem apiQuotaLoader_response tz request now today w :
  exists status body w',
    apiQuotaLoader tz request now today w = (Returned (status, body), w') /\
    ((status = 500 /\ body = ApiError "Failed to fetch usage stats") \/
     (status = 200 /\
      exists stats,
        body = ApiUsage (Js.replaceDots (getClientIP request)) stats /\
        Js.includes "." (Js.replaceDots (getClientIP request)) = false)).
Proof.
  unfold apiQuotaLoader, tryCatch at 1. unfold bind at 1.
  destruct (getUsageStats tz (getClientIP request) now today w) as [o w'] eqn:Hstats.
  assert (Hret : exists stats, o = Returned stats).
  { revert Hstats. unfold getUsageStats, tryCatch, ret.
    match goal with
    | |- context [match ?b w with _ => _ end] => destruct (b w) as [[a|e] w1]
    end; intros [= <- <-]; eauto. }
  destruct Hret as [[stats|] ->]; cbn [ret]; do 3 eexists; (split; [reflexivity|]).
  - right. split; [reflexivity|]. exists stats. split; [reflexivity|].
    apply replaceDots_no_dot.
  - left. auto.
Qed.

(** X16. The masking of the identity hides nothing: on texts without an
    asterisk (every IP address) it is injective, so the masked text
    determines the address. *)
Theorem replaceDots_injective s t :
  Js.includes "*" s = false ->
  Js.includes "*" t = false ->
  Js.replaceDots s = Js.replaceDots t ->
  s = t.
Proof.
  revert t. induction s as [|c s IH]; intros [|d t]; cbn [Js.replaceDots Js.includes];
    intros Hs Ht Heq; try discriminate Heq; [reflexivity|].
  apply orb_false_iff in Hs as [Hc Hs]. apply orb_false_iff in Ht as [Hd Ht].
  injection Heq as Hhead Htail. f_equal; [|apply IH; assumption].
  destruct (Ascii.eqb_spec c "."), (Ascii.eqb_spec d "."); subst;
    try reflexivity; cbn in Hc, Hd;
    first [destruct t; discriminate Hd | destruct s; discriminate Hc].
Qed.

Lemma replaceDots_injective_witness :
  getClientIP (sampleRequest None) = sampleIp.
Proof.
  apply (replaceDots_injective (getClientIP (sampleRequest None)) sampleIp);
    vm_compute; reflexivity.
Defined.

(* ================================================================== *)
(** * Further properties of the moderation *)
(* ================================================================== *)

(** X17. A verdict always comes with what the caller needs: [moderateContent]
    never throws and leaves the world alone, an unsafe verdict always
    carries a non-empty reason (so "Content blocked: " is never followed by
    nothing or by "undefined"), and a safe verdict carries none. *)
Theorem moderateContent_reason content ai w :
  exists m,
    moderateContent content ai w = (Returned m, w) /\
    (safe m = false -> exists c rest, reason m = Some (String c rest)) /\
    (safe m = true -> reason m = None).
Proof.
  unfold moderateContent, tryCatch, bind, await, ret.
  destruct (ai (moderationPrompt content)) as [response|e].
  - destruct (Js.includes _ _); eexists; (split; [reflexivity|]); cbn [safe reason];
      (split; [|try discriminate; reflexivity]); try discriminate.
    intros _. unfold Js.orElse.
    destruct (Js.trim <$> _) as [[|c rest]|]; eauto.
  - eexists. split; [reflexivity|]. unfold basicContentCheck.
    destruct (existsb _ _); [|destruct (_ <? _)]; cbn [safe reason];
      (split; [|try discriminate; reflexivity]); try discriminate; eauto.
Qed.

Lemma moderateContent_reason_witness :
  exists c rest,
    reason (basicContentCheck "<iframe src=x>") = Some (String c rest).
Proof.
  destruct (moderateContent_reason "<iframe src=x>" (fun _ => Thrown CollaboratorError)
              (quiet emptyDb)) as (m & Hm & Hreason & _).
  injection Hm as <-. apply Hreason. vm_compute. reflexivity.
Defined.

(** A literal pattern matches where its text starts, whatever the case of
    the letters. *)
Lemma run_text_prefix p prev s :
  String.prefix (Js.toUpperCase p) (Js.toUpperCase s) = true ->
  Regex.run (Regex.text p) (prev, s) <> [].
Proof.
  revert prev s. induction p as [|a p IH]; intros prev s Hpre; cbn [Regex.text].
  - cbn. discriminate.
  - destruct s as [|x s]; [discriminate|].
    cbn [Js.toUpperCase String.prefix] in Hpre.
    destruct (ascii_dec (Js.upperChar a) (Js.upperChar x)) as [Heq|]; [|discriminate].
    cbn [Regex.run Regex.chr snd]. rewrite <- Heq, Ascii.eqb_refl.
    cbn [flat_map]. rewrite app_nil_r. apply IH. exact Hpre.
Qed.

Lemma search_finds p n prev s :
  (String.length s <= n)%nat ->
  Js.includes (Js.toUpperCase p) (Js.toUpperCase s) = true ->
  Regex.search n (Regex.text p) (prev, s) = true.
Proof.
  revert prev s. induction n as [|n IH]; intros prev s Hlen Hinc.
  - destruct s; [|cbn in Hlen; lia]. cbn [Js.toUpperCase Js.includes] in Hinc.
    rewrite orb_false_r in Hinc.
    pose proof (run_text_prefix p prev EmptyString Hinc) as Hrun.
    cbn [Regex.search]. destruct (Regex.run _ _); [contradiction | reflexivity].
  - cbn [Regex.search].
    destruct (Regex.run (Regex.text p) (prev, s)) as [|c cs] eqn:Hrun; [|reflexivity].
    destruct s as [|x s]; cbn [snd].
    + cbn [Js.toUpperCase Js.includes] in Hinc. rewrite orb_false_r in Hinc.
      apply (run_text_prefix p prev EmptyString) in Hinc. contradiction.
    + cbn [Js.toUpperCase Js.includes] in Hinc.
      apply orb_true_iff in Hinc as [Hpre|Hinc].
      * apply (run_text_prefix p prev (String x s)) in Hpre. contradiction.
      * apply IH; [cbn in Hlen; lia | exact Hinc].
Qed.

(** X18. The fallback check. A content that contains "javascript:",
    "vbscript:" or "data:text/html", in any mix of upper and lower case, or
    that is longer than 50000 characters, is reported unsafe by
    [basicContentCheck]. *)
Theorem basicContentCheck_flags content :
  Js.includes "JAVASCRIPT:" (Js.toUpperCase content) = true \/
  Js.includes "VBSCRIPT:" (Js.toUpperCase content) = true \/
  Js.includes "DATA:TEXT/HTML" (Js.toUpperCase content) = true \/
  50000 < Z.of_nat (String.length content) ->
  safe (basicContentCheck content) = false.
Proof.
  intros H. unfold basicContentCheck.
  destruct (existsb _ suspiciousPatterns) eqn:Hpat; [reflexivity|].
  unfold suspiciousPatterns in Hpat. cbn [existsb] in Hpat.
  repeat (apply orb_false_iff in Hpat as [? Hpat]).
  destruct H as [H|[H|[H|H]]].
  - assert (Regex.test (Regex.text "javascript:") content = true)
      by (apply search_finds; [lia | exact H]).
    congruence.
  - assert (Regex.test (Regex.text "vbscript:") content = true)
      by (apply search_finds; [lia | exact H]).
    congruence.
  - assert (Regex.test (Regex.text "data:text/html") content = true)
      by (apply search_finds; [lia | exact H]).
    congruence.
  - apply Z.ltb_lt in H. rewrite H. reflexivity.
Qed.

Lemma basicContentCheck_flags_witness :
  safe (basicContentCheck "[x](JaVaScRiPt:alert(1))") = false.
Proof.
  apply basicContentCheck_flags. left. vm_compute. reflexivity.
Defined.

(** X19. The AI sees a prefix only. Two contents with the same first
    20000 characters get the same prompt, so whenever the AI answers (does
    not throw) they get the same verdict: what lies beyond the first 20000
    characters is not moderated on that path. *)
Theorem moderateContent_prefix_only c1 c2 ai w response :
  Js.substring0 20000 c1 = Js.substring0 20000 c2 ->
  ai (moderationPrompt c1) = Returned response ->
  moderateContent c1 ai w = moderateContent c2 ai w.
Proof.
  intros Hpre Hai.
  assert (Hprompt : moderationPrompt c2 = moderationPrompt c1)
    by (unfold moderationPrompt; rewrite Hpre; reflexivity).
  unfold moderateContent, tryCatch, bind, await. rewrite Hprompt, Hai.
  destruct (Js.includes _ _); reflexivity.
Qed.

Lemma substring_app n s t :
  (n <= String.length s)%nat ->
  String.substring 0 n (s ++ t) = String.substring 0 n s.
Proof.
  revert s. induction n as [|n IH]; intros s Hlen.
  - destruct s; destruct t; reflexivity.
  - destruct s as [|c s]; [cbn in Hlen; lia|].
    change (String c (String.substring 0 n (s ++ t)) = String c (String.substring 0 n s)).
    f_equal. apply IH. cbn in Hlen. lia.
Qed.

Lemma substring0_app n s t :
  n <= Z.of_nat (String.length s) ->
  Js.substring0 n (s ++ t) = Js.substring0 n s.
Proof. intros Hlen. unfold Js.substring0. apply substring_app. lia. Qed.

Lemma moderateContent_prefix_only_witness :
  moderateContent (padding ++ "<script>alert(1)</script>")
    (AI (sampleContext true (Some "SAFE"%string))) (quiet emptyDb) =
  moderateContent (padding ++ "ok")
    (AI (sampleContext true (Some "SAFE"%string))) (quiet emptyDb).
Proof.
  apply (moderateContent_prefix_only _ _ _ _
           {| ai_response := JsString "SAFE"; ai_output := JsNothing |}).
  - rewrite !substring0_app; [reflexivity | |]; vm_compute; discriminate.
  - reflexivity.
Defined.

(* ================================================================== *)
(** * Further properties of the page and of the statistics *)
(* ================================================================== *)

Lemma trim_nonempty content : Js.trim content <> EmptyString -> content <> EmptyString.
Proof. intros H ->. apply H. reflexivity. Qed.

Lemma overLimit_iff content sub a l :
  isOverLimit (Home a l content sub) = true <-> 1887436 < Js.utf8Length content.
Proof.
  cbn [Home isOverLimit]. unfold Qgt_bool. rewrite negb_true_iff.
  rewrite <- not_true_iff_false, maxSize_threshold. lia.
Qed.

(** [action] when the charge is refused. *)
Lemma action_charge_refused request context now w content res w2 :
  formContent request = Some content ->
  content <> EmptyString ->
  Js.utf8Length content <= 1887436 ->
  consumeQuota (getClientIP request) "publish" 1 None now w = (Returned res, w2) ->
  success res = false ->
  action request context now w =
    (Returned (actionError (error res) (quota res)), w2).
Proof.
  intros Hcontent Hne Hsize Hcons Hs.
  unfold action. rewrite Hcontent. destruct content as [|c content]; [contradiction|].
  apply maxSize_threshold in Hsize. rewrite Hsize. cbn [negb].
  rewrite (bind_returned _ _ _ _ _ Hcons), Hs. reflexivity.
Qed.

Ltac stage_walk :=
  repeat (cbv beta iota; cbn [fst snd db negb];
          match goal with
          | |- forall data, Thrown _ = Returned data -> _ => intros ? [=]
          | |- forall data, Returned _ = Returned data -> _ =>
              intros ? [= <-]; unfold refundError; cbn; solve [eauto 8]
          | |- wp (ret _) _ _ => apply wp_ret
          | |- wp (throw _) _ _ => apply wp_throw
          | |- wp (await _) _ _ => apply wp_await
          | |- wp (bind _ _) _ _ => apply wp_bind
          | |- wp (tryCatch _ _) _ _ => apply wp_tryCatch
          | |- wp (statement _) _ _ => apply wp_statement
          | |- wp (moderateContent _ _) _ _ => apply wp_moderateContent; intros ?
          | |- context [match ?x with Some _ => _ | None => _ end] => destruct x eqn:?
          | |- context [match ?x with Returned _ => _ | Thrown _ => _ end] =>
              destruct x eqn:?
          | |- context [if ?x then _ else _] => destruct x eqn:?
          end).

(** After a successful charge the action ends in success or in one of its
    three refund errors. *)
Lemma stages_post ip content context now q w :
  wp (let* limited := limiterStage ip context in
      match limited with
      | Some result => ret result
      | None =>
          let* blocked := moderationStage ip content context in
          match blocked with
          | Some result => ret result
          | None => saveStage ip content context now q
          end
      end)
     (fun o _ => forall data, o = Returned data ->
                 (act_success data = true /\ act_error data = None) \/
                 refundError data) w.
Proof.
  unfold limiterStage, moderationStage, saveStage, refundQuota, insertDocument,
    attachDocumentId.
  stage_walk.
Qed.

(** X20. The publish button guards the validation of the action. When
    the page leaves the button enabled, no submission is in flight, the
    content is not empty, it is at most 1887436 bytes long, which is exactly
    the bound of the action, and the quota shown is not 0; submitting that
    content is then never answered by "Content is required" or by the
    too-large message. *)
Theorem publish_button_guards
    actionData loaderData content isSubmitting request context now w :
  publishDisabled (Home actionData loaderData content isSubmitting) = false ->
  formContent request = Some content ->
  isSubmitting = false /\
  content <> EmptyString /\
  Js.utf8Length content <= 1887436 /\
  (forall q, view_quota (Home actionData loaderData content isSubmitting) = Some q ->
             remaining q <> 0) /\
  forall data, fst (action request context now w) = Returned data ->
    act_error data <> Some "Content is required"%string /\
    act_error data <> Some (tooLarge (Js.utf8Length content)).
Proof.
  intros Hbutton Hcontent.
  assert (Hover : isOverLimit (Home actionData loaderData content isSubmitting) = false
                  /\ isSubmitting = false
                  /\ String.eqb (Js.trim content) EmptyString = false
                  /\ isOutOfQuota (Home actionData loaderData content isSubmitting) = false).
  { cbn [Home publishDisabled isOverLimit isOutOfQuota] in *.
    repeat (apply orb_false_iff in Hbutton as [Hbutton ?]). auto. }
  destruct Hover as (Hover & Hsub & Htrim & Hout).
  assert (Hne : content <> EmptyString).
  { apply trim_nonempty. intros Heq. rewrite Heq in Htrim. discriminate. }
  assert (Hsize : Js.utf8Length content <= 1887436).
  { apply not_true_iff_false in Hover. rewrite overLimit_iff in Hover. lia. }
  split; [exact Hsub|]. split; [exact Hne|]. split; [exact Hsize|]. split.
  - intros q Hq Hzero. cbn [Home isOutOfQuota view_quota] in Hout, Hq.
    rewrite Hq in Hout. apply Z.eqb_neq in Hout. contradiction.
  - intros data Hdata.
    destruct (consumeQuota_returns (getClientIP request) "publish" 1 None now w)
      as (res & w2 & Hcons).
    destruct (consumeQuota_outcome _ _ _ _ _ _ _ _ Hcons)
      as [(Hs & _) | (Hs & Herr)].
    + rewrite (action_after_charge _ _ _ _ _ _ _ Hcontent Hne Hsize Hcons Hs) in Hdata.
      pose proof (stages_post (getClientIP request) content context now (quota res) w2)
        as Hpost.
      unfold wp in Hpost. specialize (Hpost data Hdata).
      destruct Hpost as [[_ Hr] | [Hr | [[r Hr] | Hr]]]; rewrite Hr; split; discriminate.
    + rewrite (action_charge_refused _ _ _ _ _ _ _ Hcontent Hne Hsize Hcons Hs) in Hdata.
      injection Hdata as <-. cbn [act_error actionError].
      destruct Herr as [-> | [r ->]]; split; discriminate.
Qed.

Lemma publish_button_guards_witness :
  "# Hello"%string <> EmptyString /\ Js.utf8Length "# Hello" <= 1887436.
Proof.
  destruct (publish_button_guards None
              (Some {| ip := sampleIp; remaining := 50; total := 50;
                       resetTime := windowEnd sampleNow; isNewUser := true |})
              "# Hello" false (sampleRequest (Some "# Hello"%string))
              (sampleContext true (Some "SAFE"%string)) sampleNow (quiet emptyDb))
    as (_ & Hne & Hsize & _).
  - vm_compute. reflexivity.
  - reflexivity.
  - split; [exact Hne | exact Hsize].
Defined.

(** X21. What [checkQuota] returns describes what is stored. Whenever
    [checkQuota] returns, under any storage faults, the record of the
    identity exists, its window is open at [now], and the [QuotaInfo]
    carries its remaining quota, the daily limit 50 as total, and as reset
    time the ISO text of its last reset plus 24 hours. *)
Theorem checkQuota_describes_row ip now w info w1 :
  checkQuota ip now w = (Returned info, w1) ->
  exists row,
    quotas (db w1) !! ip = Some row /\
    inWindow now row /\
    remaining info = remaining_operations row /\
    total info = 50 /\
    resetTime info = Time.toISOString (last_reset row + 24 * Time.msPerHour).
Proof.
  intros Hcheck.
  destruct (checkQuota_returned _ _ _ _ _ Hcheck)
    as [(_ & -> & ->) | [(row & _ & _ & -> & ->) | (row & Hrow & Hwin & -> & ->)]];
    cbn [quotas withQuotas].
  - exists (freshRow now). rewrite lookup_insert_eq. unfold inWindow. cbn.
    repeat split. unfold Time.msPerDay, Time.msPerHour. lia.
  - exists (resetRow now row). rewrite lookup_insert_eq. unfold inWindow. cbn.
    repeat split. unfold Time.msPerDay, Time.msPerHour. lia.
  - exists row. auto.
Qed.

Lemma checkQuota_describes_row_witness :
  exists row,
    quotas (db (snd (checkQuota sampleIp sampleNow
                       (quiet (sampleDb 3 (sampleNow - 25 * Time.msPerHour))))))
      !! sampleIp = Some row /\
    inWindow sampleNow row /\ remaining_operations row = 50.
Proof.
  destruct (checkQuota_describes_row sampleIp sampleNow
              (quiet (sampleDb 3 (sampleNow - 25 * Time.msPerHour)))
              {| ip := sampleIp; remaining := 50; total := 50;
                 resetTime := windowEnd sampleNow; isNewUser := false |}
              (snd (checkQuota sampleIp sampleNow
                      (quiet (sampleDb 3 (sampleNow - 25 * Time.msPerHour))))))
    as (row & Hrow & Hwin & Hrem & _).
  - vm_compute. reflexivity.
  - exists row. cbn in Hrem. auto.
Defined.

(** X22. The statistics. Whenever [getUsageStats] returns statistics,
    the database is the one its inner [checkQuota] left (the statistics
    query writes nothing), the quota is the one [checkQuota] returned,
    [operationsToday] is the sum of the totals of the breakdown, and the
    usage percentage is twice the number of used units, hence between 0 and
    100 when the stored quotas are within their bounds. *)
Theorem getUsageStats_summary tz ip now today w stats w' :
  getUsageStats tz ip now today w = (Returned (Some stats), w') ->
  (exists w1, checkQuota ip now w = (Returned (stats_quota stats), w1) /\ db w' = db w1) /\
  operationsToday stats = sumTotals (operationBreakdown stats) /\
  usagePercentage stats = 2 * (FREE_QUOTA - remaining (stats_quota stats)) /\
  (quotaBounded (db w) -> 0 <= usagePercentage stats <= 100).
Proof.
  intros Hstats.
  assert (Hshape : exists w1,
            checkQuota ip now w = (Returned (stats_quota stats), w1) /\ db w' = db w1 /\
            operationsToday stats = sumTotals (operationBreakdown stats) /\
            usagePercentage stats = percentageUsed (remaining (stats_quota stats))).
  { revert Hstats. unfold getUsageStats, tryCatch, bind, selectOperationsSince, statement.
    destruct (checkQuota ip now w) as [[info|e] w1]; [|discriminate].
    destruct (faults w1) as [|[] fs]; cbn [fst snd ret]; intros [= <- <-];
      exists w1; cbn [stats_quota operationsToday operationBreakdown usagePercentage db];
      rewrite fold_left_totals; repeat split; lia. }
  destruct Hshape as (w1 & Hcheck & Hdb & Hsum & Hpct).
  rewrite percentageUsed_exact in Hpct.
  split; [eauto|]. split; [exact Hsum|]. split; [exact Hpct|].
  intros Hb.
  pose proof (wp_elim _ _ _ _ _ (checkQuota_bounded ip now w Hb) Hcheck) as [_ Hinfo].
  destruct (Hinfo _ eq_refl) as [Hrange _].
  rewrite Hpct. unfold FREE_QUOTA in *. lia.
Qed.

Lemma getUsageStats_summary_witness :
  exists stats,
    fst (getUsageStats 0 sampleIp sampleNow sampleNow (quiet (sampleDb 37 sampleNow))) =
      Returned (Some stats) /\
    usagePercentage stats = 26.
Proof.
  pose (stats := {| stats_quota := {| ip := sampleIp; remaining := 37; total := 50;
                                      resetTime := windowEnd sampleNow;
                                      isNewUser := false |};
                    operationsToday := 0; operationBreakdown := [];
                    usagePercentage := 26 |}).
  exists stats. split; [vm_compute; reflexivity|].
  destruct (getUsageStats_summary 0 sampleIp sampleNow sampleNow
              (quiet (sampleDb 37 sampleNow)) stats
              (snd (getUsageStats 0 sampleIp sampleNow sampleNow
                      (quiet (sampleDb 37 sampleNow)))))
    as (_ & _ & Hpct & _).
  - vm_compute. reflexivity.
  - rewrite Hpct. reflexivity.
Defined.
